(** * Saarthi fund-data scripts: feed parser and return enricher

    A shallow embedding of
    - [saarthi/scripts/fetch-fund-data-CLEAN.py]  (class [FundDataFetcher]),
    - [saarthi/scripts/update-fund-data-ACTUALLY-FIXED.py]
      (class [FundDataUpdater]),
    - [saarthi/scripts/enrich-with-mfapi.py] (class [MFApiEnricher]),
    and the properties of the written specification that can be stated over it.

    Python [str] values are lists of 8-bit code points (the Latin-1 range,
    which contains the ASCII feed); Python [float] is the kernel's binary64;
    a [dict] whose iteration order is observable is an association list in
    insertion order; an exception is a value of an error monad. *)

From Stdlib Require Import List Ascii String ZArith Lia Bool Arith Floats.
Import ListNotations.

(* ------------------------------------------------------------------ *)
(** ** Python strings *)

Module PyStr.

Definition str := list ascii.

(** A literal of the source. *)
Definition lit (s : string) : str := list_ascii_of_string s.
Arguments lit s%_string.

(** [c.isspace()] on code points below 256. *)
Definition isspace (c : ascii) : bool :=
  let n := nat_of_ascii c in
  ((9 <=? n) && (n <=? 13)) || ((28 <=? n) && (n <=? 32))
  || (n =? 133) || (n =? 160).

(** [c.isdigit()] on code points below 256 (the superscripts 1, 2, 3 count). *)
Definition isdigit (c : ascii) : bool :=
  let n := nat_of_ascii c in
  ((48 <=? n) && (n <=? 57)) || (n =? 178) || (n =? 179) || (n =? 185).

(** [c.lower()] on code points below 256. *)
Definition lower_char (c : ascii) : ascii :=
  let n := nat_of_ascii c in
  if ((65 <=? n) && (n <=? 90))
     || ((192 <=? n) && (n <=? 222) && negb (n =? 215))
  then ascii_of_nat (n + 32) else c.

Definition lower (s : str) : str := map lower_char s.

Fixpoint str_eqb (a b : str) : bool :=
  match a, b with
  | [], [] => true
  | x :: a', y :: b' => Ascii.eqb x y && str_eqb a' b'
  | _, _ => false
  end.

(** [s.lstrip()] *)
Fixpoint lstrip (s : str) : str :=
  match s with
  | [] => []
  | c :: s' => if isspace c then lstrip s' else s
  end.

(** [s.rstrip()] *)
Definition rstrip (s : str) : str := rev (lstrip (rev s)).

(** [s.strip()] *)
Definition strip (s : str) : str := rstrip (lstrip s).

(** [s.split(sep)] for a one-character separator: never empty, keeps empty
    fields. *)
Fixpoint split_on (sep : ascii) (s : str) : list str :=
  match s with
  | [] => [[]]
  | c :: s' =>
      if Ascii.eqb c sep then [] :: split_on sep s'
      else match split_on sep s' with
           | w :: ws => (c :: w) :: ws
           | [] => [[c]]
           end
  end.

(** [s.split()]: the maximal runs of non-whitespace characters. *)
Fixpoint split_ws (s : str) : list str :=
  match s with
  | [] => []
  | c :: s' =>
      if isspace c then split_ws s'
      else match s' with
           | [] => [[c]]
           | d :: _ =>
               if isspace d then [c] :: split_ws s'
               else match split_ws s' with
                    | w :: ws => (c :: w) :: ws
                    | [] => [[c]]
                    end
           end
  end.

(** [sep.join(ws)] *)
Fixpoint join (sep : str) (ws : list str) : str :=
  match ws with
  | [] => []
  | [w] => w
  | w :: ws' => w ++ sep ++ join sep ws'
  end.

(** [c in s] for a character. *)
Definition contains_char (c : ascii) (s : str) : bool :=
  existsb (Ascii.eqb c) s.

Fixpoint starts_with (p s : str) : bool :=
  match p, s with
  | [], _ => true
  | a :: p', b :: s' => Ascii.eqb a b && starts_with p' s'
  | _ :: _, [] => false
  end.

(** [p in s] for strings. *)
Fixpoint contains (p s : str) : bool :=
  starts_with p s
  || match s with
     | [] => false
     | _ :: s' => contains p s'
     end.

End PyStr.

(* ------------------------------------------------------------------ *)
(** ** Exceptions *)

Module Exn.

Inductive exn := IndexError | ValueError | KeyError | ZeroDivisionError.

Inductive result (A : Type) :=
| Ok (a : A)
| Raise (e : exn).
Arguments Ok {A} a.
Arguments Raise {A} e.

Definition bind {A B} (m : result A) (k : A -> result B) : result B :=
  match m with
  | Ok a => k a
  | Raise e => Raise e
  end.

(** [xs[i]] *)
Definition index {A} (xs : list A) (i : nat) : result A :=
  match nth_error xs i with
  | Some x => Ok x
  | None => Raise IndexError
  end.

End Exn.

Notation "x <- m ;; k" := (Exn.bind m (fun x => k))
  (at level 61, m at next level, right associativity).

(* ------------------------------------------------------------------ *)
(** ** The regular expressions of [clean_fund_name]

    Every pattern of the source has the shape [\s*-\s*TOKEN.*$] and is used
    with [re.IGNORECASE] and without [re.MULTILINE]. *)

Module Re.
Import PyStr.

Definition newline : ascii := "010"%char.
Definition hyphen : ascii := "-"%char.

(** [TOKEN] under IGNORECASE at the head of [s]; the rest of [s]. *)
Fixpoint match_token (tok s : str) : option str :=
  match tok with
  | [] => Some s
  | a :: tok' =>
      match s with
      | b :: s' =>
          if Ascii.eqb (lower_char a) (lower_char b) then match_token tok' s'
          else None
      | [] => None
      end
  end.

(** [\s*-\s*TOKEN] at the head of [s]; the rest of [s].  The greedy [\s*]
    takes the whole run of whitespace: what follows it in the pattern is
    not whitespace, so no shorter run can succeed. *)
Definition match_head (tok s : str) : option str :=
  match lstrip s with
  | c :: s1 =>
      if Ascii.eqb c hyphen then match_token tok (lstrip s1) else None
  | [] => None
  end.

(** [.*$] at the head of [s]; the part of [s] left unconsumed.  [.] takes
    every character but a newline, and [$] holds at the end of the string
    and just before a newline that is its last character. *)
Fixpoint dot_star_eol (s : str) : option str :=
  match s with
  | [] => Some []
  | c :: s' =>
      if Ascii.eqb c newline
      then match s' with
           | [] => Some s
           | _ :: _ => None
           end
      else dot_star_eol s'
  end.

(** The whole pattern at the head of [s]. *)
Definition match_here (tok s : str) : option str :=
  match match_head tok s with
  | Some r => dot_star_eol r
  | None => None
  end.

(** [re.sub(r'\s*-\s*TOKEN.*$', '', s, flags=re.IGNORECASE)]: the leftmost
    match is deleted; what is left after it is empty or one newline, where
    the pattern, which needs a hyphen, cannot match again. *)
Fixpoint sub_plan (tok s : str) : str :=
  match match_here tok s with
  | Some rest => rest
  | None =>
      match s with
      | [] => []
      | c :: s' => c :: sub_plan tok s'
      end
  end.

End Re.

(* ------------------------------------------------------------------ *)
(** ** The catalog *)

Module Catalog.
Import PyStr.

Record Returns := mkReturns {
  r_1year : option float;
  r_3year : option float;
  r_5year : option float
}.

Definition no_returns : Returns := mkReturns None None None.

Record FundRecord := mkFund {
  f_name : str;
  f_amc : option str;
  f_scheme_code : option str;
  f_nav : option float;
  f_nav_date : str;
  f_category : str;
  f_returns : option Returns;
  f_benchmark_name : str;
  f_benchmark_1year : option float;
  f_source : str;
  f_last_updated : str
}.

(** A [dict] keyed by strings, in insertion order. *)
Definition dict (V : Type) := list (str * V).

Fixpoint get {V} (k : str) (d : dict V) : option V :=
  match d with
  | [] => None
  | (k', v) :: d' => if str_eqb k k' then Some v else get k d'
  end.

(** [k in d] *)
Definition mem {V} (k : str) (d : dict V) : bool :=
  match get k d with
  | Some _ => true
  | None => false
  end.

(** [d[k] = v]: in place when the key is there, at the end otherwise. *)
Fixpoint set {V} (k : str) (v : V) (d : dict V) : dict V :=
  match d with
  | [] => [(k, v)]
  | (k', v') :: d' =>
      if str_eqb k k' then (k', v) :: d' else (k', v') :: set k v d'
  end.

Definition keys {V} (d : dict V) : list str := map fst d.

End Catalog.

(* ------------------------------------------------------------------ *)
(** ** Feed parser ([FundDataFetcher], [FundDataUpdater]) *)

Module FeedParser.
Import PyStr Exn Catalog.

(** [k in s] for a literal [k] of the source. *)
Notation "k 'isin' s" := (contains (lit k%string) s)
  (at level 35, no associativity).

(** [clean_fund_name] (the same text in both scripts). *)
Definition clean_fund_name (name : str) : str :=
  let name := Re.sub_plan (lit "Direct") name in
  let name := Re.sub_plan (lit "DIRECT") name in
  let name := Re.sub_plan (lit "Regular") name in
  let name := Re.sub_plan (lit "REGULAR") name in
  let name := Re.sub_plan (lit "Growth") name in
  let name := Re.sub_plan (lit "GROWTH") name in
  let name := join (lit " ") (split_ws name) in
  strip name.

(** [any(sector in name_lower for sector in [...])] *)
Definition sectors : list str :=
  map lit ["infrastructure"; "banking"; "technology"; "healthcare";
           "defence"; "psu"; "manufacturing"; "pharma"; "auto";
           "energy"]%string.

(** [determine_category] of fetch-fund-data-CLEAN.py. *)
Definition determine_category (fund_name : str) : str :=
  let nm := lower fund_name in
  if "elss" isin nm || "tax saver" isin nm then lit "Equity - ELSS"
  else if "flexi cap" isin nm then lit "Equity - Flexi Cap"
  else if "large cap" isin nm || "bluechip" isin nm || "blue chip" isin nm
       then lit "Equity - Large Cap"
  else if "mid cap" isin nm || "midcap" isin nm then lit "Equity - Mid Cap"
  else if "small cap" isin nm || "smallcap" isin nm
       then lit "Equity - Small Cap"
  else if "index" isin nm then lit "Equity - Index"
  else if "fof" isin nm || "fund of funds" isin nm then lit "Fund of Funds"
  else if "liquid" isin nm then lit "Debt - Liquid"
  else if "balanced" isin nm || "hybrid" isin nm || "advantage" isin nm
       then lit "Hybrid"
  else if "debt" isin nm || "bond" isin nm then lit "Debt"
  else if "money market" isin nm then lit "Debt - Money Market"
  else if existsb (fun sector => contains sector nm) sectors
       then lit "Equity - Sectoral"
  else lit "Other".

(** [determine_category] of update-fund-data-ACTUALLY-FIXED.py: the same
    chain with seven sector words. *)
Definition determine_category_fixed (fund_name : str) : str :=
  let nm := lower fund_name in
  if "elss" isin nm || "tax saver" isin nm then lit "Equity - ELSS"
  else if "flexi cap" isin nm then lit "Equity - Flexi Cap"
  else if "large cap" isin nm || "bluechip" isin nm || "blue chip" isin nm
       then lit "Equity - Large Cap"
  else if "mid cap" isin nm || "midcap" isin nm then lit "Equity - Mid Cap"
  else if "small cap" isin nm || "smallcap" isin nm
       then lit "Equity - Small Cap"
  else if "index" isin nm then lit "Equity - Index"
  else if "fof" isin nm || "fund of funds" isin nm then lit "Fund of Funds"
  else if "liquid" isin nm then lit "Debt - Liquid"
  else if "balanced" isin nm || "hybrid" isin nm || "advantage" isin nm
       then lit "Hybrid"
  else if "debt" isin nm || "bond" isin nm then lit "Debt"
  else if "money market" isin nm then lit "Debt - Money Market"
  else if "infrastructure" isin nm || "banking" isin nm || "technology" isin nm
          || "healthcare" isin nm || "defence" isin nm || "psu" isin nm
          || "manufacturing" isin nm
       then lit "Equity - Sectoral"
  else lit "Other".

(** The two scripts differ in what they classify. *)
Inductive script := CLEAN | ACTUALLY_FIXED.

Definition category_of (v : script) (scheme_name clean_name : str) : str :=
  match v with
  | CLEAN => determine_category scheme_name
  | ACTUALLY_FIXED => determine_category_fixed clean_name
  end.

Record state := mkState {
  funds_data : dict FundRecord;
  current_amc : option str;
  fund_count : nat
}.

Definition init : state := mkState [] None 0.

Section Parser.

(** [float(s)], [None] when it raises [ValueError]. *)
Variable py_float : str -> option float.
(** [datetime.now().strftime('%Y-%m-%d')] *)
Variable today : str.
Variable v : script.

(** [line and not line[0].isdigit()] *)
Definition is_amc_line (line : str) : bool :=
  match line with
  | [] => false
  | c :: _ => negb (isdigit c)
  end.

(** [try: nav = float(nav_str) if nav_str else None; except: nav = None] *)
Definition parse_nav (nav_str : str) : option float :=
  match nav_str with
  | [] => None
  | _ :: _ => py_float nav_str
  end.

(** The four fields read off a split line (the [parts[i].strip()] lines). *)
Definition extract_fields (parts : list str)
  : result (str * str * str * str) :=
  p0 <- index parts 0 ;;
  p3 <- index parts 3 ;;
  p4 <- index parts 4 ;;
  p5 <- index parts 5 ;;
  Ok (strip p0, strip p3, strip p4, strip p5).

Definition new_fund (st : state) (scheme_code scheme_name nav_str nav_date
                                  clean_name : str) : FundRecord :=
  {| f_name := scheme_name;
     f_amc := current_amc st;
     f_scheme_code := Some scheme_code;
     f_nav := parse_nav nav_str;
     f_nav_date := nav_date;
     f_category := category_of v scheme_name clean_name;
     f_returns := Some no_returns;
     f_benchmark_name := lit "N/A";
     f_benchmark_1year := None;
     f_source := lit "AMFI India";
     f_last_updated := today |}.

(** The body of [for line in lines:]. *)
Definition process_line (st : state) (raw : str) : result state :=
  let line := strip raw in
  if is_amc_line line then
    Ok (mkState (funds_data st) (Some line) (fund_count st))
  else if contains_char ";"%char line then
    let parts := split_on ";"%char line in
    if 6 <=? List.length parts then
      fields <- extract_fields parts ;;
      let '(scheme_code, scheme_name, nav_str, nav_date) := fields in
      match scheme_name, scheme_code with
      | [], _ | _, [] => Ok st
      | _ :: _, _ :: _ =>
          let clean_name := clean_fund_name scheme_name in
          if mem clean_name (funds_data st) then Ok st
          else
            Ok (mkState
                  (funds_data st
                   ++ [(clean_name,
                        new_fund st scheme_code scheme_name nav_str nav_date
                                 clean_name)])
                  (current_amc st)
                  (S (fund_count st)))
      end
    else Ok st
  else Ok st.

Fixpoint process_lines (st : state) (lines : list str) : result state :=
  match lines with
  | [] => Ok st
  | l :: ls => st' <- process_line st l ;; process_lines st' ls
  end.

(** [fetch_amfi_nav_data], from the body of the HTTP response on: the
    catalog after [for line in response.text.split('\n')]. *)
Definition parse_feed (text : str) : result state :=
  process_lines init (split_on Re.newline text).

End Parser.

End FeedParser.

(** *** The parser line by line: what a line contributes to the catalog *)

Module FeedView.
Import PyStr Exn Catalog FeedParser.

(** The fields of a line with six parts or more. *)
Definition fields_0345 (parts : list str) : str * str * str * str :=
  (strip (nth 0 parts []), strip (nth 3 parts []),
   strip (nth 4 parts []), strip (nth 5 parts [])).

Section View.

Variable py_float : str -> option float.
Variable today : str.

(** What a line contributes: its key and its record, when it is a record
    line with six fields or more and a name. *)
Definition line_record (v : script) (st : state) (raw : str)
  : option (str * FundRecord) :=
  let line := strip raw in
  let parts := split_on ";"%char line in
  if is_amc_line line then None
  else if 6 <=? List.length parts then
    let '(scheme_code, scheme_name, nav_str, nav_date) := fields_0345 parts in
    match scheme_name with
    | [] => None
    | _ :: _ =>
        Some (clean_fund_name scheme_name,
              new_fund py_float today v st scheme_code scheme_name nav_str
                       nav_date (clean_fund_name scheme_name))
    end
  else None.

(** The key a line files its record under; it depends neither on the
    script nor on the state. *)
Definition line_key (raw : str) : option str :=
  option_map fst (line_record CLEAN init raw).

End View.

(** How often a key occurs. *)
Definition count_key (k : str) (ks : list str) : nat :=
  List.length (filter (str_eqb k) ks).

(** The rule table of the specification, in its order: the words of a rule
    and its label. *)
Definition category_rules : list (list str * str) :=
  [ (map lit ["elss"; "tax saver"]%string, lit "Equity - ELSS");
    (map lit ["flexi cap"]%string, lit "Equity - Flexi Cap");
    (map lit ["large cap"; "bluechip"; "blue chip"]%string,
     lit "Equity - Large Cap");
    (map lit ["mid cap"; "midcap"]%string, lit "Equity - Mid Cap");
    (map lit ["small cap"; "smallcap"]%string, lit "Equity - Small Cap");
    (map lit ["index"]%string, lit "Equity - Index");
    (map lit ["fof"; "fund of funds"]%string, lit "Fund of Funds");
    (map lit ["liquid"]%string, lit "Debt - Liquid");
    (map lit ["balanced"; "hybrid"; "advantage"]%string, lit "Hybrid");
    (map lit ["debt"; "bond"]%string, lit "Debt");
    (map lit ["money market"]%string, lit "Debt - Money Market");
    (map lit ["infrastructure"; "banking"; "technology"; "healthcare";
              "defence"; "psu"; "manufacturing"; "pharma"; "auto";
              "energy"]%string,
     lit "Equity - Sectoral") ].

(** The label of the first rule one of whose words occurs in [s], and
    ["Other"] when there is none. *)
Fixpoint first_match (rules : list (list str * str)) (s : str) : str :=
  match rules with
  | [] => lit "Other"
  | (words, label) :: rest =>
      if existsb (fun w => contains w s) words then label
      else first_match rest s
  end.

(** [' '.join(s.split())] *)
Definition collapse (s : str) : str := join (lit " ") (split_ws s).

(** The tokens of [clean_fund_name], in the order of its [re.sub] calls. *)
Definition plan_tokens : list str :=
  map lit ["Direct"; "DIRECT"; "Regular"; "REGULAR"; "Growth";
           "GROWTH"]%string.

(** [\s*-\s*TOKEN] matches somewhere in [s]. *)
Fixpoint has_head (tok s : str) : bool :=
  match Re.match_head tok s with
  | Some _ => true
  | None =>
      match s with
      | [] => false
      | _ :: s' => has_head tok s'
      end
  end.

(** [TOKEN] matches at the head of [s]. *)
Definition matches (tok s : str) : bool :=
  match Re.match_token tok s with
  | Some _ => true
  | None => false
  end.

(** [\s*-\s*TOKEN] matches at the head of [s]. *)
Definition head_b (tok s : str) : bool :=
  match Re.match_head tok s with
  | Some _ => true
  | None => false
  end.

(** A token the patterns can carry: not empty, no whitespace in it. *)
Definition solid (tok : str) : bool :=
  match tok with
  | [] => false
  | _ :: _ => forallb (fun c => negb (isspace c)) tok
  end.

End FeedView.

(* ------------------------------------------------------------------ *)
(** ** Python floats *)

Module PyFloat.
Import Exn.

(** [bool(x)]: false for [0.0] and [-0.0] only ([nan] is true). *)
Definition truthy (x : float) : bool := negb (PrimFloat.eqb x PrimFloat.zero).

(** [x / y], which raises on a zero divisor. *)
Definition div (x y : float) : result float :=
  if PrimFloat.eqb y PrimFloat.zero then Raise ZeroDivisionError
  else Ok (PrimFloat.div x y).

(** The integer nearest to [num / den] for [0 < den], ties to the even
    one. *)
Definition round_half_even (num den : Z) : Z :=
  let q := (num / den)%Z in
  let r := (num mod den)%Z in
  match (2 * r ?= den)%Z with
  | Lt => q
  | Gt => (q + 1)%Z
  | Eq => if Z.even q then q else (q + 1)%Z
  end.

(** The integer nearest to [m * 100 * 2^e], ties to even. *)
Definition hundredths (m : positive) (e : Z) : Z :=
  match e with
  | Zneg p => round_half_even (Zpos m * 100) (Z.pow_pos 2 p)
  | _ => (Zpos m * 100 * 2 ^ e)%Z
  end.

(** [round(x, 2)]: CPython writes [x] as a decimal correctly rounded to two
    places (half to even, on the exact value) and reads the decimal back
    correctly rounded; [nan] and the infinities round to themselves. *)
Definition round2 (x : float) : float :=
  match Prim2SF x with
  | S754_finite s m e =>
      match hundredths m e with
      | Zpos n =>
          SF2Prim (SFdiv prec emax (S754_finite s n 0)
                         (S754_finite false 100 0))
      | _ => SF2Prim (S754_zero s)
      end
  | _ => x
  end.

End PyFloat.

(* ------------------------------------------------------------------ *)
(** ** Return enricher ([MFApiEnricher]) *)

Module ReturnEnricher.
Import PyStr Exn Catalog.

(** One point of the series: [{'date': 'DD-MM-YYYY', 'nav': 'XXX.XX'}]. *)
Record nav_entry := mkEntry {
  date : str;
  nav : str
}.

(** A naive [datetime], in microseconds. *)
Definition datetime := Z.

(** [timedelta(days=d)] *)
Definition timedelta_days (d : Z) : Z := (d * 86400000000)%Z.

Section Returns.

(** [float(s)], [None] when it raises [ValueError]. *)
Variable py_float : str -> option float.
(** [datetime.strptime(s, '%d-%m-%Y')], [None] when it raises. *)
Variable strptime : str -> option datetime.

Definition float_of (s : str) : result float :=
  match py_float s with
  | Some x => Ok x
  | None => Raise ValueError
  end.

Definition strptime_of (s : str) : result datetime :=
  match strptime s with
  | Some t => Ok t
  | None => Raise ValueError
  end.

(** The [try] block of the scan on one point: [Ok (Some x)] is
    [return x], [Ok None] falls out of the [if]. *)
Definition try_entry (target_date : datetime) (nav_entry : nav_entry)
  : result (option float) :=
  nav_date <- strptime_of (date nav_entry) ;;
  if (nav_date <=? target_date)%Z then
    x <- float_of (nav nav_entry) ;; Ok (Some x)
  else Ok None.

(** [for nav_entry in nav_history: try: ... except: continue], then
    [return None]. *)
Fixpoint scan (target_date : datetime) (nav_history : list nav_entry)
  : option float :=
  match nav_history with
  | [] => None
  | nav_entry :: rest =>
      match try_entry target_date nav_entry with
      | Ok (Some x) => Some x
      | Ok None => scan target_date rest
      | Raise _ => scan target_date rest
      end
  end.

(** [get_nav_n_days_ago(days)], with the reading [now] of
    [datetime.now()]. *)
Definition get_nav_n_days_ago (now : datetime) (nav_history : list nav_entry)
           (days : Z) : option float :=
  scan (now - timedelta_days days)%Z nav_history.

(** [if nav_Ny: returns[...] = round(((current_nav - nav_Ny) / nav_Ny)
    * 100, 2)] *)
Definition horizon_return (current_nav : float) (nav_past : option float)
  : result (option float) :=
  match nav_past with
  | Some p =>
      if PyFloat.truthy p then
        q <- PyFloat.div (PrimFloat.sub current_nav p) p ;;
        Ok (Some (PyFloat.round2 (PrimFloat.mul q 100%float)))
      else Ok None
  | None => Ok None
  end.

(** The body of the outer [try] of [calculate_returns]; [now k] is the
    [k]-th reading of the clock during the call. *)
Definition calculate_returns_body (now : nat -> datetime)
           (nav_history : list nav_entry) : result (option Returns) :=
  if List.length nav_history <? 2 then Ok None
  else
    e0 <- index nav_history 0 ;;
    current_nav <- float_of (nav e0) ;;
    r1 <- horizon_return current_nav
            (get_nav_n_days_ago (now 0) nav_history 365) ;;
    r3 <- horizon_return current_nav
            (get_nav_n_days_ago (now 1) nav_history 1095) ;;
    r5 <- horizon_return current_nav
            (get_nav_n_days_ago (now 2) nav_history 1825) ;;
    Ok (Some (mkReturns r1 r3 r5)).

(** [calculate_returns]: [except Exception: return None]. *)
Definition calculate_returns (now : nat -> datetime)
           (nav_history : list nav_entry) : option Returns :=
  match calculate_returns_body now nav_history with
  | Ok r => r
  | Raise _ => None
  end.

End Returns.

(** The three horizons: the key of [returns], the days back and the clock
    reading of the call. *)
Inductive horizon := Year1 | Year3 | Year5.

Definition days_of (hz : horizon) : Z :=
  match hz with
  | Year1 => 365
  | Year3 => 1095
  | Year5 => 1825
  end%Z.

Definition reading_of (hz : horizon) : nat :=
  match hz with
  | Year1 => 0
  | Year3 => 1
  | Year5 => 2
  end.

(** The return of a horizon in what [calculate_returns] gave back; [None]
    is an absent return. *)
Definition horizon_value (r : option Returns) (hz : horizon) : option float :=
  match r with
  | Some x =>
      match hz with
      | Year1 => r_1year x
      | Year3 => r_3year x
      | Year5 => r_5year x
      end
  | None => None
  end.

(** *** The batch driver *)

(** [data['enrichment_progress']] *)
Record Progress := mkProgress {
  last_index : nat;
  p_successful : nat;
  p_failed : nat;
  p_timestamp : str
}.

(** [data['enrichment_stats']] *)
Record Stats := mkStats {
  total_funds : nat;
  enriched : nat;
  s_failed : nat;
  completion_date : str
}.

(** The JSON document of the catalog file. *)
Record data := mkData {
  funds : dict FundRecord;
  last_updated : str;
  enrichment_progress : option Progress;
  enrichment_complete : bool;
  enrichment_stats : option Stats
}.

(** An entry of [self.errors]. *)
Record error_entry := mkError {
  err_fund : str;
  err_scheme_code : str;
  err_error : str
}.

(** The enricher object, the two files it writes and the progress lines it
    prints ([console] holds the index [i] of each line [[i+1/total]]).  A
    file is the JSON document that can be read from it: [None] when there
    is no file and when what is in the file is no JSON document (a file
    opened for writing that [json.dump] has not filled yet), the two cases
    in which the [json.load] of [resume_from_progress] raises. *)
Record enricher := mkEnricher {
  successful : nat;
  failed : nat;
  errors : list error_entry;
  output_file : option data;
  errors_file : option (list error_entry);
  console : list nat
}.

(** [MFApiEnricher()], with the files as they are on disk. *)
Definition new_enricher (out : option data) : enricher :=
  mkEnricher 0 0 [] out None [].

Definition set_counters (e : enricher) (s f : nat) : enricher :=
  mkEnricher s f (errors e) (output_file e) (errors_file e) (console e).

Definition add_error (e : enricher) (x : error_entry) : enricher :=
  mkEnricher (successful e) (failed e) (errors e ++ [x]) (output_file e)
             (errors_file e) (console e).

Definition print_progress (e : enricher) (i : nat) : enricher :=
  mkEnricher (successful e) (failed e) (errors e) (output_file e)
             (errors_file e) (console e ++ [i]).

Definition write_output (e : enricher) (d : data) : enricher :=
  mkEnricher (successful e) (failed e) (errors e) (Some d)
             (errors_file e) (console e).

Definition write_errors (e : enricher) : enricher :=
  mkEnricher (successful e) (failed e) (errors e) (output_file e)
             (Some (errors e)) (console e).

(** [open(self.output_file, 'w')]: the file is emptied, and until the
    [json.dump] of the [with] block is over it holds the beginning of a
    document and not a document. *)
Definition open_output (e : enricher) : enricher :=
  mkEnricher (successful e) (failed e) (errors e) None (errors_file e)
             (console e).

(** [open('saarthi/data/enrichment-errors.json', 'w')] *)
Definition open_errors (e : enricher) : enricher :=
  mkEnricher (successful e) (failed e) (errors e) (output_file e) None
             (console e).

(** [data['funds'][fund_key]['returns'] = returns] *)
Fixpoint set_returns (fund_key : str) (r : Returns) (d : dict FundRecord)
  : dict FundRecord :=
  match d with
  | [] => []
  | (k, f) :: d' =>
      if str_eqb fund_key k then
        (k, mkFund (f_name f) (f_amc f) (f_scheme_code f) (f_nav f)
                   (f_nav_date f) (f_category f) (Some r)
                   (f_benchmark_name f) (f_benchmark_1year f) (f_source f)
                   (f_last_updated f)) :: d'
      else (k, f) :: set_returns fund_key r d'
  end.

Section Driver.

(** The document in [input_file]. *)
Variable input_data : data.
(** [get_fund_data_from_mfapi(scheme_code)] at iteration [i]: the series,
    [None] for an HTTP or JSON failure or an empty series. *)
Variable get_fund_data_from_mfapi : nat -> str -> option (list nav_entry).
(** [calculate_returns(nav_history)] at iteration [i]. *)
Variable calculate_returns_at : nat -> list nav_entry -> option Returns.
(** [datetime.now().isoformat()] *)
Variable isoformat_now : str.

(** [save_progress] *)
Definition save_progress (e : enricher) (d : data) (current_index : nat)
  : enricher * data :=
  let d' := mkData (funds d) isoformat_now
                   (Some (mkProgress current_index (successful e) (failed e)
                                     isoformat_now))
                   (enrichment_complete d) (enrichment_stats d) in
  (write_output e d', d').

(** [save_final] *)
Definition save_final (e : enricher) (d : data) : enricher * data :=
  let d' := mkData (funds d) isoformat_now None true
                   (Some (mkStats (List.length (funds d)) (successful e)
                                  (failed e) isoformat_now)) in
  (write_output e d', d').

(** What one fund comes to, before the counters move. *)
Inductive outcome :=
| NoSchemeCode
| Enriched (r : Returns)
| NoReturns
| FetchFailed (scheme_code : str).

Definition outcome_of (i : nat) (fund_info : FundRecord) : outcome :=
  match f_scheme_code fund_info with
  | None | Some [] => NoSchemeCode
  | Some scheme_code =>
      match get_fund_data_from_mfapi i scheme_code with
      | Some (p :: ps) =>
          match calculate_returns_at i (p :: ps) with
          | Some r => Enriched r
          | None => NoReturns
          end
      | Some [] | None => FetchFailed scheme_code
      end
  end.

(** The fund at [i] counts as enriched. *)
Definition success_at (fs : list (str * FundRecord)) (i : nat) : bool :=
  match nth_error fs i with
  | Some (_, fund_info) =>
      match outcome_of i fund_info with
      | Enriched _ => true
      | _ => false
      end
  | None => false
  end.

Definition successes (fs : list (str * FundRecord)) (indices : list nat)
  : nat :=
  List.length (filter (success_at fs) indices).

Definition failures (fs : list (str * FundRecord)) (indices : list nat)
  : nat :=
  List.length (filter (fun i => negb (success_at fs i)) indices).

(** The body of [for i in range(start_from, total_funds)]. *)
Definition enrich_one (fs : list (str * FundRecord)) (i : nat)
           (s : enricher * data) : result (enricher * data) :=
  let '(e, d) := s in
  fund <- index fs i ;;
  let '(fund_key, fund_info) := fund in
  let e := print_progress e i in
  match outcome_of i fund_info with
  | NoSchemeCode =>
      (* failed += 1; continue *)
      Ok (set_counters e (successful e) (S (failed e)), d)
  | o =>
      let '(e, d) :=
        match o with
        | Enriched r =>
            (set_counters e (S (successful e)) (failed e),
             mkData (set_returns fund_key r (funds d)) (last_updated d)
                    (enrichment_progress d) (enrichment_complete d)
                    (enrichment_stats d))
        | FetchFailed scheme_code =>
            (add_error (set_counters e (successful e) (S (failed e)))
                       (mkError (f_name fund_info) scheme_code
                                (lit "API fetch failed")),
             d)
        | _ => (set_counters e (successful e) (S (failed e)), d)
        end in
      (* time.sleep(2) *)
      if (i + 1) mod 50 =? 0 then Ok (save_progress e d (i + 1))
      else Ok (e, d)
  end.

Fixpoint enrich_range (fs : list (str * FundRecord)) (indices : list nat)
         (s : enricher * data) : result (enricher * data) :=
  match indices with
  | [] => Ok s
  | i :: rest => s' <- enrich_one fs i s ;; enrich_range fs rest s'
  end.

(** Where a Ctrl+C finds an iteration of the loop.  [KeyboardInterrupt]
    is raised between two steps of the program, anywhere in the body; the
    stages are the stretches of the body in which the enricher and its
    files stay as they are.  (The document [data] is a local variable of
    [enrich_funds]: what lines 144 and 200-206 do to it is lost with the
    exception.) *)
Inductive stage :=
| AtStart   (* lines 123-128: nothing of the iteration has happened *)
| AtFetch   (* the progress line is out (129), no counter has moved:
               lines 131-132, 136-144, 155, 158 *)
| AtCount   (* the counter has moved (133, 145, 156, 159), nothing is
               logged *)
| AtSleep   (* the error is logged (160-164): in [time.sleep(2)] (167),
               the test of the checkpoint (170) or the lines of
               [save_progress] before the file is opened (200-206) *)
| AtWrite.  (* in [save_progress] with the file open for writing
               (208-209) *)

(** The enricher a Ctrl+C at stage [st] finds in the iteration of the
    fund at [i] that started with [e].  At a stage the iteration does not
    come to (the log of a fetch that did not fail, the checkpoint when
    none is due, and all that follows the counter of a fund without a
    scheme code) the iteration is at the point before it that it does
    come to. *)
Definition interrupted_one (fs : list (str * FundRecord)) (i : nat)
           (st : stage) (e : enricher) : enricher :=
  match nth_error fs i with
  | None => e
  | Some (_, fund_info) =>
      let o := outcome_of i fund_info in
      let e_printed := print_progress e i in
      let e_counted :=
        match o with
        | Enriched _ =>
            set_counters e_printed (S (successful e_printed))
                         (failed e_printed)
        | _ =>
            set_counters e_printed (successful e_printed)
                         (S (failed e_printed))
        end in
      let e_logged :=
        match o with
        | FetchFailed scheme_code =>
            add_error e_counted
                      (mkError (f_name fund_info) scheme_code
                               (lit "API fetch failed"))
        | _ => e_counted
        end in
      let due :=
        match o with
        | NoSchemeCode => false
        | _ => (i + 1) mod 50 =? 0
        end in
      match st with
      | AtStart => e
      | AtFetch => e_printed
      | AtCount => e_counted
      | AtSleep => e_logged
      | AtWrite => if due then open_output e_logged else e_logged
      end
  end.

(** Where a Ctrl+C finds [enrich_funds] when the loop is over. *)
Inductive finish_stage :=
| AtSummary      (* lines 177-184: the summary is being printed *)
| AtFinalWrite   (* in [save_final] with the file open for writing
                    (226-227) *)
| AtErrorLog     (* the final document is written: line 229, the test
                    of the error log (191) *)
| AtErrorWrite   (* the file of the error log is open for writing
                    (192-193) *)
| AtReturn.      (* all is written (194-196); the last lines of the
                    script are being printed (292-293) *)

(** The enricher a Ctrl+C at [st] finds when the loop has ended in [s]
    over a catalog that is not empty. *)
Definition interrupted_finish (st : finish_stage) (s : enricher * data)
  : enricher :=
  let '(e, d) := s in
  let e_final := fst (save_final e d) in
  let logged := match errors e with [] => false | _ :: _ => true end in
  match st with
  | AtSummary => e
  | AtFinalWrite => open_output e
  | AtErrorLog => e_final
  | AtErrorWrite => if logged then open_errors e_final else e_final
  | AtReturn => if logged then write_errors e_final else e_final
  end.

(** The Ctrl+C of a run: in the iteration that follows [k] iterations of
    this run, or after the loop. *)
Inductive interrupt :=
| InFund (k : nat) (st : stage)
| InFinish (st : finish_stage).

(** [range(start_from, total_funds)] *)
Definition range (start_from total : nat) : list nat :=
  seq start_from (total - start_from).

(** [enrich_funds(start_from)] when nothing interrupts it. *)
Definition enrich_funds (start_from : nat) (e : enricher) : result enricher :=
  let d := input_data in
  let fs := funds d in
  let total := List.length fs in
  s <- enrich_range fs (range start_from total) (e, d) ;;
  let '(e, d) := s in
  (* the summary prints [self.successful/total_funds*100] *)
  if total =? 0 then Raise ZeroDivisionError
  else
    let '(e, d) := save_final e d in
    Ok (if match errors e with [] => false | _ :: _ => true end
        then write_errors e else e).

(** [resume_from_progress]; [answer] is what the user types at the
    prompt. *)
Definition resume_from_progress (answer : str) (e : enricher)
  : enricher * nat :=
  match output_file e with
  | Some d =>
      match enrichment_progress d with
      | Some p =>
          if str_eqb (lower answer) (lit "yes")
          then (set_counters e (p_successful p) (p_failed p), last_index p)
          else (e, 0)
      | None => (e, 0)
      end
  | None => (e, 0)
  end.

(** How the script ends; the number is the exit status. *)
Inductive ending :=
| Done
| Declined
| Interrupted
| Crashed (x : exn).

Definition exit_status (x : ending) : Z :=
  match x with
  | Crashed _ => 1%Z
  | _ => 0%Z
  end.

(** The [except KeyboardInterrupt] handler: three prints and
    [sys.exit(0)]. *)
Definition on_keyboard_interrupt (e : enricher) : enricher * ending :=
  (e, Interrupted).

(** The script.  [proceed] and [answer] are what the user types;
    [interrupt_at] is the Ctrl+C of the run, if there is one.  A Ctrl+C in
    an iteration the run does not have never comes; one after the loop
    over an empty catalog comes in the summary or not at all, since the
    summary raises [ZeroDivisionError] at its last line (185). *)
Definition main (proceed answer : str) (interrupt_at : option interrupt)
           (out : option data) : enricher * ending :=
  if negb (str_eqb (lower proceed) (lit "yes")) then
    (new_enricher out, Declined)
  else
    let '(e, start_index) := resume_from_progress answer (new_enricher out) in
    let fs := funds input_data in
    let todo := range start_index (List.length fs) in
    let uninterrupted :=
      match enrich_funds start_index e with
      | Ok e' => (e', Done)
      | Raise x => (e, Crashed x)
      end in
    match interrupt_at with
    | Some (InFund k st) =>
        match nth_error todo k with
        | Some i =>
            match enrich_range fs (firstn k todo) (e, input_data) with
            | Ok s => on_keyboard_interrupt (interrupted_one fs i st (fst s))
            | Raise x => (e, Crashed x)
            end
        | None => uninterrupted
        end
    | Some (InFinish st) =>
        match enrich_range fs todo (e, input_data) with
        | Ok s =>
            match st with
            | AtSummary => on_keyboard_interrupt (fst s)
            | _ =>
                if List.length fs =? 0 then uninterrupted
                else on_keyboard_interrupt (interrupted_finish st s)
            end
        | Raise x => (e, Crashed x)
        end
    | None => uninterrupted
    end.

End Driver.

End ReturnEnricher.

(* ------------------------------------------------------------------ *)
(** ** Sample data

    Instances of the library functions on the inputs of the examples, and
    the inputs themselves. *)

Module Samples.
Import PyStr Exn Catalog.

Definition digit (c : ascii) : option Z :=
  let n := nat_of_ascii c in
  if (48 <=? n) && (n <=? 57) then Some (Z.of_nat (n - 48)) else None.

Fixpoint number (acc : Z) (s : str) : option Z :=
  match s with
  | [] => Some acc
  | c :: s' =>
      match digit c with
      | Some d => number (10 * acc + d) s'
      | None => None
      end
  end.

(** [float(s)] on an unsigned decimal [digits.digits]: the double nearest
    to it. *)
Definition decimal_float (s : str) : option float :=
  match split_on "."%char s with
  | [i; f] =>
      match i, number 0 (i ++ f) with
      | _ :: _, Some (Zpos n) =>
          Some (SF2Prim (SFdiv prec emax (S754_finite false n 0)
                               (S754_finite false
                                  (Z.to_pos (10 ^ Z.of_nat (List.length f)))
                                  0)))
      | _ :: _, Some Z0 => Some PrimFloat.zero
      | _, _ => None
      end
  | _ => None
  end.

Definition is_leap (y : Z) : bool :=
  ((y mod 4 =? 0) && (negb (y mod 100 =? 0) || (y mod 400 =? 0)))%Z.

Definition days_in_month (y m : Z) : Z :=
  (if m =? 2 then (if is_leap y then 29 else 28)
   else if (m =? 4) || (m =? 6) || (m =? 9) || (m =? 11) then 30
   else 31)%Z.

Definition days_before_month (y m : Z) : Z :=
  fold_left Z.add
            (map (fun k => days_in_month y (Z.of_nat k))
                 (seq 1 (Z.to_nat m - 1)))
            0%Z.

(** [date(y, m, d).toordinal()] *)
Definition ordinal (y m d : Z) : Z :=
  (let y1 := y - 1 in
   y1 * 365 + y1 / 4 - y1 / 100 + y1 / 400 + days_before_month y m + d)%Z.

(** [datetime.strptime(s, '%d-%m-%Y')] on a zero-padded date, in
    microseconds since the day before 1 January of year 1. *)
Definition strptime_dmy (s : str) : option Z :=
  match split_on "-"%char s with
  | [dd; mm; yyyy] =>
      match number 0 dd, number 0 mm, number 0 yyyy with
      | Some d, Some m, Some y =>
          if (List.length dd =? 2) && (List.length mm =? 2)
             && (List.length yyyy =? 4)
             && (1 <=? y)%Z && (1 <=? m)%Z && (m <=? 12)%Z
             && (1 <=? d)%Z && (d <=? days_in_month y m)%Z
          then Some (ordinal y m d * 86400000000)%Z
          else None
      | _, _, _ => None
      end
  | _ => None
  end.

(** Half past ten on 4 November 2026; a reading of the clock a microsecond
    after the one before. *)
Definition clock (k : nat) : Z :=
  (ordinal 2026 11 4 * 86400000000 + 37800000000
   + Z.of_nat (Nat.min k 2))%Z.

Definition entry (d n : string) : ReturnEnricher.nav_entry :=
  ReturnEnricher.mkEntry (lit d) (lit n).

(** Today at 120.0 and 366 days ago at 100.0. *)
Definition history_120_100 : list ReturnEnricher.nav_entry :=
  [entry "04-11-2026" "120.0"; entry "03-11-2025" "100.0"].

(** The point 366 days ago has no number for its NAV; an older one has. *)
Definition history_gap : list ReturnEnricher.nav_entry :=
  [entry "04-11-2026" "120.0"; entry "03-11-2025" "N.A.";
   entry "30-09-2025" "100.0"].

(** The point 366 days ago has a NAV of zero. *)
Definition history_zero : list ReturnEnricher.nav_entry :=
  [entry "04-11-2026" "120.0"; entry "03-11-2025" "0.0";
   entry "30-09-2025" "100.0"].

Definition today : str := lit "2026-11-04".

(** A header, a record line, a line of four fields and a second plan of
    the same fund. *)
Definition line_amc : str := lit "Example AMC".
Definition line_direct : str :=
  lit "119551;INF209K01YY7;-;Axis Bluechip Fund - Direct Plan - Growth;45.5;04-Nov-2026".
Definition line_short : str := lit "119552;INF209K01ZZ5;Axis Fund;12.0".
Definition line_regular : str :=
  lit "119553;INF209K01YY8;-;Axis Bluechip Fund - Regular Plan - Growth;44.0;04-Nov-2026".

Definition feed : str :=
  line_amc ++ [Re.newline] ++ line_direct ++ [Re.newline] ++ line_short
  ++ [Re.newline] ++ line_regular.

(** The parser after the header, and the record of the first plan. *)
Definition after_header : FeedParser.state :=
  FeedParser.mkState [] (Some line_amc) 0.

Definition axis_direct : FundRecord :=
  mkFund (lit "Axis Bluechip Fund - Direct Plan - Growth") (Some line_amc)
         (Some (lit "119551")) (Some 45.5%float) (lit "04-Nov-2026")
         (lit "Equity - Large Cap") (Some no_returns) (lit "N/A") None
         (lit "AMFI India") today.

Definition after_feed : FeedParser.state :=
  FeedParser.mkState [(lit "Axis Bluechip Fund", axis_direct)]
                     (Some line_amc) 1.

(** A category word only in the plan suffix. *)
Definition line_suffix_word : str :=
  lit "100001;INF000000001;-;Alpha Fund - Direct Plan - Index Option;10.0;04-Nov-2026".

(** A name with a line feed in it. *)
Definition name_two_lines : str :=
  lit "A - Direct" ++ [Re.newline] ++ lit "B".

Definition fund (code name : string) : str * FundRecord :=
  (lit name,
   mkFund (lit name) (Some (lit "Example AMC")) (Some (lit code)) None
          (lit "04-Nov-2026") (lit "Other") (Some no_returns) (lit "N/A")
          None (lit "AMFI India") today).

(** A catalog file of three funds. *)
Definition three_funds : ReturnEnricher.data :=
  ReturnEnricher.mkData
    [fund "100" "Fund A"; fund "101" "Fund B"; fund "102" "Fund C"]
    today None false None.

(** A catalog file of [n] funds, each with a scheme code. *)
Definition numbered_fund (i : nat) : str * FundRecord :=
  let tag := repeat "I"%char i in
  (lit "Fund " ++ tag,
   mkFund (lit "Fund " ++ tag) (Some (lit "Example AMC"))
          (Some (lit "1" ++ tag)) None (lit "04-Nov-2026") (lit "Other")
          (Some no_returns) (lit "N/A") None (lit "AMFI India") today).

Definition catalog (n : nat) : ReturnEnricher.data :=
  ReturnEnricher.mkData (map numbered_fund (seq 0 n)) today None false None.

(** A catalog file with a checkpoint at index 50, 40 funds enriched and 10
    failed. *)
Definition checkpoint_50 : ReturnEnricher.data :=
  ReturnEnricher.mkData (map numbered_fund (seq 0 52)) today
                        (Some (ReturnEnricher.mkProgress 50 40 10 today))
                        false None.

(** An API that answers nothing. *)
Definition api_down (i : nat) (scheme_code : str)
  : option (list ReturnEnricher.nav_entry) := None.

(** An API that answers the same two points for every fund. *)
Definition api_up (i : nat) (scheme_code : str)
  : option (list ReturnEnricher.nav_entry) := Some history_120_100.

Definition returns_at (i : nat) (h : list ReturnEnricher.nav_entry)
  : option Returns :=
  ReturnEnricher.calculate_returns decimal_float strptime_dmy clock h.

End Samples.

From Stdlib Require Import Sorted Permutation.

(* ------------------------------------------------------------------ *)
(** ** Publishing the catalog ([add_estimated_aum], [add_dummy_aum],
       [generate_json_files], [run]) *)

Module Publish.
Import PyStr Exn Catalog FeedParser.

(** [aum_map]: the same thirteen entries, in this order, in
    fetch-fund-data-CLEAN.py and update-fund-data-ACTUALLY-FIXED.py.  The
    rupee sign is outside the 8-bit range and stands as its UTF-8 bytes;
    the scripts only store these strings. *)
Definition aum_map : dict str :=
  [ (lit "Equity - Large Cap", lit "₹15,000 Cr");
    (lit "Equity - Mid Cap", lit "₹8,000 Cr");
    (lit "Equity - Small Cap", lit "₹5,000 Cr");
    (lit "Equity - Flexi Cap", lit "₹12,000 Cr");
    (lit "Equity - ELSS", lit "₹6,000 Cr");
    (lit "Equity - Index", lit "₹10,000 Cr");
    (lit "Equity - Sectoral", lit "₹4,000 Cr");
    (lit "Hybrid", lit "₹8,000 Cr");
    (lit "Debt - Liquid", lit "₹20,000 Cr");
    (lit "Debt - Money Market", lit "₹15,000 Cr");
    (lit "Debt", lit "₹5,000 Cr");
    (lit "Fund of Funds", lit "₹3,000 Cr");
    (lit "Other", lit "₹2,000 Cr") ].

(** [d.get(k, default)] *)
Definition get_or {V} (k : str) (default : V) (d : dict V) : V :=
  match get k d with
  | Some v => v
  | None => default
  end.

(** A fund of the catalog with its [aum] key. *)
Record Published := mkPublished {
  fund : FundRecord;
  aum : str
}.

(** [add_estimated_aum] ([add_dummy_aum] in the older script): every fund
    has its [category] key, so [fund.get('category', 'Other')] is the
    category. *)
Definition add_estimated_aum (funds_data : dict FundRecord)
  : dict Published :=
  map (fun kf =>
         (fst kf,
          mkPublished (snd kf)
                      (get_or (f_category (snd kf)) (lit "₹2,000 Cr")
                              aum_map)))
      funds_data.

(** Comparison of strings, code point by code point. *)
Fixpoint str_leb (a b : str) : bool :=
  match a, b with
  | [], _ => true
  | _ :: _, [] => false
  | x :: a', y :: b' =>
      if nat_of_ascii x <? nat_of_ascii y then true
      else if nat_of_ascii y <? nat_of_ascii x then false
      else str_leb a' b'
  end.

Definition leq (a b : str) : Prop := str_leb a b = true.

Fixpoint insert_sorted (x : str) (l : list str) : list str :=
  match l with
  | [] => [x]
  | y :: l' => if str_leb x y then x :: l else y :: insert_sorted x l'
  end.

(** [sorted(l)]: the stable ascending sort, computed by insertion. *)
Definition sorted (l : list str) : list str := fold_right insert_sorted [] l.

(** [main_data], [index_data] and [metadata]. *)
Record MainData := mkMain {
  m_version : str;
  m_last_updated : str;
  m_total_funds : nat;
  m_update_method : str;
  m_organization : str;
  m_product : str;
  m_funds : dict Published
}.

Record IndexData := mkIndex {
  i_version : str;
  i_total_funds : nat;
  i_funds : list str
}.

Record Metadata := mkMeta {
  md_version : str;
  md_last_updated : str;
  md_total_funds : nat;
  md_errors : list str;
  md_source : str;
  md_organization : str;
  md_product : str
}.

(** The three files of [output_dir]. *)
Record files := mkFiles {
  funds_data_json : option MainData;
  funds_index_json : option IndexData;
  metadata_json : option Metadata
}.

Definition no_files : files := mkFiles None None None.

(** The answer of [requests.get] with [raise_for_status]: the text of the
    body, or the message of the exception. *)
Inductive http_result :=
| Body (text : str)
| Failed (message : str).

Section Script.

Variable py_float : str -> option float.
(** [datetime.now().strftime('%Y-%m-%d')], [strftime('%Y.%m')] and
    [isoformat()] *)
Variable today : str.
Variable version : str.
Variable isoformat_now : str.
Variable v : script.

(** [fetch_amfi_nav_data]: the catalog, [self.errors] and the value
    returned. *)
Definition fetch_amfi_nav_data (response : http_result)
  : state * list str * bool :=
  match response with
  | Failed message => (init, [lit "AMFI: " ++ message], false)
  | Body text =>
      match parse_feed py_float today v text with
      | Ok st => (st, [], true)
      | Raise _ => (init, [lit "AMFI: "], false)
      end
  end.

(** [generate_json_files].  [fail_at = Some n] is an exception of
    [os.makedirs] or of the [open] of the file number [n] (from 0); an
    exception while [json.dump] writes is not modelled. *)
Definition generate_json_files (fail_at : option nat)
           (funds_data : dict Published) (errors : list str) (disk : files)
  : files * bool :=
  let main_data :=
    mkMain version isoformat_now (List.length funds_data)
           (lit "automated_script") (lit "BluSummit Ventures") (lit "Saarthi")
           funds_data in
  let index_data :=
    mkIndex version (List.length funds_data) (sorted (keys funds_data)) in
  let metadata :=
    mkMeta version isoformat_now (List.length funds_data) errors
           (lit "AMFI India") (lit "BluSummit Ventures") (lit "Saarthi") in
  match fail_at with
  | Some 0 => (disk, false)
  | Some 1 =>
      (mkFiles (Some main_data) (funds_index_json disk) (metadata_json disk),
       false)
  | Some 2 =>
      (mkFiles (Some main_data) (Some index_data) (metadata_json disk),
       false)
  | _ => (mkFiles (Some main_data) (Some index_data) (Some metadata), true)
  end.

(** [run]: the files and the value returned ([sys.exit(0 if success else
    1)]). *)
Definition run (response : http_result) (fail_at : option nat) (disk : files)
  : files * bool :=
  let '(st, errors, ok) := fetch_amfi_nav_data response in
  if negb ok then (disk, false)
  else
    generate_json_files fail_at (add_estimated_aum (funds_data st)) errors
                        disk.

End Script.

End Publish.

(* ------------------------------------------------------------------ *)
(** ** The debugging script (update-fund-data-DEBUG.py) *)

Module DebugParser.
Import PyStr Exn Catalog.

Notation "k 'isin' s" := (contains (lit k%string) s)
  (at level 35, no associativity).

(** [clean_fund_name]: three substitutions. *)
Definition clean_fund_name (name : str) : str :=
  let name := Re.sub_plan (lit "Direct") name in
  let name := Re.sub_plan (lit "Regular") name in
  let name := Re.sub_plan (lit "Growth") name in
  let name := join (lit " ") (split_ws name) in
  strip name.

(** [determine_category]: eleven rules, no sector rule. *)
Definition determine_category (fund_name : str) : str :=
  let nm := lower fund_name in
  if "elss" isin nm || "tax saver" isin nm then lit "Equity - ELSS"
  else if "flexi cap" isin nm then lit "Equity - Flexi Cap"
  else if "large cap" isin nm || "bluechip" isin nm
       then lit "Equity - Large Cap"
  else if "mid cap" isin nm then lit "Equity - Mid Cap"
  else if "small cap" isin nm then lit "Equity - Small Cap"
  else if "index" isin nm then lit "Equity - Index"
  else if "fof" isin nm || "fund of funds" isin nm then lit "Fund of Funds"
  else if "liquid" isin nm then lit "Debt - Liquid"
  else if "balanced" isin nm || "hybrid" isin nm || "advantage" isin nm
       then lit "Hybrid"
  else if "debt" isin nm || "bond" isin nm then lit "Debt"
  else if "money market" isin nm then lit "Debt - Money Market"
  else lit "Other".

(** [self.debug_counts] *)
Record debug_counts := mkCounts {
  total_lines : nat;
  fund_lines : nat;
  direct_funds : nat;
  growth_funds : nat;
  direct_and_growth : nat;
  added_funds : nat
}.

Record state := mkState {
  funds_data : dict FundRecord;
  current_amc : option str;
  fund_count : nat;
  counts : debug_counts
}.

Definition init : state := mkState [] None 0 (mkCounts 0 0 0 0 0 0).

Section Parser.

Variable py_float : str -> option float.
Variable today : str.

(** [x += 1] when [b]. *)
Definition bump (b : bool) (x : nat) : nat := if b then S x else x.

(** The body of [for line in lines:]. *)
Definition process_line (st : state) (raw : str) : result state :=
  let c := counts st in
  let total := S (total_lines c) in
  let line := strip raw in
  if FeedParser.is_amc_line line then
    Ok (mkState (funds_data st) (Some line) (fund_count st)
                (mkCounts total (fund_lines c) (direct_funds c)
                          (growth_funds c) (direct_and_growth c)
                          (added_funds c)))
  else if contains_char ";"%char line then
    let parts := split_on ";"%char line in
    if 5 <=? List.length parts then
      scheme_code <- index parts 0 ;;
      p2 <- index parts 2 ;;
      p3 <- index parts 3 ;;
      p4 <- index parts 4 ;;
      let scheme_name := strip p2 in
      let nav_str := strip p3 in
      let nav_date := strip p4 in
      let direct :=
        bump ("Direct" isin scheme_name || "direct" isin scheme_name)
             (direct_funds c) in
      let growth :=
        bump ("Growth" isin scheme_name || "growth" isin scheme_name)
             (growth_funds c) in
      let has_direct := "direct" isin (lower scheme_name) in
      let has_growth := "growth" isin (lower scheme_name) in
      if has_direct && has_growth then
        let clean_name := clean_fund_name scheme_name in
        if mem clean_name (funds_data st) then
          Ok (mkState (funds_data st) (current_amc st) (fund_count st)
                      (mkCounts total (S (fund_lines c)) direct growth
                                (S (direct_and_growth c)) (added_funds c)))
        else
          Ok (mkState
                (funds_data st
                 ++ [(clean_name,
                      mkFund scheme_name (current_amc st) (Some scheme_code)
                             (FeedParser.parse_nav py_float nav_str) nav_date
                             (determine_category clean_name)
                             (Some no_returns) (lit "N/A") None
                             (lit "AMFI India") today)])
                (current_amc st) (S (fund_count st))
                (mkCounts total (S (fund_lines c)) direct growth
                          (S (direct_and_growth c)) (S (added_funds c))))
      else
        Ok (mkState (funds_data st) (current_amc st) (fund_count st)
                    (mkCounts total (S (fund_lines c)) direct growth
                              (direct_and_growth c) (added_funds c)))
    else
      Ok (mkState (funds_data st) (current_amc st) (fund_count st)
                  (mkCounts total (S (fund_lines c)) (direct_funds c)
                            (growth_funds c) (direct_and_growth c)
                            (added_funds c)))
  else
    Ok (mkState (funds_data st) (current_amc st) (fund_count st)
                (mkCounts total (fund_lines c) (direct_funds c)
                          (growth_funds c) (direct_and_growth c)
                          (added_funds c))).

Fixpoint process_lines (st : state) (lines : list str) : result state :=
  match lines with
  | [] => Ok st
  | l :: ls => st' <- process_line st l ;; process_lines st' ls
  end.

(** The loop of [fetch_amfi_nav_data] over the body of the response. *)
Definition parse_feed (text : str) : result state :=
  process_lines init (split_on Re.newline text).

End Parser.

End DebugParser.

(* ------------------------------------------------------------------ *)
(** ** The call of the history API ([get_fund_data_from_mfapi]) *)

Module MFApi.
Import PyStr Exn Catalog.

(** What the function reads of an answer: [response.status_code] and
    [response.json()], which raises for a body that is not JSON; the
    document is [None] when it has no ['data'] key and [data['data']]
    otherwise. *)
Record response := mkResponse {
  status_code : nat;
  json : result (option (list ReturnEnricher.nav_entry))
}.

Definition url_of (scheme_code : str) : str :=
  lit "https://api.mfapi.in/mf/" ++ scheme_code.

(** [get_fund_data_from_mfapi]; [requests_get url] is
    [requests.get(url, timeout=15)]. *)
Definition get_fund_data_from_mfapi (requests_get : str -> result response)
           (scheme_code : str) : option (list ReturnEnricher.nav_entry) :=
  match requests_get (url_of scheme_code) with
  | Ok response =>
      if status_code response =? 200 then
        match json response with
        | Ok (Some (p :: ps)) => Some (p :: ps)
        | Ok (Some []) => None
        | Ok None => None
        | Raise _ => None
        end
      else None
  | Raise _ => None
  end.

End MFApi.

(* ------------------------------------------------------------------ *)
(** ** Views of the enricher's documents *)

Module EnricherView.
Import PyStr Exn Catalog ReturnEnricher.

(** A fund with its [returns] key set to [r]. *)
Definition with_returns (r : option Returns) (f : FundRecord) : FundRecord :=
  mkFund (f_name f) (f_amc f) (f_scheme_code f) (f_nav f) (f_nav_date f)
         (f_category f) r (f_benchmark_name f) (f_benchmark_1year f)
         (f_source f) (f_last_updated f).

(** The funds of a document, their returns put aside. *)
Definition without_returns (d : dict FundRecord) : dict FundRecord :=
  map (fun kf => (fst kf, with_returns None (snd kf))) d.

(** The checkpoint of a catalog file, when it has one, is at a multiple of
    50 that is at most [n], and its two counters add up to its index. *)
Definition checkpoint_within (n : nat) (out : option data) : Prop :=
  match out with
  | Some d =>
      match enrichment_progress d with
      | Some p =>
          last_index p <= n /\ last_index p mod 50 = 0
          /\ p_successful p + p_failed p = last_index p
      | None => True
      end
  | None => True
  end.

Section Log.

Variable get_fund_data_from_mfapi : nat -> str -> option (list nav_entry).
Variable calculate_returns_at : nat -> list nav_entry -> option Returns.

(** What the fund at [i] adds to [self.errors]. *)
Definition error_at (fs : list (str * FundRecord)) (i : nat)
  : list error_entry :=
  match nth_error fs i with
  | Some (_, fund_info) =>
      match outcome_of get_fund_data_from_mfapi calculate_returns_at i
                       fund_info with
      | FetchFailed scheme_code =>
          [mkError (f_name fund_info) scheme_code (lit "API fetch failed")]
      | _ => []
      end
  | None => []
  end.

(** The fund [f], at [i], after its iteration. *)
Definition returns_after (i : nat) (f : FundRecord) : FundRecord :=
  match outcome_of get_fund_data_from_mfapi calculate_returns_at i f with
  | Enriched r => with_returns (Some r) f
  | _ => f
  end.

End Log.

End EnricherView.

(* ------------------------------------------------------------------ *)
(** ** More sample data *)

Module MoreSamples.
Import PyStr Exn Catalog ReturnEnricher Samples.



(** The enricher at the end of a run over [input] that nothing
    interrupts, from the first fund. *)
Definition finished (input : data)
           (api : nat -> str -> option (list nav_entry)) : enricher :=
  match enrich_funds input api returns_at today 0 (new_enricher None) with
  | Ok e => e
  | Raise _ => new_enricher None
  end.

(** The enricher a Ctrl+C leaves in a run over [input] that started with
    no catalog file and the API down. *)
Definition stopped (input : data) (it : interrupt) : enricher :=
  fst (main input api_down returns_at today (lit "yes") (lit "no")
            (Some it) None).

(** Today and five weeks ago: no point is a year old. *)
Definition history_short : list nav_entry :=
  [entry "04-11-2026" "120.0"; entry "01-10-2026" "118.0"].

(** The API answers for the second fund only. *)
Definition api_second (i : nat) (scheme_code : str)
  : option (list nav_entry) :=
  if i =? 1 then Some history_120_100 else None.

End MoreSamples.

(* ================================================================== *)
(** * Properties *)

Import PyStr Exn Catalog.

(** ** Characters and strings *)

(** Case analysis over the 256 code points. *)
Ltac by_cases_on_char c :=
  destruct c as [[] [] [] [] [] [] [] []]; try reflexivity; try discriminate.

Lemma isdigit_not_isspace c : isdigit c = true -> isspace c = false.
Proof. by_cases_on_char c. Qed.

Lemma isspace_lower_char c : isspace (lower_char c) = isspace c.
Proof. by_cases_on_char c. Qed.

Lemma str_eqb_eq a b : str_eqb a b = true <-> a = b.
Proof.
  revert b; induction a as [|x a IH]; intros [|y b]; simpl;
    try (split; [discriminate | congruence]).
  - tauto.
  - rewrite andb_true_iff, IH. split.
    + intros [H ->]. apply Ascii.eqb_eq in H. now subst.
    + intros H; injection H as -> ->.
      split; [apply Ascii.eqb_refl | reflexivity].
Qed.

Lemma str_eqb_refl a : str_eqb a a = true.
Proof. now apply str_eqb_eq. Qed.

Lemma str_eqb_neq a b : str_eqb a b = false <-> a <> b.
Proof.
  split.
  - intros H E. apply str_eqb_eq in E. congruence.
  - intros H. destruct (str_eqb a b) eqn:E; [|reflexivity].
    apply str_eqb_eq in E. contradiction.
Qed.

Lemma lstrip_app_nonspace x c : isspace c = false -> lstrip (x ++ [c]) <> [].
Proof.
  intros Hc. induction x as [|d x IH]; simpl.
  - now rewrite Hc.
  - destruct (isspace d); [exact IH | discriminate].
Qed.

Lemma strip_cons_nonspace c w : isspace c = false -> strip (c :: w) <> [].
Proof.
  intros Hc. unfold strip, rstrip. simpl lstrip. rewrite Hc. simpl rev.
  intros E. apply (f_equal (@rev ascii)) in E. rewrite rev_involutive in E.
  now apply (lstrip_app_nonspace (rev w) c Hc).
Qed.

Lemma split_on_nonempty sep s : split_on sep s <> [].
Proof.
  destruct s as [|c s]; simpl; [discriminate|].
  destruct (Ascii.eqb c sep); [discriminate|].
  destruct (split_on sep s); discriminate.
Qed.

Lemma split_on_contains sep s :
  2 <= List.length (split_on sep s) -> contains_char sep s = true.
Proof.
  induction s as [|c s IH]; simpl; [lia|].
  rewrite (Ascii.eqb_sym sep c).
  destruct (Ascii.eqb c sep); [reflexivity|]. simpl.
  destruct (split_on sep s) as [|w ws] eqn:E.
  - now apply split_on_nonempty in E.
  - exact IH.
Qed.

Lemma split_on_head sep c s :
  Ascii.eqb c sep = false ->
  exists w, nth 0 (split_on sep (c :: s)) [] = c :: w.
Proof.
  intros H. simpl. rewrite H.
  destruct (split_on sep s) as [|w ws]; eexists; reflexivity.
Qed.

Lemma index_nth {A} (xs : list A) i d :
  i < List.length xs -> index xs i = Ok (nth i xs d).
Proof.
  intros H. unfold index. now rewrite (nth_error_nth' xs d H).
Qed.

(** ** Feed parser *)

Section ParserFacts.
Import FeedParser FeedView.

Variable py_float : str -> option float.
Variable today : str.

Local Abbreviation line_record := (line_record py_float today).
Local Abbreviation line_key := (line_key py_float today).

Lemma extract_fields_ok parts :
  6 <= List.length parts -> extract_fields parts = Ok (fields_0345 parts).
Proof.
  intros H. unfold extract_fields.
  rewrite (index_nth parts 0 []), (index_nth parts 3 []),
    (index_nth parts 4 []), (index_nth parts 5 []) by lia.
  reflexivity.
Qed.

(** A line that reaches the record branch has a code: it starts with a
    digit. *)
Lemma record_line_code line :
  is_amc_line line = false ->
  contains_char ";"%char line = true ->
  strip (nth 0 (split_on ";"%char line) []) <> [].
Proof.
  destruct line as [|c s]; [discriminate|]. simpl is_amc_line.
  intros Hd _. apply negb_false_iff in Hd.
  assert (Hsep : Ascii.eqb c ";"%char = false).
  { destruct (Ascii.eqb c ";"%char) eqn:E; [|reflexivity].
    apply Ascii.eqb_eq in E. subst c. discriminate. }
  destruct (split_on_head ";"%char c s Hsep) as [w ->].
  apply strip_cons_nonspace. now apply isdigit_not_isspace.
Qed.

Lemma line_record_key v st raw :
  option_map fst (line_record v st raw) = line_key raw.
Proof.
  unfold line_key, line_record.
  destruct (is_amc_line (strip raw)); [reflexivity|].
  destruct (6 <=? _); [|reflexivity].
  unfold fields_0345. now destruct (strip (nth 3 _ _)).
Qed.

Lemma line_record_not_amc v st raw x :
  line_record v st raw = Some x ->
  is_amc_line (strip raw) = false.
Proof.
  unfold line_record. now destruct (is_amc_line (strip raw)).
Qed.

(** One line, in full. *)
Lemma process_line_spec v st raw :
  process_line py_float today v st raw =
  Ok (if is_amc_line (strip raw)
      then mkState (funds_data st) (Some (strip raw)) (fund_count st)
      else match line_record v st raw with
           | Some (k, f) =>
               if mem k (funds_data st) then st
               else mkState (funds_data st ++ [(k, f)]) (current_amc st)
                            (S (fund_count st))
           | None => st
           end).
Proof.
  unfold process_line, line_record.
  destruct (is_amc_line (strip raw)) eqn:Hamc; [reflexivity|].
  destruct (6 <=? _) eqn:Hlen.
  - apply Nat.leb_le in Hlen.
    assert (Hsemi : contains_char ";"%char (strip raw) = true)
      by (apply split_on_contains; lia).
    rewrite Hsemi, (extract_fields_ok _ Hlen). simpl bind.
    pose proof (record_line_code _ Hamc Hsemi) as Hcode.
    unfold fields_0345 in *.
    destruct (strip (nth 0 _ _)) as [|c0 code]; [contradiction|].
    destruct (strip (nth 3 _ _)) as [|n0 name]; [reflexivity|].
    destruct (mem _ _); reflexivity.
  - destruct (contains_char _ _); reflexivity.
Qed.

End ParserFacts.

(** ** Dictionaries *)

Lemma get_app {V} k (d : dict V) k' (x : V) :
  get k (d ++ [(k', x)]) =
  match get k d with
  | Some y => Some y
  | None => if str_eqb k k' then Some x else None
  end.
Proof.
  induction d as [|[k0 y] d IH]; simpl; [reflexivity|].
  now destruct (str_eqb k k0).
Qed.

Lemma get_none_not_in {V} k (d : dict V) :
  get k d = None <-> ~ In k (keys d).
Proof.
  induction d as [|[k0 y] d IH]; simpl; [tauto|].
  destruct (str_eqb k k0) eqn:E.
  - apply str_eqb_eq in E. subst. split; [discriminate | tauto].
  - apply str_eqb_neq in E. rewrite IH. split.
    + intros H [H'|H']; [congruence | contradiction].
    + tauto.
Qed.

Lemma get_some_in {V} k (d : dict V) x : get k d = Some x -> In (k, x) d.
Proof.
  induction d as [|[k0 y] d IH]; simpl; [discriminate|].
  destruct (str_eqb k k0) eqn:E.
  - apply str_eqb_eq in E. intros [= ->]. subst. now left.
  - auto.
Qed.

Lemma in_get_nodup {V} k (d : dict V) x :
  NoDup (keys d) -> In (k, x) d -> get k d = Some x.
Proof.
  induction d as [|[k0 y] d IH]; simpl; [contradiction|].
  intros Hnd [H|H]; inversion Hnd as [|? ? Hk Hnd']; subst.
  - injection H as -> ->. now rewrite str_eqb_refl.
  - destruct (str_eqb k k0) eqn:E; [|auto].
    apply str_eqb_eq in E. subst. exfalso. apply Hk.
    change k0 with (fst (k0, x)). now apply in_map.
Qed.

Lemma keys_app_nodup {V} k (d : dict V) x :
  NoDup (keys d) -> mem k d = false -> NoDup (keys (d ++ [(k, x)])).
Proof.
  intros Hnd Hk. unfold keys. rewrite map_app. simpl.
  apply NoDup_app; [exact Hnd | repeat constructor; auto |].
  intros a Ha [E|[]]. subst a. unfold mem in Hk.
  destruct (get k d) eqn:E; [discriminate|].
  now apply get_none_not_in in E.
Qed.

Import FeedView.

Lemma count_key_not_in k ks : ~ In k ks -> count_key k ks = 0.
Proof.
  unfold count_key. induction ks as [|a ks IH]; simpl; [reflexivity|].
  intros H. destruct (str_eqb k a) eqn:E.
  - apply str_eqb_eq in E. subst. tauto.
  - apply IH. tauto.
Qed.

Lemma count_key_nodup k ks : NoDup ks -> In k ks -> count_key k ks = 1.
Proof.
  unfold count_key. induction 1 as [|a ks Ha Hnd IH]; simpl; [contradiction|].
  intros [->|H].
  - rewrite str_eqb_refl. simpl. f_equal. now apply count_key_not_in.
  - destruct (str_eqb k a) eqn:E; [|auto].
    apply str_eqb_eq in E. subst. contradiction.
Qed.

(** ** The catalog the parser builds *)

Section CatalogFacts.
Import FeedParser FeedView.

Variable py_float : str -> option float.
Variable today : str.
Variable v : script.

Local Abbreviation process_line := (process_line py_float today v).
Local Abbreviation process_lines := (process_lines py_float today v).
Local Abbreviation line_record := (line_record py_float today v).

Lemma process_lines_app st a b :
  process_lines st (a ++ b) =
  (st' <- process_lines st a ;; process_lines st' b).
Proof.
  revert st. induction a as [|l a IH]; intros st; simpl; [reflexivity|].
  rewrite process_line_spec. simpl. apply IH.
Qed.

(** No line makes the parser raise. *)
Lemma process_lines_total st ls : exists st', process_lines st ls = Ok st'.
Proof.
  revert st. induction ls as [|l ls IH]; intros st; simpl; [eauto|].
  rewrite process_line_spec. simpl. apply IH.
Qed.

(** A record in the catalog stays as it is. *)
Lemma process_line_keeps st raw st' k f :
  process_line st raw = Ok st' ->
  get k (funds_data st) = Some f -> get k (funds_data st') = Some f.
Proof.
  rewrite process_line_spec. intros [= <-] H.
  destruct (is_amc_line _); [exact H|].
  destruct (line_record st raw) as [[k' f']|]; [|exact H].
  destruct (mem k' _); [exact H|]. simpl. now rewrite get_app, H.
Qed.

Lemma process_lines_keeps ls : forall st st' k f,
  process_lines st ls = Ok st' ->
  get k (funds_data st) = Some f -> get k (funds_data st') = Some f.
Proof.
  induction ls as [|l ls IH]; intros st st' k f; simpl.
  - now intros [= <-].
  - destruct (process_line st l) as [st1|] eqn:E; simpl; [|discriminate].
    intros H Hk. apply (IH _ _ _ _ H). exact (process_line_keeps _ _ _ _ _ E Hk).
Qed.

(** Keys stay distinct. *)
Lemma process_line_nodup st raw st' :
  process_line st raw = Ok st' ->
  NoDup (keys (funds_data st)) -> NoDup (keys (funds_data st')).
Proof.
  rewrite process_line_spec. intros [= <-] H.
  destruct (is_amc_line _); [exact H|].
  destruct (line_record st raw) as [[k' f']|]; [|exact H].
  destruct (mem k' _) eqn:E; [exact H|]. simpl. now apply keys_app_nodup.
Qed.

Lemma process_lines_nodup ls : forall st st',
  process_lines st ls = Ok st' ->
  NoDup (keys (funds_data st)) -> NoDup (keys (funds_data st')).
Proof.
  induction ls as [|l ls IH]; intros st st'; simpl.
  - now intros [= <-].
  - destruct (process_line st l) as [st1|] eqn:E; simpl; [|discriminate].
    intros H Hnd. apply (IH _ _ H). exact (process_line_nodup _ _ _ E Hnd).
Qed.

(** Lines of other keys leave a key absent. *)
Lemma process_lines_absent ls : forall st st' k,
  (forall l, In l ls -> line_key py_float today l <> Some k) ->
  process_lines st ls = Ok st' ->
  get k (funds_data st) = None -> get k (funds_data st') = None.
Proof.
  induction ls as [|l ls IH]; intros st st' k Hls; simpl.
  - now intros [= <-].
  - rewrite process_line_spec. simpl. intros H Hk.
    apply (IH _ _ _ (fun l' Hl' => Hls l' (or_intror Hl')) H).
    destruct (is_amc_line _); [exact Hk|].
    pose proof (Hls l (or_introl eq_refl)) as Hl.
    rewrite <- (line_record_key py_float today v st) in Hl.
    destruct (line_record st l) as [[k' f']|]; [|exact Hk].
    destruct (mem k' _); [exact Hk|]. simpl. rewrite get_app, Hk.
    destruct (str_eqb k k') eqn:E; [|reflexivity].
    apply str_eqb_eq in E. subst. simpl in Hl. congruence.
Qed.

(** The first line of a key puts its record under the key. *)
Lemma process_line_first st raw k f :
  line_record st raw = Some (k, f) ->
  get k (funds_data st) = None ->
  exists st', process_line st raw = Ok st' /\
              get k (funds_data st') = Some f.
Proof.
  intros Hr Hk. rewrite process_line_spec. eexists; split; [reflexivity|].
  rewrite (line_record_not_amc _ _ _ _ _ _ Hr), Hr.
  unfold mem. rewrite Hk. simpl. now rewrite get_app, Hk, str_eqb_refl.
Qed.

End CatalogFacts.

Section ParserClaims.
Import FeedParser FeedView.

Variable py_float : str -> option float.
Variable today : str.

(** C1. A line that splits on [;] into six fields or more yields the scheme
    code from field 0, the name from field 3, the NAV string from field 4
    and the NAV date from field 5 (each stripped), in both scripts; and the
    record that such a line adds to the catalog carries exactly these. *)
Theorem C1_fields_by_position (v : script) (st : state) (raw : str)
        (parts : list str) :
  parts = split_on ";"%char (strip raw) ->
  6 <= List.length parts ->
  extract_fields parts
  = Ok (strip (nth 0 parts []), strip (nth 3 parts []),
        strip (nth 4 parts []), strip (nth 5 parts []))
  /\ (is_amc_line (strip raw) = false ->
      strip (nth 3 parts []) <> [] ->
      mem (clean_fund_name (strip (nth 3 parts []))) (funds_data st) = false ->
      exists f,
        process_line py_float today v st raw
        = Ok (mkState
                (funds_data st
                 ++ [(clean_fund_name (strip (nth 3 parts [])), f)])
                (current_amc st) (S (fund_count st)))
        /\ f_scheme_code f = Some (strip (nth 0 parts []))
        /\ f_name f = strip (nth 3 parts [])
        /\ f_nav f = parse_nav py_float (strip (nth 4 parts []))
        /\ f_nav_date f = strip (nth 5 parts [])).
Proof.
  intros -> Hlen. split; [now apply extract_fields_ok|].
  intros Hamc Hname Hnew. rewrite process_line_spec, Hamc.
  unfold line_record. rewrite Hamc.
  apply Nat.leb_le in Hlen. rewrite Hlen. unfold fields_0345.
  destruct (strip (nth 3 _ _)) as [|n0 name] eqn:En; [contradiction|].
  rewrite Hnew. eexists. split; [reflexivity|]. simpl. auto.
Qed.

(** C4. A line with fewer than six fields, or with an empty name field, or
    with an empty code field, is passed over: the parser does not raise and
    the catalog is what it was. *)
Theorem C4_malformed_line_skipped (v : script) (st : state) (raw : str)
        (parts : list str) :
  parts = split_on ";"%char (strip raw) ->
  List.length parts < 6 \/ strip (nth 3 parts []) = []
  \/ strip (nth 0 parts []) = [] ->
  exists st',
    process_line py_float today v st raw = Ok st'
    /\ funds_data st' = funds_data st
    /\ fund_count st' = fund_count st.
Proof.
  intros -> H. rewrite process_line_spec. eexists. split; [reflexivity|].
  destruct (is_amc_line (strip raw)) eqn:Hamc; [now split|].
  unfold line_record. rewrite Hamc.
  destruct (6 <=? _) eqn:Hlen; [|now split].
  apply Nat.leb_le in Hlen. unfold fields_0345.
  destruct H as [H|[H|H]].
  - lia.
  - rewrite H. now split.
  - exfalso. revert H. apply record_line_code; [exact Hamc|].
    apply split_on_contains. lia.
Qed.

(** C5. When a feed holds two record lines (or more) whose names normalize
    to one key, the catalog holds exactly one record under that key, the
    one of the first such line; keys never repeat in the catalog. *)
Theorem C5_first_record_wins (v : script) (text : str)
        (before between after : list str) (l1 l2 : str) (k : str)
        (st1 : state) (f1 : FundRecord) :
  split_on Re.newline text = before ++ l1 :: between ++ l2 :: after ->
  (forall l, In l before -> line_key py_float today l <> Some k) ->
  process_lines py_float today v init before = Ok st1 ->
  line_record py_float today v st1 l1 = Some (k, f1) ->
  line_key py_float today l2 = Some k ->
  exists st,
    parse_feed py_float today v text = Ok st
    /\ NoDup (keys (funds_data st))
    /\ get k (funds_data st) = Some f1
    /\ count_key k (keys (funds_data st)) = 1.
Proof.
  intros Hsplit Hbefore Hst1 Hl1 _. unfold parse_feed. rewrite Hsplit.
  rewrite process_lines_app, Hst1. simpl bind.
  assert (Hk1 : get k (funds_data st1) = None).
  { now apply (process_lines_absent py_float today v before init st1 k). }
  destruct (process_line_first py_float today v st1 l1 k f1 Hl1 Hk1)
    as [st2 [Hst2 Hk2]].
  simpl process_lines. rewrite Hst2. simpl bind.
  destruct (process_lines_total py_float today v st2
              (between ++ l2 :: after)) as [st Hst].
  exists st. split; [exact Hst|].
  assert (Hnd : NoDup (keys (funds_data st))).
  { apply (process_lines_nodup py_float today v _ _ _ Hst).
    apply (process_line_nodup py_float today v _ _ _ Hst2).
    apply (process_lines_nodup py_float today v _ _ _ Hst1). constructor. }
  assert (Hk : get k (funds_data st) = Some f1)
    by exact (process_lines_keeps py_float today v _ _ _ _ _ Hst Hk2).
  repeat split; [exact Hnd | exact Hk |].
  apply count_key_nodup; [exact Hnd|].
  apply get_some_in in Hk. change k with (fst (k, f1)). now apply in_map.
Qed.

End ParserClaims.

(** ** Classification *)

Section CategoryFacts.
Import FeedParser FeedView.

Ltac head_bool t :=
  lazymatch t with
  | orb ?a _ => head_bool a
  | _ => t
  end.

Ltac decide_head :=
  lazymatch goal with
  | |- (if ?c then _ else _) = _ =>
      let b := head_bool c in
      destruct b; cbn [orb]; try reflexivity
  end.

(** The [if]/[elif] chain is the rule table read first match first. *)
Lemma determine_category_table name :
  determine_category name = first_match category_rules (lower name).
Proof.
  unfold determine_category, category_rules, sectors.
  cbn [first_match existsb map]. generalize (lower name) as nm. intros nm.
  repeat decide_head.
Qed.

Variable py_float : str -> option float.
Variable today : str.

Lemma line_record_clean st raw k f :
  line_record py_float today CLEAN st raw = Some (k, f) ->
  k = clean_fund_name (f_name f)
  /\ f_category f = determine_category (f_name f).
Proof.
  unfold line_record. destruct (is_amc_line _); [discriminate|].
  destruct (6 <=? _); [|discriminate]. unfold fields_0345.
  destruct (strip (nth 3 _ _)); [discriminate|].
  intros [= <- <-]. now split.
Qed.

Lemma line_record_fixed st raw k f :
  line_record py_float today ACTUALLY_FIXED st raw = Some (k, f) ->
  k = clean_fund_name (f_name f)
  /\ f_category f = determine_category_fixed k.
Proof.
  unfold line_record. destruct (is_amc_line _); [discriminate|].
  destruct (6 <=? _); [|discriminate]. unfold fields_0345.
  destruct (strip (nth 3 _ _)); [discriminate|].
  intros [= <- <-]. now split.
Qed.

(** What holds of every record a line of the feed can add holds of the
    catalog. *)
Lemma process_lines_forall (v : script) (P : str * FundRecord -> Prop) ls :
  (forall st raw kf,
      In raw ls -> line_record py_float today v st raw = Some kf -> P kf) ->
  forall st st',
    process_lines py_float today v st ls = Ok st' ->
    Forall P (funds_data st) -> Forall P (funds_data st').
Proof.
  induction ls as [|l ls IH]; intros HP st st'; simpl.
  - now intros [= <-].
  - rewrite process_line_spec. simpl. intros H Hst.
    apply (IH (fun st0 raw kf Hin => HP st0 raw kf (or_intror Hin)) _ _ H).
    destruct (is_amc_line _); [exact Hst|].
    destruct (line_record _ _ _ _ l) as [[k f]|] eqn:E; [|exact Hst].
    destruct (mem k _); [exact Hst|]. simpl.
    apply Forall_app. split; [exact Hst|]. repeat constructor.
    exact (HP _ _ _ (or_introl eq_refl) E).
Qed.

(** C2 (as the code has it). In the catalog of fetch-fund-data-CLEAN.py
    every record is filed under the normalized name, and its category is
    the label of the first rule of the table that matches the lowercased
    published name (the record's [name]), ["Other"] when none does. *)
Theorem C2_category_of_published_name (text : str) (st : state) (k : str)
        (f : FundRecord) :
  parse_feed py_float today CLEAN text = Ok st ->
  In (k, f) (funds_data st) ->
  k = clean_fund_name (f_name f)
  /\ f_category f = first_match category_rules (lower (f_name f)).
Proof.
  intros Hst Hin. rewrite <- determine_category_table.
  pose (P := fun kf : str * FundRecord =>
               fst kf = clean_fund_name (f_name (snd kf))
               /\ f_category (snd kf) = determine_category (f_name (snd kf))).
  assert (H : Forall P (funds_data st)).
  { apply (process_lines_forall CLEAN P _) with (2 := Hst); [|constructor].
    intros st0 raw [k0 f0] _ E. exact (line_record_clean _ _ _ _ E). }
  rewrite Forall_forall in H. exact (H _ Hin).
Qed.

(** The older script classifies the key, with its shorter sector list. *)
Lemma category_of_key_fixed (text : str) (st : state) (k : str)
      (f : FundRecord) :
  parse_feed py_float today ACTUALLY_FIXED text = Ok st ->
  In (k, f) (funds_data st) ->
  k = clean_fund_name (f_name f)
  /\ f_category f = determine_category_fixed k.
Proof.
  intros Hst Hin.
  pose (P := fun kf : str * FundRecord =>
               fst kf = clean_fund_name (f_name (snd kf))
               /\ f_category (snd kf) = determine_category_fixed (fst kf)).
  assert (H : Forall P (funds_data st)).
  { apply (process_lines_forall ACTUALLY_FIXED P _) with (2 := Hst);
      [|constructor].
    intros st0 raw [k0 f0] _ E. exact (line_record_fixed _ _ _ _ E). }
  rewrite Forall_forall in H. exact (H _ Hin).
Qed.

End CategoryFacts.

(** ** Name normalization *)

Section PatternFacts.
Import FeedView.

Lemma lstrip_incl s c : In c (lstrip s) -> In c s.
Proof.
  induction s as [|d s IH]; simpl; [tauto|].
  destruct (isspace d); [auto | tauto].
Qed.

Lemma match_token_incl tok : forall s r c,
  Re.match_token tok s = Some r -> In c r -> In c s.
Proof.
  induction tok as [|a tok IH]; intros s r c; simpl.
  - now intros [= ->].
  - destruct s as [|b s]; [discriminate|].
    destruct (Ascii.eqb _ _); [|discriminate].
    intros H Hc. right. exact (IH _ _ _ H Hc).
Qed.

Lemma match_head_incl tok s r c :
  Re.match_head tok s = Some r -> In c r -> In c s.
Proof.
  unfold Re.match_head. destruct (lstrip s) as [|d s1] eqn:E; [discriminate|].
  destruct (Ascii.eqb d Re.hyphen); [|discriminate].
  intros H Hc. apply lstrip_incl. rewrite E. right.
  apply lstrip_incl. exact (match_token_incl _ _ _ _ H Hc).
Qed.

Lemma dot_star_eol_no_newline s :
  ~ In Re.newline s -> Re.dot_star_eol s = Some [].
Proof.
  induction s as [|c s IH]; simpl; [reflexivity|]. intros H.
  destruct (Ascii.eqb c Re.newline) eqn:E.
  - apply Ascii.eqb_eq in E. tauto.
  - apply IH. tauto.
Qed.

(** Without a newline the pattern matches where its head does, and takes
    the rest of the string. *)
Lemma match_here_no_newline tok s :
  ~ In Re.newline s ->
  Re.match_here tok s
  = match Re.match_head tok s with
    | Some _ => Some []
    | None => None
    end.
Proof.
  intros H. unfold Re.match_here.
  destruct (Re.match_head tok s) as [r|] eqn:E; [|reflexivity].
  apply dot_star_eol_no_newline. intros Hr. apply H.
  exact (match_head_incl _ _ _ _ E Hr).
Qed.

Lemma sub_plan_prefix tok s :
  ~ In Re.newline s -> exists rest, s = Re.sub_plan tok s ++ rest.
Proof.
  induction s as [|c s IH]; intros H.
  - now exists [].
  - simpl Re.sub_plan. rewrite match_here_no_newline by exact H.
    destruct (Re.match_head tok (c :: s)).
    + now exists (c :: s).
    + destruct IH as [rest Hrest]; [simpl in H; tauto|].
      exists rest. simpl. now f_equal.
Qed.

Lemma sub_plan_incl tok s c :
  ~ In Re.newline s -> In c (Re.sub_plan tok s) -> In c s.
Proof.
  intros H Hc. destruct (sub_plan_prefix tok s H) as [rest Hrest].
  rewrite Hrest. apply in_or_app. now left.
Qed.

Lemma lstrip_app s y : lstrip s <> [] -> lstrip (s ++ y) = lstrip s ++ y.
Proof.
  induction s as [|c s IH]; simpl; [congruence|].
  destruct (isspace c); [exact IH | reflexivity].
Qed.

Lemma match_token_app tok : forall s r y,
  Re.match_token tok s = Some r -> Re.match_token tok (s ++ y) = Some (r ++ y).
Proof.
  induction tok as [|a tok IH]; intros s r y; simpl.
  - now intros [= ->].
  - destruct s as [|b s]; [discriminate|]. simpl.
    destruct (Ascii.eqb _ _); [apply IH | discriminate].
Qed.

(** A match of the head is not undone by what comes after it. *)
Lemma match_head_app tok s r y :
  tok <> [] ->
  Re.match_head tok s = Some r -> Re.match_head tok (s ++ y) = Some (r ++ y).
Proof.
  intros Htok. unfold Re.match_head.
  destruct (lstrip s) as [|d s1] eqn:E; [discriminate|].
  rewrite lstrip_app by congruence. rewrite E. simpl.
  destruct (Ascii.eqb d Re.hyphen); [|discriminate].
  intros H. rewrite lstrip_app.
  - now apply match_token_app.
  - destruct tok; [contradiction|]. simpl in H.
    destruct (lstrip s1); [discriminate | discriminate].
Qed.

Lemma has_head_cons tok c s :
  has_head tok (c :: s)
  = match Re.match_head tok (c :: s) with
    | Some _ => true
    | None => has_head tok s
    end.
Proof. reflexivity. Qed.

Lemma has_head_nil tok : has_head tok [] = false.
Proof. reflexivity. Qed.

Lemma has_head_app tok s y :
  tok <> [] -> has_head tok s = true -> has_head tok (s ++ y) = true.
Proof.
  intros Htok. induction s as [|c s IH]; [discriminate|].
  rewrite has_head_cons. simpl app. rewrite has_head_cons.
  destruct (Re.match_head tok (c :: s)) as [r|] eqn:E.
  - intros _. change (c :: s ++ y) with ((c :: s) ++ y).
    now rewrite (match_head_app _ _ _ y Htok E).
  - intros H. rewrite (IH H).
    now destruct (Re.match_head tok (c :: s ++ y)).
Qed.

(** After a substitution its own pattern matches nowhere. *)
Lemma sub_plan_no_head tok s :
  tok <> [] -> ~ In Re.newline s -> has_head tok (Re.sub_plan tok s) = false.
Proof.
  intros Htok. induction s as [|c s IH]; intros H.
  - reflexivity.
  - simpl Re.sub_plan. rewrite match_here_no_newline by exact H.
    destruct (Re.match_head tok (c :: s)) eqn:E; [reflexivity|].
    rewrite has_head_cons, IH by (simpl in H; tauto).
    destruct (Re.match_head tok (c :: Re.sub_plan tok s)) as [r|] eqn:E';
      [|reflexivity].
    destruct (sub_plan_prefix tok s) as [rest Hrest]; [simpl in H; tauto|].
    apply (match_head_app _ _ _ rest Htok) in E'.
    simpl in E'. rewrite <- Hrest in E'. congruence.
Qed.

(** A substitution creates no match of another pattern. *)
Lemma sub_plan_keeps_no_head tok tok' s :
  tok' <> [] -> ~ In Re.newline s ->
  has_head tok' s = false -> has_head tok' (Re.sub_plan tok s) = false.
Proof.
  intros Htok H H'. destruct (sub_plan_prefix tok s H) as [rest Hrest].
  destruct (has_head tok' (Re.sub_plan tok s)) eqn:E; [|reflexivity].
  apply (has_head_app _ _ rest Htok) in E. rewrite <- Hrest in E. congruence.
Qed.

(** Where the pattern matches nowhere the substitution changes nothing. *)
Lemma sub_plan_id tok s : has_head tok s = false -> Re.sub_plan tok s = s.
Proof.
  induction s as [|c s IH].
  - reflexivity.
  - rewrite has_head_cons. simpl Re.sub_plan. unfold Re.match_here.
    destruct (Re.match_head tok (c :: s)); [discriminate|].
    intros H. now rewrite IH.
Qed.

End PatternFacts.

Section CollapseFacts.
Import FeedView.

Lemma split_ws_cons c s :
  split_ws (c :: s)
  = if isspace c then split_ws s
    else match s with
         | [] => [[c]]
         | d :: _ =>
             if isspace d then [c] :: split_ws s
             else match split_ws s with
                  | w :: ws => (c :: w) :: ws
                  | [] => [[c]]
                  end
         end.
Proof. reflexivity. Qed.

Lemma split_ws_words s : Forall (fun w => w <> []) (split_ws s).
Proof.
  induction s as [|c s IH]; [constructor|]. rewrite split_ws_cons.
  destruct (isspace c); [exact IH|].
  destruct s as [|d s']; [repeat constructor; discriminate|].
  destruct (isspace d); [constructor; [discriminate | exact IH]|].
  destruct (split_ws (d :: s')) as [|w ws];
    [repeat constructor; discriminate|].
  inversion IH; subst. constructor; [discriminate | assumption].
Qed.

Lemma split_ws_nonspace d s : isspace d = false -> split_ws (d :: s) <> [].
Proof.
  intros Hd. rewrite split_ws_cons, Hd.
  destruct s as [|e s']; [discriminate|].
  destruct (isspace e); [discriminate|].
  destruct (split_ws (e :: s')); discriminate.
Qed.

Lemma join_cons_word sep c w ws :
  join sep ((c :: w) :: ws) = c :: join sep (w :: ws).
Proof. destruct ws; reflexivity. Qed.

Lemma collapse_nil_split s : collapse s = [] -> split_ws s = [].
Proof.
  unfold collapse. pose proof (split_ws_words s) as H.
  destruct (split_ws s) as [|w ws]; [reflexivity|].
  inversion H as [|? ? Hw _]; subst. destruct w; [contradiction|].
  rewrite join_cons_word. discriminate.
Qed.

Lemma collapse_space c s : isspace c = true -> collapse (c :: s) = collapse s.
Proof. intros H. unfold collapse. now rewrite split_ws_cons, H. Qed.

Lemma collapse_one c : isspace c = false -> collapse [c] = [c].
Proof. intros H. unfold collapse. now rewrite split_ws_cons, H. Qed.

Lemma collapse_gap c d s :
  isspace c = false -> isspace d = true ->
  collapse (c :: d :: s)
  = c :: match split_ws (d :: s) with
         | [] => []
         | _ :: _ => " "%char :: collapse (d :: s)
         end.
Proof.
  intros Hc Hd. unfold collapse. rewrite (split_ws_cons c), Hc, Hd.
  now destruct (split_ws (d :: s)).
Qed.

Lemma collapse_run c d s :
  isspace c = false -> isspace d = false ->
  collapse (c :: d :: s) = c :: collapse (d :: s).
Proof.
  intros Hc Hd. unfold collapse. rewrite (split_ws_cons c), Hc, Hd.
  destruct (split_ws (d :: s)) as [|w ws] eqn:E.
  - now apply split_ws_nonspace in E.
  - apply join_cons_word.
Qed.

(** The collapsed string starts with what is not whitespace. *)
Lemma collapse_head c s :
  isspace c = false -> exists x, collapse (c :: s) = c :: x.
Proof.
  intros Hc. destruct s as [|d s].
  - rewrite collapse_one by exact Hc. eauto.
  - destruct (isspace d) eqn:Hd.
    + rewrite collapse_gap by assumption. eauto.
    + rewrite collapse_run by assumption. eauto.
Qed.

Lemma lstrip_collapse s : lstrip (collapse s) = collapse s.
Proof.
  induction s as [|c s IH]; [reflexivity|].
  destruct (isspace c) eqn:Hc.
  - now rewrite collapse_space.
  - destruct (collapse_head c s Hc) as [x ->]. simpl. now rewrite Hc.
Qed.

Lemma eqb_lower_space b d :
  isspace b = false -> isspace d = true ->
  Ascii.eqb (lower_char b) (lower_char d) = false.
Proof.
  intros Hb Hd. destruct (Ascii.eqb _ _) eqn:E; [|reflexivity].
  apply Ascii.eqb_eq in E. apply (f_equal isspace) in E.
  rewrite !isspace_lower_char in E. congruence.
Qed.

Lemma matches_nil s : matches [] s = true.
Proof. reflexivity. Qed.

Lemma matches_cons a tok b s :
  matches (a :: tok) (b :: s)
  = Ascii.eqb (lower_char a) (lower_char b) && matches tok s.
Proof. unfold matches. simpl. now destruct (Ascii.eqb _ _). Qed.

Lemma matches_space b tok d s :
  isspace b = false -> isspace d = true -> matches (b :: tok) (d :: s) = false.
Proof.
  intros Hb Hd. now rewrite matches_cons, eqb_lower_space.
Qed.

(** A token without whitespace matches the collapsed string where it
    matches the first word. *)
Lemma matches_collapse s : forall tok,
  forallb (fun c => negb (isspace c)) tok = true ->
  matches tok (collapse s) = matches tok (lstrip s).
Proof.
  induction s as [|c s IH]; intros tok Htok; [reflexivity|].
  destruct (isspace c) eqn:Hc.
  - rewrite collapse_space by exact Hc. simpl. rewrite Hc. now apply IH.
  - simpl lstrip. rewrite Hc.
    destruct tok as [|a tok]; [reflexivity|].
    simpl in Htok. apply andb_true_iff in Htok as [Ha Htok].
    destruct s as [|d s].
    + now rewrite collapse_one.
    + destruct (isspace d) eqn:Hd.
      * rewrite collapse_gap, !matches_cons by assumption. f_equal.
        destruct tok as [|b tok]; [reflexivity|].
        simpl in Htok. apply andb_true_iff in Htok as [Hb _].
        apply negb_true_iff in Hb.
        rewrite (matches_space b tok d s Hb Hd).
        destruct (split_ws (d :: s)); [reflexivity|].
        now apply matches_space.
      * rewrite collapse_run, !matches_cons by assumption. f_equal.
        rewrite (IH tok Htok). simpl. now rewrite Hd.
Qed.

Lemma head_b_nonspace tok c s :
  isspace c = false ->
  head_b tok (c :: s) = Ascii.eqb c Re.hyphen && matches tok (lstrip s).
Proof.
  intros Hc. unfold head_b, Re.match_head, matches. simpl. rewrite Hc.
  now destruct (Ascii.eqb c Re.hyphen).
Qed.

Lemma head_b_space tok c s :
  isspace c = true -> head_b tok (c :: s) = head_b tok s.
Proof.
  intros Hc. unfold head_b, Re.match_head. simpl. now rewrite Hc.
Qed.

Lemma has_head_unfold tok c s :
  has_head tok (c :: s) = head_b tok (c :: s) || has_head tok s.
Proof.
  rewrite has_head_cons. unfold head_b.
  now destruct (Re.match_head tok (c :: s)).
Qed.

Lemma head_b_has_head tok s : head_b tok s = true -> has_head tok s = true.
Proof.
  destruct s as [|c s]; [discriminate|]. rewrite has_head_unfold.
  now intros ->.
Qed.

Lemma solid_no_space tok :
  solid tok = true -> forallb (fun c => negb (isspace c)) tok = true.
Proof. now destruct tok. Qed.

Lemma solid_not_nil tok : solid tok = true -> tok <> [].
Proof. now destruct tok. Qed.

(** Collapsing the whitespace creates no match. *)
Lemma collapse_keeps_no_head tok s :
  solid tok = true -> has_head tok s = false ->
  has_head tok (collapse s) = false.
Proof.
  intros Htok. apply solid_no_space in Htok.
  induction s as [|c s IH]; [reflexivity|].
  rewrite has_head_unfold. intros H. apply orb_false_iff in H as [Hh Hs].
  specialize (IH Hs).
  destruct (isspace c) eqn:Hc; [now rewrite collapse_space|].
  rewrite head_b_nonspace in Hh by exact Hc.
  rewrite <- (matches_collapse s tok Htok) in Hh.
  destruct s as [|d s].
  - rewrite collapse_one by exact Hc. rewrite has_head_unfold.
    rewrite head_b_nonspace by exact Hc.
    change (collapse []) with (@nil ascii) in Hh. simpl lstrip.
    now rewrite Hh.
  - destruct (isspace d) eqn:Hd.
    + rewrite collapse_gap by assumption. rewrite has_head_unfold.
      rewrite head_b_nonspace by exact Hc.
      destruct (split_ws (d :: s)) as [|w ws] eqn:E.
      * unfold collapse in Hh. rewrite E in Hh. simpl in Hh.
        simpl lstrip. now rewrite Hh.
      * simpl lstrip. rewrite lstrip_collapse, Hh, orb_false_l.
        rewrite has_head_unfold, head_b_space by reflexivity.
        rewrite IH, orb_false_r.
        destruct (head_b tok (collapse (d :: s))) eqn:E'; [|reflexivity].
        apply head_b_has_head in E'. congruence.
    + rewrite collapse_run by assumption. rewrite has_head_unfold.
      rewrite head_b_nonspace by exact Hc.
      now rewrite lstrip_collapse, Hh, IH.
Qed.

Lemma split_ws_gap c y :
  isspace c = false -> split_ws (c :: " "%char :: y) = [c] :: split_ws y.
Proof. intros Hc. rewrite split_ws_cons, Hc. reflexivity. Qed.

(** The words of the collapsed string are the words of the string. *)
Lemma split_ws_collapse s : split_ws (collapse s) = split_ws s.
Proof.
  induction s as [|c s IH]; [reflexivity|].
  destruct (isspace c) eqn:Hc.
  - now rewrite collapse_space, split_ws_cons, Hc.
  - destruct s as [|d s].
    + now rewrite collapse_one.
    + destruct (isspace d) eqn:Hd.
      * rewrite collapse_gap by assumption.
        rewrite (split_ws_cons c (d :: s)), Hc, Hd.
        destruct (split_ws (d :: s)) as [|w ws] eqn:E.
        -- now rewrite split_ws_cons, Hc.
        -- rewrite split_ws_gap by exact Hc. now f_equal.
      * rewrite collapse_run by assumption.
        rewrite (split_ws_cons c (d :: s)), Hc, Hd.
        destruct (collapse_head d s Hd) as [x Hx].
        rewrite Hx in IH |- *. now rewrite split_ws_cons, Hc, Hd, IH.
Qed.

Lemma collapse_idem s : collapse (collapse s) = collapse s.
Proof. unfold collapse at 1 3. now rewrite split_ws_collapse. Qed.

Lemma last_cons_nonempty (a : ascii) y d :
  y <> [] -> last (a :: y) d = last y d.
Proof. destruct y; [contradiction | reflexivity]. Qed.

(** The collapsed string ends with what is not whitespace. *)
Lemma collapse_last s d :
  collapse s <> [] -> isspace (last (collapse s) d) = false.
Proof.
  induction s as [|c s IH]; [contradiction|].
  destruct (isspace c) eqn:Hc; [now rewrite collapse_space|].
  intros _. destruct s as [|d' s].
  - now rewrite collapse_one.
  - destruct (isspace d') eqn:Hd.
    + rewrite collapse_gap by assumption.
      destruct (split_ws (d' :: s)) as [|w ws] eqn:E; [exact Hc|].
      assert (Hne : collapse (d' :: s) <> []).
      { intros H. apply collapse_nil_split in H. congruence. }
      rewrite !last_cons_nonempty by (exact Hne || discriminate).
      exact (IH Hne).
    + rewrite collapse_run by assumption.
      destruct (collapse_head d' s Hd) as [x Hx].
      rewrite last_cons_nonempty by (rewrite Hx; discriminate).
      apply IH. rewrite Hx. discriminate.
Qed.

Lemma rstrip_id s d : s <> [] -> isspace (last s d) = false -> rstrip s = s.
Proof.
  intros Hne. destruct (exists_last Hne) as [x [a ->]].
  rewrite last_last. intros Ha. unfold rstrip.
  rewrite rev_unit. simpl. rewrite Ha. simpl. now rewrite rev_involutive.
Qed.

Lemma strip_collapse s : strip (collapse s) = collapse s.
Proof.
  unfold strip. rewrite lstrip_collapse.
  destruct (collapse s) as [|c x] eqn:E; [reflexivity|]. rewrite <- E.
  apply (rstrip_id _ c); [congruence|]. apply collapse_last. congruence.
Qed.

End CollapseFacts.

Section NormalizationClaims.
Import FeedParser FeedView.

Local Abbreviation subs :=
  (fold_left (fun (s : str) (tok : str) => Re.sub_plan tok s)).

Lemma clean_fund_name_unfold name :
  clean_fund_name name = strip (collapse (subs plan_tokens name)).
Proof. reflexivity. Qed.

(** After the substitutions none of their patterns matches. *)
Lemma subs_no_head toks : forall done s,
  (forall tok, In tok (done ++ toks) -> tok <> []) ->
  ~ In Re.newline s ->
  (forall tok, In tok done -> has_head tok s = false) ->
  ~ In Re.newline (subs toks s)
  /\ forall tok, In tok (done ++ toks) -> has_head tok (subs toks s) = false.
Proof.
  induction toks as [|t toks IH]; intros done s Hne Hnl Hdone; simpl.
  - rewrite app_nil_r. auto.
  - assert (Ht : t <> []) by (apply Hne, in_or_app; right; now left).
    replace (done ++ t :: toks) with ((done ++ [t]) ++ toks) in *
      by now rewrite <- app_assoc.
    apply IH; [exact Hne | |].
    + intros H. apply Hnl. exact (sub_plan_incl _ _ _ Hnl H).
    + intros tok Hin. apply in_app_or in Hin as [Hin|[<-|[]]].
      * apply sub_plan_keeps_no_head; auto.
        apply Hne, in_or_app. left. apply in_or_app. now left.
      * now apply sub_plan_no_head.
Qed.

Lemma subs_id toks s :
  (forall tok, In tok toks -> has_head tok s = false) -> subs toks s = s.
Proof.
  induction toks as [|t toks IH]; intros H; simpl; [reflexivity|].
  rewrite sub_plan_id by (apply H; now left).
  apply IH. intros tok Hin. apply H. now right.
Qed.

Lemma plan_tokens_solid tok : In tok plan_tokens -> solid tok = true.
Proof.
  intros H. repeat (destruct H as [<-|H]; [reflexivity|]). destruct H.
Qed.

(** What the normalization gives for a name without a line feed: a
    string with its whitespace collapsed in which no pattern matches. *)
Lemma clean_fund_name_shape (name : str) :
  ~ In Re.newline name ->
  exists t,
    clean_fund_name name = collapse t
    /\ forall tok, In tok plan_tokens -> has_head tok (collapse t) = false.
Proof.
  intros Hnl.
  destruct (subs_no_head plan_tokens [] name) as [_ Hno];
    [ intros tok Hin; now apply solid_not_nil, plan_tokens_solid
    | exact Hnl | intros tok [] |].
  simpl app in Hno. exists (subs plan_tokens name).
  rewrite clean_fund_name_unfold, strip_collapse. split; [reflexivity|].
  intros tok Hin. apply collapse_keeps_no_head.
  - now apply plan_tokens_solid.
  - now apply Hno.
Qed.

(** On such a string the normalization does nothing. *)
Lemma clean_fund_name_collapsed (t : str) :
  (forall tok, In tok plan_tokens -> has_head tok (collapse t) = false) ->
  clean_fund_name (collapse t) = collapse t.
Proof.
  intros Hno. rewrite clean_fund_name_unfold, subs_id by exact Hno.
  now rewrite collapse_idem, strip_collapse.
Qed.

(** C9 (for the names the parser can meet). Normalizing a normalized name
    gives it back, for every name without a line feed; a feed is cut into
    lines at the line feeds, so no name read from it has one. *)
Theorem C9_clean_fund_name_idempotent (name : str) :
  ~ In Re.newline name ->
  clean_fund_name (clean_fund_name name) = clean_fund_name name.
Proof.
  intros Hnl.
  destruct (clean_fund_name_shape name Hnl) as [t [Ht Hno]].
  rewrite Ht. apply clean_fund_name_collapsed.
  intros tok Hin. exact (Hno tok Hin).
Qed.

Lemma split_on_parts sep s : forall w,
  In w (split_on sep s) -> ~ In sep w /\ forall c, In c w -> In c s.
Proof.
  induction s as [|c s IH]; intros w; simpl.
  - intros [<-|[]]. split; [tauto | contradiction].
  - destruct (Ascii.eqb c sep) eqn:E.
    + intros [<-|H]; [split; [tauto | contradiction]|].
      destruct (IH w H) as [H1 H2]. split; [exact H1 | auto].
    + destruct (split_on sep s) as [|w0 ws] eqn:Es.
      * now apply split_on_nonempty in Es.
      * apply Ascii.eqb_neq in E.
        intros [<-|H].
        -- destruct (IH w0 (or_introl eq_refl)) as [H1 H2]. split.
           ++ intros [->|H']; [congruence | contradiction].
           ++ intros c' [->|H']; [now left | right; auto].
        -- destruct (IH w (or_intror H)) as [H1 H2]. split; [exact H1|auto].
Qed.

Lemma strip_incl s c : In c (strip s) -> In c s.
Proof.
  unfold strip, rstrip. intros H. apply in_rev, lstrip_incl in H.
  apply in_rev in H. now apply lstrip_incl.
Qed.

Lemma no_newline_check s :
  forallb (fun c => negb (Ascii.eqb c Re.newline)) s = true ->
  ~ In Re.newline s.
Proof.
  rewrite forallb_forall. intros H Hin. specialize (H _ Hin).
  now rewrite Ascii.eqb_refl in H.
Qed.

Section FeedNames.

Variable py_float : str -> option float.
Variable today : str.
Variable v : script.

Lemma line_record_name st raw k f :
  line_record py_float today v st raw = Some (k, f) ->
  k = clean_fund_name (f_name f)
  /\ f_name f = strip (nth 3 (split_on ";"%char (strip raw)) []).
Proof.
  unfold line_record. destruct (is_amc_line _); [discriminate|].
  destruct (6 <=? _); [|discriminate]. unfold fields_0345.
  destruct (strip (nth 3 _ _)) eqn:E; [discriminate|].
  intros [= <- <-]. now split.
Qed.

(** A name read from a line has no line feed when the line has none. *)
Lemma line_record_no_newline st raw k f :
  ~ In Re.newline raw ->
  line_record py_float today v st raw = Some (k, f) ->
  ~ In Re.newline (f_name f).
Proof.
  intros Hraw H. apply line_record_name in H as [_ ->]. intros Hin.
  apply strip_incl in Hin.
  destruct (nth_in_or_default 3 (split_on ";"%char (strip raw)) [])
    as [Hnth|Hnth]; [|now rewrite Hnth in Hin].
  apply Hraw, strip_incl. exact (proj2 (split_on_parts _ _ _ Hnth) _ Hin).
Qed.

(** Every key of the catalog is a normalized name: normalizing it again
    changes nothing. *)
Lemma catalog_keys_fixed_points text st k f :
  parse_feed py_float today v text = Ok st ->
  In (k, f) (funds_data st) ->
  k = clean_fund_name (f_name f) /\ clean_fund_name k = k.
Proof.
  intros Hst Hin.
  pose (P := fun kf : str * FundRecord =>
               fst kf = clean_fund_name (f_name (snd kf))
               /\ ~ In Re.newline (f_name (snd kf))).
  assert (H : Forall P (funds_data st)).
  { apply (process_lines_forall py_float today v P _) with (2 := Hst);
      [|constructor].
    intros st0 raw [k0 f0] Hraw E. split.
    - exact (proj1 (line_record_name _ _ _ _ E)).
    - apply (line_record_no_newline st0 raw k0 f0); [|exact E].
      exact (proj1 (split_on_parts _ _ _ Hraw)). }
  rewrite Forall_forall in H. destruct (H _ Hin) as [Hk Hnl]. simpl in *.
  split; [exact Hk|]. rewrite Hk.
  destruct (clean_fund_name_shape (f_name f) Hnl) as [t [Ht Hno]].
  rewrite Ht. now apply clean_fund_name_collapsed.
Qed.

End FeedNames.

End NormalizationClaims.

(** ** Returns *)

Section ReturnFacts.
Import ReturnEnricher.

Variable py_float : str -> option float.
Variable strptime : str -> option datetime.

Local Abbreviation scan := (scan py_float strptime).
Local Abbreviation get_nav_n_days_ago := (get_nav_n_days_ago py_float strptime).
Local Abbreviation calculate_returns := (calculate_returns py_float strptime).
Local Abbreviation calculate_returns_body :=
  (calculate_returns_body py_float strptime).

(** The guard [if nav_Ny:] keeps the division from a zero divisor. *)
Lemma horizon_return_ok cur np :
  horizon_return cur np
  = Ok match np with
       | Some p =>
           if PyFloat.truthy p
           then Some (PyFloat.round2
                        (PrimFloat.mul (PrimFloat.div (PrimFloat.sub cur p) p)
                                       100%float))
           else None
       | None => None
       end.
Proof.
  destruct np as [p|]; [|reflexivity].
  unfold horizon_return, PyFloat.truthy, PyFloat.div.
  now destruct (PrimFloat.eqb p PrimFloat.zero).
Qed.

(** The only exception of the body: the NAV of the first point is not a
    number. *)
Lemma calculate_returns_body_raises now h x :
  calculate_returns_body now h = Raise x -> x = ValueError.
Proof.
  unfold ReturnEnricher.calculate_returns_body.
  destruct (List.length h <? 2) eqn:Hlen; [discriminate|].
  destruct h as [|e0 h']; [discriminate|]. simpl index. simpl bind.
  unfold float_of. destruct (py_float (nav e0)); simpl bind.
  - rewrite !horizon_return_ok. simpl bind. discriminate.
  - now intros [= <-].
Qed.

(** A horizon whose scan finds nothing, or finds a zero, is absent. *)
Lemma horizon_absent now h hz :
  match get_nav_n_days_ago (now (reading_of hz)) h (days_of hz) with
  | Some p => PyFloat.truthy p = false
  | None => True
  end ->
  horizon_value (calculate_returns now h) hz = None.
Proof.
  intros H. unfold ReturnEnricher.calculate_returns,
    ReturnEnricher.calculate_returns_body.
  destruct (List.length h <? 2); [reflexivity|].
  destruct (index h 0) as [e0|]; simpl bind; [|reflexivity].
  destruct (float_of py_float (nav e0)) as [cur|]; simpl bind; [|reflexivity].
  rewrite !horizon_return_ok. simpl bind. unfold horizon_value.
  destruct hz; simpl in H |- *;
    match goal with
    | |- match ?g with _ => _ end = None =>
        destruct g as [p|]; [now rewrite H | reflexivity]
    end.
Qed.

(** Points before the first one that the [try] block returns from, or
    falls out of, do not count. *)
Lemma scan_app target before rest :
  (forall e, In e before ->
             forall x, try_entry py_float strptime target e <> Ok (Some x)) ->
  scan target (before ++ rest) = scan target rest.
Proof.
  induction before as [|e before IH]; intros H; [reflexivity|]. simpl.
  pose proof (H e (or_introl eq_refl)) as He.
  destruct (try_entry py_float strptime target e) as [[x|]|];
    [now contradiction (He x) | |]; apply IH; intros e' He'; apply H;
    now right.
Qed.

Lemma try_entry_after target e t :
  strptime (date e) = Some t -> (target < t)%Z ->
  try_entry py_float strptime target e = Ok None.
Proof.
  intros Ht Hlt. unfold try_entry, strptime_of. rewrite Ht. simpl.
  now rewrite (proj2 (Z.leb_gt _ _) Hlt).
Qed.

Lemma try_entry_no_date target e :
  strptime (date e) = None ->
  try_entry py_float strptime target e = Raise ValueError.
Proof.
  intros Ht. unfold try_entry, strptime_of. now rewrite Ht.
Qed.

Lemma try_entry_later target e :
  (forall t, strptime (date e) = Some t -> (target < t)%Z) ->
  forall x, try_entry py_float strptime target e <> Ok (Some x).
Proof.
  intros H x. destruct (strptime (date e)) as [t|] eqn:Ht.
  - now rewrite (try_entry_after target e t Ht (H t eq_refl)).
  - now rewrite (try_entry_no_date target e Ht).
Qed.

Lemma scan_none target h :
  (forall e t, In e h -> strptime (date e) = Some t -> (target < t)%Z) ->
  scan target h = None.
Proof.
  intros H. rewrite <- (app_nil_r h). apply scan_app.
  intros e He. apply try_entry_later. intros t. now apply H.
Qed.

(** A point whose date does not parse is as good as not there. *)
Lemma scan_filter target h :
  scan target h
  = scan target
         (filter (fun e => match strptime (date e) with
                           | Some _ => true
                           | None => false
                           end) h).
Proof.
  induction h as [|e h IH]; [reflexivity|]. simpl.
  destruct (strptime (date e)) as [t|] eqn:Ht.
  - simpl. now rewrite IH.
  - now rewrite (try_entry_no_date target e Ht).
Qed.

(** C6. With today at 120.0 and the day 366 days back at 100.0, most
    recent first, the one-year return is 20.0 (and the longer horizons
    are absent); with fewer than two points nothing is returned, so all
    three horizons are absent. *)
Theorem C6_one_year_return (now : nat -> datetime) (d0 n0 d1 n1 : str)
        (t0 : datetime) :
  py_float n0 = Some 120%float ->
  py_float n1 = Some 100%float ->
  strptime d0 = Some t0 ->
  strptime d1 = Some (t0 - timedelta_days 366)%Z ->
  (forall k, t0 <= now k < t0 + timedelta_days 1)%Z ->
  calculate_returns now [mkEntry d0 n0; mkEntry d1 n1]
  = Some (mkReturns (Some 20%float) None None)
  /\ forall h hz,
      List.length h < 2 ->
      calculate_returns now h = None
      /\ horizon_value (calculate_returns now h) hz = None.
Proof.
  intros Hn0 Hn1 Hd0 Hd1 Hnow. split.
  - unfold ReturnEnricher.calculate_returns,
      ReturnEnricher.calculate_returns_body.
    simpl. unfold float_of at 1. simpl. rewrite Hn0. simpl bind.
    rewrite !horizon_return_ok. simpl bind.
    unfold ReturnEnricher.get_nav_n_days_ago. simpl.
    unfold try_entry, strptime_of, float_of. simpl.
    rewrite Hd0, Hd1, Hn1. simpl bind.
    pose proof (Hnow 0) as H0. pose proof (Hnow 1) as H1.
    pose proof (Hnow 2) as H2. unfold timedelta_days in *.
    repeat match goal with
           | |- context [(?a <=? ?b)%Z] =>
               destruct (Z.leb_spec a b); try lia
           end.
    reflexivity.
  - intros h hz Hlen.
    assert (E : calculate_returns now h = None).
    { unfold ReturnEnricher.calculate_returns,
        ReturnEnricher.calculate_returns_body.
      now rewrite (proj2 (Nat.ltb_lt _ _) Hlen). }
    now rewrite E.
Qed.

(** C7. For each of the three horizons: a point whose date does not parse
    is passed over and the scan goes on, and when no point that is left
    has a date at or before the cutoff the scan finds nothing and the
    return of the horizon is absent (no exception, no zero). *)
Theorem C7_no_point_before_cutoff (now : nat -> datetime)
        (h : list nav_entry) (hz : horizon) :
  get_nav_n_days_ago (now (reading_of hz)) h (days_of hz)
  = get_nav_n_days_ago (now (reading_of hz))
      (filter (fun e => match strptime (date e) with
                        | Some _ => true
                        | None => false
                        end) h)
      (days_of hz)
  /\ ((forall e t,
          In e h -> strptime (date e) = Some t ->
          (now (reading_of hz) - timedelta_days (days_of hz) < t)%Z) ->
      get_nav_n_days_ago (now (reading_of hz)) h (days_of hz) = None
      /\ horizon_value (calculate_returns now h) hz = None).
Proof.
  split; [apply scan_filter|]. intros H.
  assert (E : get_nav_n_days_ago (now (reading_of hz)) h (days_of hz) = None)
    by now apply scan_none.
  split; [exact E|]. apply horizon_absent. now rewrite E.
Qed.

(** What the first point at or before the cutoff does to a horizon. *)
Lemma first_point_at_cutoff (now : nat -> datetime) (hz : horizon)
      (before after : list nav_entry) (e : nav_entry) (t : datetime) :
  (forall e' t', In e' before -> strptime (date e') = Some t' ->
                 (now (reading_of hz) - timedelta_days (days_of hz) < t')%Z) ->
  strptime (date e) = Some t ->
  (t <= now (reading_of hz) - timedelta_days (days_of hz))%Z ->
  get_nav_n_days_ago (now (reading_of hz)) (before ++ e :: after) (days_of hz)
  = match py_float (nav e) with
    | Some z => Some z
    | None => get_nav_n_days_ago (now (reading_of hz)) after (days_of hz)
    end.
Proof.
  intros Hbefore Ht Hle. unfold ReturnEnricher.get_nav_n_days_ago.
  rewrite scan_app.
  - simpl. unfold try_entry, strptime_of, float_of. rewrite Ht. simpl.
    rewrite (proj2 (Z.leb_le _ _) Hle).
    now destruct (py_float (nav e)).
  - intros e' He'. apply try_entry_later. intros t'. now apply Hbefore.
Qed.

(** C10 (as the code has it). [calculate_returns] gives a value for every
    series: the body can raise only the [ValueError] of an unparseable
    current NAV, never a division by zero, and the handler turns it into
    no returns.  When the first point at or before a cutoff has a NAV of
    zero the horizon is absent; when its NAV does not parse the point is
    passed over and the scan goes on with the older points. *)
Theorem C10_total_and_division_safe (now : nat -> datetime)
        (h : list nav_entry) :
  (forall x, calculate_returns_body now h = Raise x -> x = ValueError)
  /\ (forall x, calculate_returns_body now h = Raise x ->
                calculate_returns now h = None)
  /\ forall hz before e after t,
      h = before ++ e :: after ->
      (forall e' t', In e' before -> strptime (date e') = Some t' ->
                     (now (reading_of hz) - timedelta_days (days_of hz)
                      < t')%Z) ->
      strptime (date e) = Some t ->
      (t <= now (reading_of hz) - timedelta_days (days_of hz))%Z ->
      (forall z, py_float (nav e) = Some z -> PyFloat.truthy z = false ->
                 horizon_value (calculate_returns now h) hz = None)
      /\ (py_float (nav e) = None ->
          get_nav_n_days_ago (now (reading_of hz)) h (days_of hz)
          = get_nav_n_days_ago (now (reading_of hz)) after (days_of hz)).
Proof.
  split; [apply calculate_returns_body_raises|]. split.
  - intros x E. unfold ReturnEnricher.calculate_returns. now rewrite E.
  - intros hz before e after t -> Hbefore Ht Hle.
    pose proof (first_point_at_cutoff now hz before after e t Hbefore Ht Hle)
      as E.
    split.
    + intros z Hz Hzero. apply horizon_absent. now rewrite E, Hz.
    + intros Hz. now rewrite E, Hz.
Qed.

End ReturnFacts.

(** ** The batch driver *)

Section DriverFacts.
Import ReturnEnricher.

Variable input_data : data.
Variable get_fund_data_from_mfapi : nat -> str -> option (list nav_entry).
Variable calculate_returns_at : nat -> list nav_entry -> option Returns.
Variable isoformat_now : str.

Local Abbreviation outcome_of :=
  (outcome_of get_fund_data_from_mfapi calculate_returns_at).
Local Abbreviation success_at :=
  (success_at get_fund_data_from_mfapi calculate_returns_at).
Local Abbreviation successes :=
  (successes get_fund_data_from_mfapi calculate_returns_at).
Local Abbreviation failures :=
  (failures get_fund_data_from_mfapi calculate_returns_at).
Local Abbreviation enrich_one :=
  (enrich_one get_fund_data_from_mfapi calculate_returns_at isoformat_now).
Local Abbreviation enrich_range :=
  (enrich_range get_fund_data_from_mfapi calculate_returns_at isoformat_now).
Local Abbreviation enrich_funds :=
  (enrich_funds input_data get_fund_data_from_mfapi calculate_returns_at
                isoformat_now).
Local Abbreviation main :=
  (main input_data get_fund_data_from_mfapi calculate_returns_at
        isoformat_now).

(** One iteration: a progress line, one counter up by one. *)
Lemma enrich_one_counts fs i e d k f :
  nth_error fs i = Some (k, f) ->
  exists e' d',
    enrich_one fs i (e, d) = Ok (e', d')
    /\ console e' = console e ++ [i]
    /\ successful e' = successful e + (if success_at fs i then 1 else 0)
    /\ failed e' = failed e + (if success_at fs i then 0 else 1)
    /\ List.length (funds d') = List.length (funds d).
Proof.
  intros H. unfold ReturnEnricher.enrich_one, ReturnEnricher.success_at, index.
  rewrite H. generalize ((i + 1) mod 50 =? 0) as due. intros due.
  assert (Hlen : forall r, List.length (set_returns k r (funds d))
                           = List.length (funds d)).
  { intros r. induction (funds d) as [|[k0 f0] fs0 IH]; simpl;
      [reflexivity|]. destruct (str_eqb k k0); simpl; congruence. }
  simpl bind.
  destruct (outcome_of i f); destruct due; simpl;
    do 2 eexists; (split; [reflexivity|]); simpl; rewrite ?Hlen;
    repeat split; lia.
Qed.

(** One iteration on a fund with a scheme code: the checkpoint is written
    when [i + 1] is a multiple of 50, and only then. *)
Lemma enrich_one_checkpoint fs i e d k f :
  nth_error fs i = Some (k, f) ->
  outcome_of i f <> NoSchemeCode ->
  exists e' d',
    enrich_one fs i (e, d) = Ok (e', d')
    /\ if (i + 1) mod 50 =? 0
       then output_file e' = Some d'
            /\ enrichment_progress d'
               = Some (mkProgress (i + 1) (successful e') (failed e')
                                  isoformat_now)
       else output_file e' = output_file e.
Proof.
  intros H Hcode. unfold ReturnEnricher.enrich_one, index.
  rewrite H. generalize ((i + 1) mod 50 =? 0) as due. intros due.
  simpl bind.
  destruct (outcome_of i f); [contradiction | | |];
    destruct due; simpl;
    do 2 eexists; (split; [reflexivity|]); simpl; auto.
Qed.

Lemma successes_cons fs i rest :
  successes fs (i :: rest)
  = (if success_at fs i then 1 else 0) + successes fs rest.
Proof.
  unfold ReturnEnricher.successes. simpl. now destruct (success_at fs i).
Qed.

Lemma failures_cons fs i rest :
  failures fs (i :: rest)
  = (if success_at fs i then 0 else 1) + failures fs rest.
Proof.
  unfold ReturnEnricher.failures. simpl. now destruct (success_at fs i).
Qed.

Lemma enrich_range_cons fs i rest s :
  enrich_range fs (i :: rest) s
  = (s' <- enrich_one fs i s ;; enrich_range fs rest s').
Proof. reflexivity. Qed.

(** The loop over indices of the catalog never raises; it prints the
    indices in their order and adds each outcome to its counter. *)
Lemma enrich_range_counts fs indices : forall e d,
  (forall i, In i indices -> i < List.length fs) ->
  exists e' d',
    enrich_range fs indices (e, d) = Ok (e', d')
    /\ console e' = console e ++ indices
    /\ successful e' = successful e + successes fs indices
    /\ failed e' = failed e + failures fs indices
    /\ List.length (funds d') = List.length (funds d).
Proof.
  induction indices as [|i rest IH]; intros e d Hin.
  - exists e, d. unfold ReturnEnricher.successes, ReturnEnricher.failures.
    simpl. rewrite app_nil_r. repeat split; lia.
  - assert (Hi : i < List.length fs) by (apply Hin; now left).
    destruct (nth_error fs i) as [[k f]|] eqn:E;
      [|apply nth_error_None in E; lia].
    destruct (enrich_one_counts fs i e d k f E)
      as [e1 [d1 [H1 [Hc1 [Hs1 [Hf1 Hl1]]]]]].
    destruct (IH e1 d1 (fun j Hj => Hin j (or_intror Hj)))
      as [e2 [d2 [H2 [Hc2 [Hs2 [Hf2 Hl2]]]]]].
    exists e2, d2. rewrite enrich_range_cons, H1. simpl bind. rewrite H2.
    rewrite successes_cons, failures_cons, Hc2, Hc1, Hs2, Hs1, Hf2, Hf1.
    rewrite <- app_assoc. repeat split; (lia || congruence).
Qed.

Lemma range_bound start total i : In i (range start total) -> i < total.
Proof. unfold range. rewrite in_seq. lia. Qed.

(** A run that nothing interrupts, over a catalog that is not empty, comes
    to its end and writes the final document. *)
Lemma enrich_funds_done start e :
  funds input_data <> [] ->
  exists e' d',
    enrich_funds start e = Ok e'
    /\ console e' = console e ++ range start (List.length (funds input_data))
    /\ successful e'
       = successful e
         + successes (funds input_data)
                     (range start (List.length (funds input_data)))
    /\ failed e'
       = failed e
         + failures (funds input_data)
                    (range start (List.length (funds input_data)))
    /\ output_file e' = Some d'
    /\ enrichment_progress d' = None
    /\ enrichment_complete d' = true
    /\ enrichment_stats d'
       = Some (mkStats (List.length (funds input_data)) (successful e')
                       (failed e') isoformat_now).
Proof.
  intros Hne. unfold ReturnEnricher.enrich_funds.
  destruct (enrich_range_counts (funds input_data)
              (range start (List.length (funds input_data))) e input_data
              (range_bound _ _)) as [e1 [d1 [H1 [Hc [Hs [Hf Hlen]]]]]].
  rewrite H1. simpl bind.
  destruct (List.length (funds input_data) =? 0) eqn:E.
  - apply Nat.eqb_eq in E. destruct (funds input_data); [contradiction|].
    discriminate.
  - simpl. eexists. eexists.
    split; [reflexivity|].
    destruct (errors e1); simpl; rewrite Hlen; repeat split; assumption.
Qed.

(** C8. With a checkpoint at index 50 and the counters 40 and 10 in the
    catalog file, and "yes" at the prompt, the counters are 40 and 10
    again, the run prints the funds 50, 51, ... in the order of the
    catalog and no fund before 50, and at its end each counter is the
    checkpoint's plus the outcomes of the funds from 50 on. *)
Theorem C8_resume_from_checkpoint (proceed answer : str) (d0 : data)
        (ts : str) :
  lower proceed = lit "yes" ->
  lower answer = lit "yes" ->
  enrichment_progress d0 = Some (mkProgress 50 40 10 ts) ->
  funds input_data <> [] ->
  resume_from_progress answer (new_enricher (Some d0))
  = (set_counters (new_enricher (Some d0)) 40 10, 50)
  /\ exists e d,
      main proceed answer None (Some d0) = (e, Done)
      /\ console e = seq 50 (List.length (funds input_data) - 50)
      /\ successful e
         = 40 + successes (funds input_data)
                          (range 50 (List.length (funds input_data)))
      /\ failed e
         = 10 + failures (funds input_data)
                         (range 50 (List.length (funds input_data)))
      /\ output_file e = Some d
      /\ enrichment_progress d = None
      /\ enrichment_stats d
         = Some (mkStats (List.length (funds input_data)) (successful e)
                         (failed e) isoformat_now).
Proof.
  intros Hp Ha Hcp Hne.
  assert (Hres : resume_from_progress answer (new_enricher (Some d0))
                 = (set_counters (new_enricher (Some d0)) 40 10, 50)).
  { unfold resume_from_progress. simpl. rewrite Hcp, Ha, str_eqb_refl.
    reflexivity. }
  split; [exact Hres|].
  destruct (enrich_funds_done 50 (set_counters (new_enricher (Some d0)) 40 10)
              Hne)
    as [e [d [H [Hc [Hs [Hf [Ho [Hpr [_ Hst]]]]]]]]].
  exists e, d. unfold ReturnEnricher.main.
  rewrite Hp, str_eqb_refl. simpl negb. cbv iota. rewrite Hres, H.
  repeat split; assumption.
Qed.

End DriverFacts.

(* ================================================================== *)
(** * The properties on the sample data *)

Section OnSamples.
Import FeedParser FeedView ReturnEnricher Samples.

(** The record line of the sample feed, field by field. *)
Lemma C1_fields_by_position_sample :
  6 <= List.length (split_on ";"%char (strip line_direct))
  /\ extract_fields (split_on ";"%char (strip line_direct))
     = Ok (lit "119551", lit "Axis Bluechip Fund - Direct Plan - Growth",
           lit "45.5", lit "04-Nov-2026").
Proof.
  assert (H : 6 <= List.length (split_on ";"%char (strip line_direct)))
    by (vm_compute; apply le_n).
  split; [exact H|].
  exact (proj1 (C1_fields_by_position decimal_float today CLEAN init
                  line_direct _ eq_refl H)).
Defined.

(** The line of four fields goes by and leaves the catalog empty. *)
Lemma C4_malformed_line_skipped_sample :
  exists st',
    process_line decimal_float today CLEAN after_header line_short = Ok st'
    /\ funds_data st' = []
    /\ fund_count st' = 0.
Proof.
  apply (C4_malformed_line_skipped decimal_float today CLEAN after_header
           line_short _ eq_refl).
  left. vm_compute. repeat constructor.
Defined.

(** The two plans of the sample feed share a key; the first is kept. *)
Lemma C5_first_record_wins_sample :
  exists st,
    parse_feed decimal_float today CLEAN feed = Ok st
    /\ NoDup (keys (funds_data st))
    /\ get (lit "Axis Bluechip Fund") (funds_data st) = Some axis_direct
    /\ count_key (lit "Axis Bluechip Fund") (keys (funds_data st)) = 1.
Proof.
  apply (C5_first_record_wins decimal_float today CLEAN feed
           [line_amc] [line_short] [] line_direct line_regular
           (lit "Axis Bluechip Fund") after_header axis_direct).
  - vm_compute. reflexivity.
  - intros l [<-|[]]. vm_compute. discriminate.
  - vm_compute. reflexivity.
  - vm_compute. reflexivity.
  - vm_compute. reflexivity.
Defined.

(** The record of the sample feed: filed under the normalized name,
    classified by the published one. *)
Lemma C2_category_of_published_name_sample :
  lit "Axis Bluechip Fund" = clean_fund_name (f_name axis_direct)
  /\ f_category axis_direct
     = first_match category_rules (lower (f_name axis_direct)).
Proof.
  apply (C2_category_of_published_name decimal_float today feed after_feed).
  - vm_compute. reflexivity.
  - left. reflexivity.
Defined.

(** A category word that stands only in the plan suffix decides the
    category, although it is not in the normalized name. *)
Lemma C2_category_of_normalized_name_fails :
  exists st k f,
    parse_feed decimal_float today CLEAN line_suffix_word = Ok st
    /\ In (k, f) (funds_data st)
    /\ k = clean_fund_name (f_name f)
    /\ f_category f = lit "Equity - Index"
    /\ first_match category_rules (lower k) = lit "Other"
    /\ f_category f <> first_match category_rules (lower k).
Proof.
  eexists. eexists. eexists.
  split; [vm_compute; reflexivity|].
  split; [left; reflexivity|].
  repeat split; vm_compute; (reflexivity || discriminate).
Defined.

(** A name of the sample feed, normalized once and twice. *)
Lemma C9_clean_fund_name_idempotent_sample :
  clean_fund_name (clean_fund_name (f_name axis_direct))
  = clean_fund_name (f_name axis_direct).
Proof.
  apply C9_clean_fund_name_idempotent.
  apply no_newline_check. vm_compute. reflexivity.
Defined.

(** With a line feed after the plan word the first pass removes nothing
    and the second removes the plan. *)
Lemma C9_not_idempotent_with_line_feed :
  clean_fund_name name_two_lines = lit "A - Direct B"
  /\ clean_fund_name (clean_fund_name name_two_lines) = lit "A"
  /\ clean_fund_name (clean_fund_name name_two_lines)
     <> clean_fund_name name_two_lines.
Proof.
  repeat split; vm_compute; (reflexivity || discriminate).
Defined.

Lemma clock_today k :
  (ordinal 2026 11 4 * 86400000000 <= clock k
   < ordinal 2026 11 4 * 86400000000 + timedelta_days 1)%Z.
Proof.
  unfold clock, timedelta_days.
  change (ordinal 2026 11 4) with 739924%Z. lia.
Qed.

(** The series of the specification's example. *)
Lemma C6_one_year_return_sample :
  calculate_returns decimal_float strptime_dmy clock history_120_100
  = Some (mkReturns (Some 20%float) None None).
Proof.
  refine (proj1 (C6_one_year_return decimal_float strptime_dmy clock
                   (lit "04-11-2026") (lit "120.0") (lit "03-11-2025")
                   (lit "100.0") (ordinal 2026 11 4 * 86400000000)%Z
                   _ _ _ _ clock_today)); vm_compute; reflexivity.
Defined.

(** The same series has no point three years back. *)
Lemma C7_no_point_before_cutoff_sample :
  get_nav_n_days_ago decimal_float strptime_dmy (clock 1) history_120_100
                     1095 = None
  /\ horizon_value
       (calculate_returns decimal_float strptime_dmy clock history_120_100)
       Year3 = None.
Proof.
  apply (proj2 (C7_no_point_before_cutoff decimal_float strptime_dmy clock
                  history_120_100 Year3)).
  intros e t [<-|[<-|[]]] [= <-]; vm_compute; reflexivity.
Defined.

(** A NAV of zero at the first point at or before the cutoff: no return
    for the year. *)
Lemma C10_total_and_division_safe_sample :
  horizon_value
    (calculate_returns decimal_float strptime_dmy clock history_zero)
    Year1 = None.
Proof.
  refine (proj1 (proj2 (proj2 (C10_total_and_division_safe decimal_float
                                 strptime_dmy clock history_zero))
                   Year1 [entry "04-11-2026" "120.0"]
                   (entry "03-11-2025" "0.0")
                   [entry "30-09-2025" "100.0"]
                   (ordinal 2025 11 3 * 86400000000)%Z eq_refl _ _ _)
                PrimFloat.zero _ _).
  - intros e t [<-|[]] [= <-]. vm_compute. reflexivity.
  - vm_compute. reflexivity.
  - vm_compute. discriminate.
  - vm_compute. reflexivity.
  - vm_compute. reflexivity.
Defined.

(** A NAV that is not a number at the first point at or before the
    cutoff: the scan goes on to the older point, and the year has a
    return. *)
Lemma C10_unparseable_nav_is_passed_over :
  try_entry decimal_float strptime_dmy (clock 0 - timedelta_days 365)%Z
            (entry "04-11-2026" "120.0") = Ok None
  /\ strptime_dmy (lit "03-11-2025") = Some 63897811200000000%Z
  /\ (63897811200000000 <= clock 0 - timedelta_days 365)%Z
  /\ decimal_float (lit "N.A.") = None
  /\ horizon_value
       (calculate_returns decimal_float strptime_dmy clock history_gap)
       Year1 = Some 20%float
  /\ horizon_value
       (calculate_returns decimal_float strptime_dmy clock history_gap)
       Year1 <> None.
Proof.
  repeat split; vm_compute; (reflexivity || discriminate).
Defined.

(** C3. A catalog of 52 funds, no catalog file of an earlier run, the API
    down, and a Ctrl+C in the [time.sleep(2)] of the fiftieth fund: fifty
    funds are counted, the handler ends the script with status 0 and
    nothing is in the catalog file, so that the next run starts at the
    first fund. *)
Theorem C3_interrupt_saves_nothing :
  exists e,
    main (catalog 52) api_down returns_at today (lit "yes") (lit "yes")
         (Some (InFund 49 AtSleep)) None = (e, Interrupted)
    /\ console e = seq 0 50
    /\ successful e + failed e = 50
    /\ output_file e = None
    /\ exit_status Interrupted = 0%Z
    /\ resume_from_progress (lit "yes") (new_enricher (output_file e))
       = (new_enricher None, 0).
Proof.
  eexists. split; [vm_compute; reflexivity|]. repeat split.
Qed.

(** A catalog of 52 funds resumed at 50 with the API down: the funds 50
    and 51 are tried and fail. *)
Lemma C8_resume_from_checkpoint_sample :
  exists e d,
    main (catalog 52) api_down returns_at today (lit "yes") (lit "YES")
         None (Some checkpoint_50) = (e, Done)
    /\ console e = [50; 51]
    /\ successful e = 40
    /\ failed e = 12
    /\ output_file e = Some d
    /\ enrichment_progress d = None
    /\ enrichment_stats d = Some (mkStats 52 40 12 today).
Proof.
  destruct (C8_resume_from_checkpoint (catalog 52) api_down returns_at today
              (lit "yes") (lit "YES") checkpoint_50 today
              eq_refl eq_refl eq_refl)
    as [_ [e [d [H [Hc [Hs [Hf [Ho [Hp Hst]]]]]]]]].
  - discriminate.
  - exists e, d. rewrite Hst, Hs, Hf. repeat split; assumption.
Defined.

(** The sample feed end to end: a header, a record line, a line of four
    fields and a second plan of the same fund give one record, with the
    header as its AMC. *)
Example sample_feed_catalog :
  parse_feed decimal_float today CLEAN feed = Ok after_feed
  /\ parse_feed decimal_float today ACTUALLY_FIXED feed = Ok after_feed.
Proof. split; vm_compute; reflexivity. Qed.

(** The rule of "large cap" comes before the rule of "index". *)
Example large_cap_before_index :
  determine_category (lit "Example Large Cap Index Fund")
  = lit "Equity - Large Cap".
Proof. vm_compute. reflexivity. Qed.

(** The sector words that only the newer script knows. *)
Example pharma_in_both_scripts :
  determine_category (lit "Example Pharma Fund") = lit "Equity - Sectoral"
  /\ determine_category_fixed (lit "Example Pharma Fund") = lit "Other".
Proof. split; vm_compute; reflexivity. Qed.

(** [round(x, 2)] on values whose decimal expansion is not the double. *)
Example round2_values :
  PyFloat.round2 0x1.5666666666666p+1%float = 0x1.55c28f5c28f5cp+1%float
  /\ PyFloat.round2 0.125%float = 0x1.eb851eb851eb8p-4%float
  /\ PyFloat.round2 0.375%float = 0x1.851eb851eb852p-2%float
  /\ PyFloat.round2 (-0.001953125)%float = (-0)%float.
Proof. repeat split; vm_compute; reflexivity. Qed.

End OnSamples.

(* ================================================================== *)
(** * More of the scripts *)

(** ** The catalog as a whole *)

Section CatalogInvariants.
Import FeedParser FeedView.

Variable py_float : str -> option float.
Variable today : str.
Variable v : script.

Local Abbreviation process_line := (process_line py_float today v).
Local Abbreviation process_lines := (process_lines py_float today v).
Local Abbreviation line_record := (line_record py_float today v).

Lemma process_line_count st raw st' :
  process_line st raw = Ok st' ->
  fund_count st = List.length (funds_data st) ->
  fund_count st' = List.length (funds_data st').
Proof.
  rewrite process_line_spec. intros [= <-] H.
  destruct (is_amc_line _); [exact H|].
  destruct (line_record st raw) as [[k f]|]; [|exact H].
  destruct (mem k _); [exact H|]. simpl. rewrite length_app. simpl. lia.
Qed.

Lemma process_lines_count ls : forall st st',
  process_lines st ls = Ok st' ->
  fund_count st = List.length (funds_data st) ->
  fund_count st' = List.length (funds_data st').
Proof.
  induction ls as [|l ls IH]; intros st st'; simpl.
  - now intros [= <-].
  - destruct (process_line st l) as [st1|] eqn:E; simpl; [|discriminate].
    intros H Hc. apply (IH _ _ H). exact (process_line_count _ _ _ E Hc).
Qed.

(** X1. Whatever the text of the feed, the loop over its lines ends
    without an exception; the number of funds it reports is the number of
    records in the catalog, and no key is there twice. *)
Theorem X1_feed_loop_never_raises (text : str) :
  exists st,
    parse_feed py_float today v text = Ok st
    /\ fund_count st = List.length (funds_data st)
    /\ NoDup (keys (funds_data st)).
Proof.
  unfold parse_feed.
  destruct (process_lines_total py_float today v init
              (split_on Re.newline text)) as [st Hst].
  exists st. split; [exact Hst|]. split.
  - exact (process_lines_count _ _ _ Hst eq_refl).
  - apply (process_lines_nodup py_float today v _ _ _ Hst). constructor.
Qed.

Lemma process_line_amc st raw st' :
  process_line st raw = Ok st' ->
  current_amc st'
  = if is_amc_line (strip raw) then Some (strip raw) else current_amc st.
Proof.
  rewrite process_line_spec. intros [= <-].
  destruct (is_amc_line _); [reflexivity|].
  destruct (line_record st raw) as [[k f]|]; [|reflexivity].
  now destruct (mem k _).
Qed.

(** Lines that are no headers leave the AMC as it is. *)
Lemma process_lines_keep_amc ls : forall st st',
  (forall m, In m ls -> is_amc_line (strip m) = false) ->
  process_lines st ls = Ok st' -> current_amc st' = current_amc st.
Proof.
  induction ls as [|l ls IH]; intros st st' Hls; simpl.
  - now intros [= <-].
  - destruct (process_line st l) as [st1|] eqn:E; simpl; [|discriminate].
    intros H. rewrite (IH _ _ (fun m Hm => Hls m (or_intror Hm)) H).
    rewrite (process_line_amc _ _ _ E).
    now rewrite (Hls l (or_introl eq_refl)).
Qed.

Lemma line_record_amc st raw k f :
  line_record st raw = Some (k, f) -> f_amc f = current_amc st.
Proof.
  unfold FeedView.line_record. destruct (is_amc_line _); [discriminate|].
  destruct (6 <=? _); [|discriminate]. unfold fields_0345.
  destruct (strip (nth 3 _ _)); [discriminate|]. now intros [= <- <-].
Qed.

(** X2. A record carries the most recent header above its line: after a
    header line and any lines that are no headers, the AMC is the stripped
    header, and the record that the next line files under a new key has
    it as its [amc]. *)
Theorem X2_amc_is_latest_header (st : state) (hdr : str) (mid : list str)
        (l : str) (k : str) :
  is_amc_line (strip hdr) = true ->
  (forall m, In m mid -> is_amc_line (strip m) = false) ->
  line_key py_float today l = Some k ->
  exists st1 st2,
    process_lines st (hdr :: mid) = Ok st1
    /\ process_line st1 l = Ok st2
    /\ current_amc st1 = Some (strip hdr)
    /\ (get k (funds_data st1) = None ->
        exists f, get k (funds_data st2) = Some f
                  /\ f_amc f = Some (strip hdr)).
Proof.
  intros Hhdr Hmid Hk.
  destruct (process_lines_total py_float today v st (hdr :: mid))
    as [st1 H1].
  destruct (process_lines_total py_float today v st1 [l]) as [st2 H2].
  simpl in H2. destruct (process_line st1 l) as [st2'|] eqn:E2;
    simpl in H2; [|discriminate]. injection H2 as ->.
  exists st1, st2. split; [exact H1|]. split; [exact E2|].
  assert (Hamc : current_amc st1 = Some (strip hdr)).
  { simpl in H1. destruct (process_line st hdr) as [st0|] eqn:E0;
      simpl in H1; [|discriminate].
    rewrite (process_lines_keep_amc mid _ _ Hmid H1).
    rewrite (process_line_amc _ _ _ E0). now rewrite Hhdr. }
  split; [exact Hamc|]. intros Hnew.
  rewrite <- (line_record_key py_float today v st1) in Hk.
  destruct (line_record st1 l) as [[k' f]|] eqn:Er; [|discriminate].
  simpl in Hk. injection Hk as ->.
  destruct (process_line_first py_float today v st1 l k f Er Hnew)
    as [st2' [E2' Hget]].
  rewrite E2 in E2'. injection E2' as <-.
  exists f. split; [exact Hget|].
  now rewrite (line_record_amc _ _ _ _ Er).
Qed.

Lemma line_record_code st raw k f :
  line_record st raw = Some (k, f) ->
  f_name f <> []
  /\ exists c code,
      f_scheme_code f = Some (c :: code) /\ isdigit c = true.
Proof.
  unfold FeedView.line_record.
  destruct (is_amc_line (strip raw)) eqn:Hamc; [discriminate|].
  destruct (6 <=? _) eqn:Hlen; [|discriminate]. unfold fields_0345.
  destruct (strip (nth 3 _ _)) eqn:En; [discriminate|].
  intros [= <- <-]. simpl. split; [discriminate|].
  apply Nat.leb_le in Hlen.
  destruct (strip raw) as [|c rest] eqn:Eraw; [simpl in Hlen; lia|].
  simpl in Hamc. apply negb_false_iff in Hamc.
  assert (Hsep : Ascii.eqb c ";"%char = false).
  { destruct (Ascii.eqb c ";"%char) eqn:E; [|reflexivity].
    apply Ascii.eqb_eq in E. subst c. discriminate. }
  destruct (split_on_head ";"%char c rest Hsep) as [w ->].
  pose proof (isdigit_not_isspace c Hamc) as Hc.
  unfold strip, rstrip. simpl lstrip. rewrite Hc. simpl rev.
  destruct (lstrip (rev w ++ [c])) as [|x y] eqn:El.
  - now apply lstrip_app_nonspace in El.
  - assert (Hlast : exists z, x :: y = z ++ [c]).
    { clear - El Hc. revert x y El.
      induction (rev w) as [|d r IH]; intros x y; simpl.
      - rewrite Hc. intros [= <- <-]. now exists [].
      - destruct (isspace d).
        + apply IH.
        + intros [= <- <-]. now exists (d :: r). }
    destruct Hlast as [z ->]. rewrite rev_unit. eauto.
Qed.

(** X3. Every record of the catalog has a name that is not empty and a
    scheme code that starts with a digit: the enricher's branch for a
    fund without a scheme code is never taken on a catalog of the
    parser. *)
Theorem X3_records_have_name_and_code (text : str) (st : state) (k : str)
        (f : FundRecord) :
  parse_feed py_float today v text = Ok st ->
  In (k, f) (funds_data st) ->
  f_name f <> []
  /\ (exists c code,
         f_scheme_code f = Some (c :: code) /\ isdigit c = true)
  /\ forall api calc i,
      ReturnEnricher.outcome_of api calc i f <> ReturnEnricher.NoSchemeCode.
Proof.
  intros Hst Hin.
  pose (P := fun kf : str * FundRecord =>
               f_name (snd kf) <> []
               /\ exists c code,
                   f_scheme_code (snd kf) = Some (c :: code)
                   /\ isdigit c = true).
  assert (H : Forall P (funds_data st)).
  { apply (process_lines_forall py_float today v P _) with (2 := Hst);
      [|constructor].
    intros st0 raw [k0 f0] _ E. exact (line_record_code _ _ _ _ E). }
  rewrite Forall_forall in H. destruct (H _ Hin) as [Hn [c [code [Hc Hd]]]].
  simpl in *. split; [exact Hn|]. split; [eauto|].
  intros api calc i. unfold ReturnEnricher.outcome_of. rewrite Hc.
  destruct (api i (c :: code)) as [[|p ps]|]; try discriminate.
  destruct (calc i (p :: ps)); discriminate.
Qed.

End CatalogInvariants.

(** ** More of the name normalization *)

Section NormalizationShape.
Import FeedParser FeedView.

Local Abbreviation subs :=
  (fold_left (fun (s : str) (tok : str) => Re.sub_plan tok s)).

Lemma split_ws_solid s : Forall (fun w => solid w = true) (split_ws s).
Proof.
  induction s as [|c s IH]; [constructor|]. rewrite split_ws_cons.
  destruct (isspace c) eqn:Hc; [exact IH|].
  assert (H1 : solid [c] = true) by (simpl; now rewrite Hc).
  destruct s as [|d s']; [now repeat constructor|].
  destruct (isspace d); [now constructor|].
  destruct (split_ws (d :: s')) as [|w ws]; [now repeat constructor|].
  inversion IH as [|? ? Hw Hws]; subst. constructor; [|exact Hws].
  destruct w as [|x w]; [discriminate|]. simpl in *. now rewrite Hc.
Qed.

(** X4. Whatever the name, the normalized name is a sequence of words
    joined by single spaces: no word is empty or holds whitespace, so
    there is no whitespace at either end and none but single spaces
    inside. *)
Theorem X4_normalized_name_is_words (name : str) :
  exists ws,
    Forall (fun w => solid w = true) ws
    /\ clean_fund_name name = join (lit " ") ws
    /\ split_ws (clean_fund_name name) = ws.
Proof.
  exists (split_ws (subs plan_tokens name)).
  rewrite clean_fund_name_unfold, strip_collapse.
  split; [apply split_ws_solid|]. split; [reflexivity|].
  apply split_ws_collapse.
Qed.

(** X5. A name in which none of the plan patterns matches keeps all its
    words: only its whitespace is collapsed. *)
Theorem X5_name_without_plan_keeps_words (name : str) :
  (forall tok, In tok plan_tokens -> has_head tok name = false) ->
  clean_fund_name name = collapse name
  /\ split_ws (clean_fund_name name) = split_ws name.
Proof.
  intros H. rewrite clean_fund_name_unfold, subs_id by exact H.
  rewrite strip_collapse. split; [reflexivity | apply split_ws_collapse].
Qed.

Lemma subs_prefix toks : forall s,
  ~ In Re.newline s ->
  ~ In Re.newline (subs toks s) /\ exists rest, s = subs toks s ++ rest.
Proof.
  induction toks as [|t toks IH]; intros s Hnl; simpl.
  - split; [exact Hnl|]. exists []. now rewrite app_nil_r.
  - assert (Hnl' : ~ In Re.newline (Re.sub_plan t s)).
    { intros H. apply Hnl. exact (sub_plan_incl _ _ _ Hnl H). }
    destruct (IH _ Hnl') as [H1 [rest Hrest]]. split; [exact H1|].
    destruct (sub_plan_prefix t s Hnl) as [rest' Hrest'].
    exists (rest ++ rest'). rewrite app_assoc, <- Hrest. exact Hrest'.
Qed.

(** X6. For a name without a line feed the normalization cuts a tail off
    the name and collapses the whitespace of what is left, and in the
    result none of the plan patterns (a hyphen, optional whitespace, then
    Direct, Regular or Growth in any case) matches any more. *)
Theorem X6_normalization_cuts_the_plan (name : str) :
  ~ In Re.newline name ->
  exists kept cut,
    name = kept ++ cut
    /\ clean_fund_name name = collapse kept
    /\ forall tok, In tok plan_tokens ->
                   has_head tok (clean_fund_name name) = false.
Proof.
  intros Hnl.
  destruct (subs_prefix plan_tokens name Hnl) as [_ [cut Hcut]].
  exists (subs plan_tokens name), cut. split; [exact Hcut|].
  rewrite clean_fund_name_unfold, strip_collapse. split; [reflexivity|].
  destruct (subs_no_head plan_tokens [] name) as [_ Hno];
    [ intros tok Hin; now apply solid_not_nil, plan_tokens_solid
    | exact Hnl | intros tok [] |].
  intros tok Hin. apply collapse_keeps_no_head.
  - now apply plan_tokens_solid.
  - now apply Hno.
Qed.

Lemma match_token_case tok tok' : forall s,
  lower tok = lower tok' -> Re.match_token tok s = Re.match_token tok' s.
Proof.
  revert tok'. induction tok as [|a tok IH]; intros [|b tok'] s; simpl;
    try discriminate; [reflexivity|].
  intros [= Hab Htok]. destruct s as [|c s]; [reflexivity|].
  rewrite Hab. destruct (Ascii.eqb _ _); [now apply IH | reflexivity].
Qed.

Lemma match_here_case tok tok' s :
  lower tok = lower tok' -> Re.match_here tok s = Re.match_here tok' s.
Proof.
  intros H. unfold Re.match_here, Re.match_head.
  destruct (lstrip s) as [|d s1]; [reflexivity|].
  destruct (Ascii.eqb d Re.hyphen); [|reflexivity].
  now rewrite (match_token_case tok tok' _ H).
Qed.

(** Patterns that differ in the case of their token are one pattern. *)
Lemma sub_plan_case tok tok' s :
  lower tok = lower tok' -> Re.sub_plan tok s = Re.sub_plan tok' s.
Proof.
  intros H. induction s as [|c s IH]; [reflexivity|].
  simpl Re.sub_plan. rewrite (match_here_case tok tok' _ H).
  now rewrite IH.
Qed.

(** A substitution done twice is done once. *)
Lemma sub_plan_twice tok s :
  tok <> [] -> ~ In Re.newline s ->
  Re.sub_plan tok (Re.sub_plan tok s) = Re.sub_plan tok s.
Proof.
  intros Htok Hnl. apply sub_plan_id. now apply sub_plan_no_head.
Qed.

(** X7. For a name without a line feed the second substitution of each
    pair in [clean_fund_name] (the one written in capitals) changes
    nothing: the normalization of the two later scripts gives what the
    three substitutions of the debugging script give. *)
Theorem X7_capital_patterns_are_repeats (name : str) :
  ~ In Re.newline name ->
  clean_fund_name name = DebugParser.clean_fund_name name.
Proof.
  intros Hnl. unfold clean_fund_name, DebugParser.clean_fund_name.
  assert (Hkeep : forall tok s, ~ In Re.newline s ->
                                ~ In Re.newline (Re.sub_plan tok s)).
  { intros tok s Hs H. apply Hs. exact (sub_plan_incl _ _ _ Hs H). }
  rewrite (sub_plan_case (lit "DIRECT") (lit "Direct")) by reflexivity.
  rewrite (sub_plan_case (lit "REGULAR") (lit "Regular")) by reflexivity.
  rewrite (sub_plan_case (lit "GROWTH") (lit "Growth")) by reflexivity.
  rewrite (sub_plan_twice (lit "Direct") name) by (discriminate || exact Hnl).
  rewrite (sub_plan_twice (lit "Regular")) by (discriminate || auto).
  rewrite (sub_plan_twice (lit "Growth")) by (discriminate || auto).
  reflexivity.
Qed.

End NormalizationShape.

(** ** Publishing *)

Section PublishFacts.
Import FeedParser FeedView Publish.

Ltac head_cond t :=
  lazymatch t with
  | orb ?a _ => head_cond a
  | _ => t
  end.

Ltac by_category_chain :=
  repeat lazymatch goal with
         | |- mem (if ?c then _ else _) _ = true =>
             let b := head_cond c in
             destruct b; cbn [orb]; [reflexivity|]
         end;
  try reflexivity.

(** Every label of the chain of the newer script is a key of [aum_map]. *)
Lemma determine_category_in_aum_map name :
  mem (determine_category name) aum_map = true.
Proof.
  unfold determine_category, sectors. cbn [existsb map].
  generalize (lower name) as nm. intros nm. by_category_chain.
Qed.

Lemma determine_category_fixed_in_aum_map name :
  mem (determine_category_fixed name) aum_map = true.
Proof.
  unfold determine_category_fixed.
  generalize (lower name) as nm. intros nm. by_category_chain.
Qed.

Variable py_float : str -> option float.
Variable today : str.
Variable v : script.

Lemma line_record_category st raw k f :
  line_record py_float today v st raw = Some (k, f) ->
  mem (f_category f) aum_map = true.
Proof.
  unfold line_record. destruct (is_amc_line _); [discriminate|].
  destruct (6 <=? _); [|discriminate]. unfold fields_0345.
  destruct (strip (nth 3 _ _)); [discriminate|].
  intros [= <- <-]. simpl. destruct v; simpl.
  - apply determine_category_in_aum_map.
  - apply determine_category_fixed_in_aum_map.
Qed.

Lemma keys_add_estimated_aum d : keys (add_estimated_aum d) = keys d.
Proof.
  unfold keys, add_estimated_aum. rewrite map_map. apply map_ext.
  intros [k f]. reflexivity.
Qed.

(** X8. Every category the parser gives a fund is a key of [aum_map]: the
    AUM written on a fund of the catalog is the entry of its category, the
    default of the lookup is never used, and the funds keep their keys
    and their order. *)
Theorem X8_every_category_has_an_aum (text : str) (st : state) :
  parse_feed py_float today v text = Ok st ->
  keys (add_estimated_aum (funds_data st)) = keys (funds_data st)
  /\ forall k p,
      In (k, p) (add_estimated_aum (funds_data st)) ->
      In (k, fund p) (funds_data st)
      /\ get (f_category (fund p)) aum_map = Some (aum p).
Proof.
  intros Hst. split; [apply keys_add_estimated_aum|]. intros k p Hin.
  unfold add_estimated_aum in Hin. apply in_map_iff in Hin.
  destruct Hin as [[k0 f] [[= <- <-] Hin]]. split; [exact Hin|].
  cbn [fund aum fst snd].
  assert (H : Forall (fun kf => mem (f_category (snd kf)) aum_map = true)
                     (funds_data st)).
  { apply (process_lines_forall py_float today v _ _) with (2 := Hst);
      [|constructor].
    intros st0 raw [k1 f1] _ E. exact (line_record_category _ _ _ _ E). }
  rewrite Forall_forall in H. specialize (H _ Hin).
  change (mem (f_category f) aum_map = true) in H.
  unfold get_or, mem in *. now destruct (get (f_category f) aum_map).
Qed.

(** *** The index *)

Lemma nat_of_ascii_inj x y : nat_of_ascii x = nat_of_ascii y -> x = y.
Proof.
  intros H. rewrite <- (ascii_nat_embedding x), <- (ascii_nat_embedding y).
  now rewrite H.
Qed.

Lemma str_leb_total a : forall b, leq a b \/ leq b a.
Proof.
  unfold leq. induction a as [|x a IH]; intros [|y b]; simpl; auto.
  destruct (Nat.ltb_spec (nat_of_ascii x) (nat_of_ascii y)); [auto|].
  destruct (Nat.ltb_spec (nat_of_ascii y) (nat_of_ascii x)); [auto|].
  apply IH.
Qed.

Lemma str_leb_trans a : forall b c, leq a b -> leq b c -> leq a c.
Proof.
  unfold leq. induction a as [|x a IH]; intros [|y b] [|z c]; simpl;
    try discriminate; auto.
  destruct (Nat.ltb_spec (nat_of_ascii x) (nat_of_ascii y));
    destruct (Nat.ltb_spec (nat_of_ascii y) (nat_of_ascii x));
    destruct (Nat.ltb_spec (nat_of_ascii y) (nat_of_ascii z));
    destruct (Nat.ltb_spec (nat_of_ascii z) (nat_of_ascii y));
    destruct (Nat.ltb_spec (nat_of_ascii x) (nat_of_ascii z));
    destruct (Nat.ltb_spec (nat_of_ascii z) (nat_of_ascii x));
    try discriminate; try lia; auto.
  apply IH.
Qed.

Lemma str_leb_antisym a : forall b, leq a b -> leq b a -> a = b.
Proof.
  unfold leq. induction a as [|x a IH]; intros [|y b]; simpl;
    try discriminate; auto.
  destruct (Nat.ltb_spec (nat_of_ascii x) (nat_of_ascii y));
    destruct (Nat.ltb_spec (nat_of_ascii y) (nat_of_ascii x));
    try discriminate; try lia.
  intros H1 H2. f_equal; [apply nat_of_ascii_inj; lia | now apply IH].
Qed.

Lemma insert_sorted_perm x l : Permutation (insert_sorted x l) (x :: l).
Proof.
  induction l as [|y l IH]; simpl; [reflexivity|].
  destruct (str_leb x y); [reflexivity|].
  rewrite IH. apply perm_swap.
Qed.

Lemma sorted_perm l : Permutation (sorted l) l.
Proof.
  induction l as [|x l IH]; simpl; [constructor|].
  rewrite insert_sorted_perm. now constructor.
Qed.

Lemma insert_sorted_ordered x l :
  StronglySorted leq l -> StronglySorted leq (insert_sorted x l).
Proof.
  induction 1 as [|y l Hl IH Hy]; simpl; [repeat constructor|].
  destruct (str_leb x y) eqn:E.
  - constructor; [now constructor|]. constructor; [exact E|].
    rewrite Forall_forall in *. intros z Hz.
    exact (str_leb_trans _ _ _ E (Hy z Hz)).
  - constructor; [exact IH|]. rewrite Forall_forall in *. intros z Hz.
    apply (Permutation_in _ (insert_sorted_perm x l)) in Hz.
    destruct Hz as [<-|Hz]; [|now apply Hy].
    destruct (str_leb_total x y) as [H|H]; [unfold leq in H; congruence|].
    exact H.
Qed.

Lemma sorted_ordered l : StronglySorted leq (sorted l).
Proof.
  induction l as [|x l IH]; simpl; [constructor|].
  now apply insert_sorted_ordered.
Qed.

(** Where nothing is there twice the order is strict. *)
Lemma ordered_strict l :
  NoDup l -> StronglySorted leq l ->
  StronglySorted (fun a b => leq a b /\ a <> b) l.
Proof.
  induction 2 as [|y l Hl IH Hy]; [constructor|].
  inversion H as [|? ? Hnot Hnd]; subst. constructor; [now apply IH|].
  rewrite Forall_forall in *. intros z Hz. split; [now apply Hy|].
  intros ->. contradiction.
Qed.

(** X9. When all three files are written for a feed, the index file lists
    the keys of the catalog and nothing else, each once, in strictly
    ascending order of code points, and its [total_funds] is the length
    of the list. *)
Theorem X9_index_is_sorted_keys (version isoformat_now : str) (text : str)
        (disk : files) :
  exists st main_data index_data metadata,
    parse_feed py_float today v text = Ok st
    /\ run py_float today version isoformat_now v (Body text) None disk
       = (mkFiles (Some main_data) (Some index_data) (Some metadata), true)
    /\ Permutation (i_funds index_data) (keys (funds_data st))
    /\ StronglySorted (fun a b => leq a b /\ a <> b) (i_funds index_data)
    /\ i_total_funds index_data = List.length (i_funds index_data)
    /\ forall k, In k (i_funds index_data) <-> mem k (funds_data st) = true.
Proof.
  destruct (process_lines_total py_float today v init
              (split_on Re.newline text)) as [st Hst].
  assert (Hnd : NoDup (keys (funds_data st))).
  { apply (process_lines_nodup py_float today v _ _ _ Hst). constructor. }
  set (pub := add_estimated_aum (funds_data st)).
  exists st,
    (mkMain version isoformat_now (List.length pub) (lit "automated_script")
            (lit "BluSummit Ventures") (lit "Saarthi") pub),
    (mkIndex version (List.length pub) (sorted (keys pub))),
    (mkMeta version isoformat_now (List.length pub) [] (lit "AMFI India")
            (lit "BluSummit Ventures") (lit "Saarthi")).
  split; [exact Hst|]. split.
  { unfold run, fetch_amfi_nav_data, parse_feed. rewrite Hst.
    reflexivity. }
  cbn [i_funds i_total_funds]. unfold pub.
  rewrite keys_add_estimated_aum.
  pose proof (sorted_perm (keys (funds_data st))) as Hperm.
  split; [exact Hperm|]. split; [|split].
  - apply ordered_strict; [|apply sorted_ordered].
    exact (Permutation_NoDup (Permutation_sym Hperm) Hnd).
  - rewrite (Permutation_length Hperm).
    unfold add_estimated_aum, keys. now rewrite !length_map.
  - intros k. split.
    + intros Hin. apply (Permutation_in _ Hperm) in Hin. unfold mem.
      destruct (get k (funds_data st)) eqn:E; [reflexivity|].
      now apply get_none_not_in in E.
    + intros Hin. apply (Permutation_in _ (Permutation_sym Hperm)).
      unfold mem in Hin. destruct (get k (funds_data st)) eqn:E;
        [|discriminate].
      apply get_some_in in E. change k with (fst (k, f)).
      now apply in_map.
Qed.

End PublishFacts.

Section RunFacts.
Import FeedParser Publish.

Variable py_float : str -> option float.
Variable today : str.
Variable version : str.
Variable isoformat_now : str.
Variable v : script.

Local Abbreviation run := (run py_float today version isoformat_now v).

(** X10. A run whose download fails records one error, writes no file and
    returns [False]; a run that returns [True] had a body to parse and
    wrote all three files, each with the number of funds of the catalog
    as its [total_funds], the funds under their keys in their order, and
    an empty list of errors in the metadata. *)
Theorem X10_run_outcomes (response : http_result) (fail_at : option nat)
        (disk : files) :
  (forall message,
      response = Failed message ->
      fetch_amfi_nav_data py_float today v response
      = (init, [lit "AMFI: " ++ message], false)
      /\ run response fail_at disk = (disk, false))
  /\ forall written,
      run response fail_at disk = (written, true) ->
      exists text st main_data index_data metadata,
        response = Body text
        /\ parse_feed py_float today v text = Ok st
        /\ written
           = mkFiles (Some main_data) (Some index_data) (Some metadata)
        /\ m_total_funds main_data = List.length (funds_data st)
        /\ i_total_funds index_data = List.length (funds_data st)
        /\ md_total_funds metadata = List.length (funds_data st)
        /\ keys (m_funds main_data) = keys (funds_data st)
        /\ md_errors metadata = [].
Proof.
  split.
  - intros message ->. split; reflexivity.
  - intros written. unfold Publish.run, fetch_amfi_nav_data.
    destruct response as [text|message]; [|discriminate].
    destruct (parse_feed py_float today v text) as [st|] eqn:Hst;
      [|discriminate].
    cbn [negb]. unfold generate_json_files.
    assert (Hlen : List.length (add_estimated_aum (funds_data st))
                   = List.length (funds_data st))
      by (unfold add_estimated_aum; apply length_map).
    destruct fail_at as [[|[|[|n]]]|]; try discriminate;
      intros [= <-]; exists text, st; do 3 eexists;
      (split; [reflexivity|]); (split; [exact Hst|]);
      (split; [reflexivity|]); cbn [m_total_funds i_total_funds
                                    md_total_funds m_funds md_errors];
      rewrite Hlen, keys_add_estimated_aum; repeat split.
Qed.

End RunFacts.

(** ** The debugging script *)

Section DebugFacts.
Import DebugParser.

Variable py_float : str -> option float.
Variable today : str.

Local Abbreviation process_line := (process_line py_float today).
Local Abbreviation process_lines := (process_lines py_float today).

(** What the counters of a state must satisfy. *)
Local Abbreviation counted st :=
  (added_funds (counts st) = List.length (funds_data st)
   /\ fund_count st = List.length (funds_data st)
   /\ added_funds (counts st) <= direct_and_growth (counts st)
   /\ direct_and_growth (counts st) <= fund_lines (counts st)
   /\ direct_funds (counts st) <= fund_lines (counts st)
   /\ growth_funds (counts st) <= fund_lines (counts st)
   /\ fund_lines (counts st) <= total_lines (counts st)).

(** One line: no exception, one more line counted, the counters in their
    order, and a record added only for a name (the third field) with
    both words in it. *)
Lemma debug_line st raw :
  exists st',
    process_line st raw = Ok st'
    /\ total_lines (counts st') = S (total_lines (counts st))
    /\ (counted st -> counted st')
    /\ (funds_data st' = funds_data st
        \/ contains (lit "direct")
                    (lower (strip (nth 2 (split_on ";"%char (strip raw))
                                       [])))
           && contains (lit "growth")
                       (lower (strip (nth 2 (split_on ";"%char (strip raw))
                                          [])))
           = true).
Proof.
  unfold DebugParser.process_line. cbv zeta.
  destruct (FeedParser.is_amc_line (strip raw)).
  { eexists. split; [reflexivity|]. simpl. repeat split; auto; lia. }
  destruct (contains_char ";"%char (strip raw)).
  2:{ eexists. split; [reflexivity|]. simpl. repeat split; auto; lia. }
  destruct (5 <=? List.length (split_on ";"%char (strip raw))) eqn:Hlen.
  2:{ eexists. split; [reflexivity|]. simpl. repeat split; auto; lia. }
  apply Nat.leb_le in Hlen.
  set (parts := split_on ";"%char (strip raw)) in *.
  destruct (index parts 0) as [p0|] eqn:E0;
    [|rewrite (index_nth parts 0 []) in E0 by lia; discriminate].
  destruct (index parts 2) as [p2|] eqn:E2;
    [|rewrite (index_nth parts 2 []) in E2 by lia; discriminate].
  destruct (index parts 3) as [p3|] eqn:E3;
    [|rewrite (index_nth parts 3 []) in E3 by lia; discriminate].
  destruct (index parts 4) as [p4|] eqn:E4;
    [|rewrite (index_nth parts 4 []) in E4 by lia; discriminate].
  rewrite (index_nth parts 2 []) in E2 by lia. injection E2 as <-.
  cbn [bind]. subst parts.
  set (name := strip (nth 2 (split_on ";"%char (strip raw)) [])).
  generalize (contains (lit "Direct") name || contains (lit "direct") name).
  generalize (contains (lit "Growth") name || contains (lit "growth") name).
  intros bg bd.
  destruct (contains (lit "direct") (lower name)
            && contains (lit "growth") (lower name)).
  - destruct (mem (clean_fund_name name) (funds_data st)).
    + eexists. split; [reflexivity|]. simpl.
      destruct bd, bg; simpl; repeat split; auto; lia.
    + eexists. split; [reflexivity|]. simpl. rewrite length_app. simpl.
      destruct bd, bg; simpl; repeat split; auto; lia.
  - eexists. split; [reflexivity|]. simpl.
    destruct bd, bg; simpl; repeat split; auto; lia.
Qed.

Lemma debug_lines ls : forall st,
  exists st',
    process_lines st ls = Ok st'
    /\ total_lines (counts st')
       = List.length ls + total_lines (counts st)
    /\ (counted st -> counted st')
    /\ ((forall l, In l ls ->
           contains (lit "direct")
                    (lower (strip (nth 2 (split_on ";"%char (strip l)) [])))
           && contains (lit "growth")
                       (lower (strip (nth 2 (split_on ";"%char (strip l))
                                          [])))
           = false) ->
        funds_data st' = funds_data st).
Proof.
  induction ls as [|l ls IH]; intros st.
  - exists st. simpl. auto.
  - destruct (debug_line st l) as [st1 [H1 [Ht1 [Hc1 Hf1]]]].
    destruct (IH st1) as [st2 [H2 [Ht2 [Hc2 Hf2]]]].
    exists st2. split; [simpl; rewrite H1; exact H2|].
    split; [cbn [List.length]; lia|]. split; [auto|]. intros Hls.
    rewrite Hf2 by (intros l' Hl'; apply Hls; now right).
    destruct Hf1 as [Hf1|Hf1]; [exact Hf1|].
    rewrite (Hls l (or_introl eq_refl)) in Hf1. discriminate.
Qed.

(** X11. The debugging script never raises on a feed and keeps its
    statistics in order: it counts every line, the funds it added are the
    records of its catalog, and added <= with both words <= lines with a
    semicolon <= all lines, with the lines counted for either word among
    the lines with a semicolon. *)
Theorem X11_debug_counters (text : str) :
  exists st,
    parse_feed py_float today text = Ok st
    /\ total_lines (counts st) = List.length (split_on Re.newline text)
    /\ added_funds (counts st) = List.length (funds_data st)
    /\ fund_count st = List.length (funds_data st)
    /\ added_funds (counts st) <= direct_and_growth (counts st)
    /\ direct_and_growth (counts st) <= fund_lines (counts st)
    /\ direct_funds (counts st) <= fund_lines (counts st)
    /\ growth_funds (counts st) <= fund_lines (counts st)
    /\ fund_lines (counts st) <= total_lines (counts st).
Proof.
  destruct (debug_lines (split_on Re.newline text) init)
    as [st [H [Ht [Hc _]]]].
  exists st. split; [exact H|]. split; [simpl in Ht; lia|].
  apply Hc. simpl. repeat split; lia.
Qed.

(** X12. The debugging script takes the name from the third field and
    keeps a line only when that field has both "direct" and "growth" in
    it, in any case: a feed none of whose lines has them there (as when
    the third field is the hyphen of the six-field layout) gives an empty
    catalog. *)
Theorem X12_debug_needs_both_words (text : str) :
  (forall l,
      In l (split_on Re.newline text) ->
      contains (lit "direct")
               (lower (strip (nth 2 (split_on ";"%char (strip l)) [])))
      && contains (lit "growth")
                  (lower (strip (nth 2 (split_on ";"%char (strip l)) [])))
      = false) ->
  exists st,
    parse_feed py_float today text = Ok st
    /\ funds_data st = []
    /\ fund_count st = 0
    /\ added_funds (counts st) = 0.
Proof.
  intros Hwords.
  destruct (debug_lines (split_on Re.newline text) init)
    as [st [H [_ [Hc Hf]]]].
  exists st. split; [exact H|]. specialize (Hf Hwords). simpl in Hf.
  destruct Hc as [Ha [Hn _]]; [simpl; repeat split; lia|].
  rewrite Hf in *. simpl in *. auto.
Qed.

End DebugFacts.

(** ** More of the batch driver *)

Section DriverInvariants.
Import ReturnEnricher EnricherView.

Variable input_data : data.
Variable get_fund_data_from_mfapi : nat -> str -> option (list nav_entry).
Variable calculate_returns_at : nat -> list nav_entry -> option Returns.
Variable isoformat_now : str.

Local Abbreviation outcome_of :=
  (outcome_of get_fund_data_from_mfapi calculate_returns_at).
Local Abbreviation success_at :=
  (success_at get_fund_data_from_mfapi calculate_returns_at).
Local Abbreviation successes :=
  (successes get_fund_data_from_mfapi calculate_returns_at).
Local Abbreviation failures :=
  (failures get_fund_data_from_mfapi calculate_returns_at).
Local Abbreviation error_at :=
  (error_at get_fund_data_from_mfapi calculate_returns_at).
Local Abbreviation returns_after :=
  (returns_after get_fund_data_from_mfapi calculate_returns_at).
Local Abbreviation enrich_one :=
  (enrich_one get_fund_data_from_mfapi calculate_returns_at isoformat_now).
Local Abbreviation enrich_range :=
  (enrich_range get_fund_data_from_mfapi calculate_returns_at isoformat_now).
Local Abbreviation enrich_funds :=
  (enrich_funds input_data get_fund_data_from_mfapi calculate_returns_at
                isoformat_now).
Local Abbreviation main :=
  (main input_data get_fund_data_from_mfapi calculate_returns_at
        isoformat_now).
Local Abbreviation interrupted_one :=
  (interrupted_one get_fund_data_from_mfapi calculate_returns_at).
Local Abbreviation interrupted_finish := (interrupted_finish isoformat_now).

(** One iteration, in full. *)
Lemma enrich_one_full fs i e d k f :
  nth_error fs i = Some (k, f) ->
  exists e' d',
    enrich_one fs i (e, d) = Ok (e', d')
    /\ console e' = console e ++ [i]
    /\ successful e' + failed e' = S (successful e + failed e)
    /\ errors e' = errors e ++ error_at fs i
    /\ errors_file e' = errors_file e
    /\ funds d'
       = match outcome_of i f with
         | Enriched r => set_returns k r (funds d)
         | _ => funds d
         end
    /\ (match outcome_of i f with
        | NoSchemeCode => false
        | _ => (i + 1) mod 50 =? 0
        end = true
        /\ output_file e' = Some d'
        /\ enrichment_progress d'
           = Some (mkProgress (i + 1) (successful e') (failed e')
                              isoformat_now)
        \/ match outcome_of i f with
           | NoSchemeCode => false
           | _ => (i + 1) mod 50 =? 0
           end = false
           /\ output_file e' = output_file e
           /\ enrichment_progress d' = enrichment_progress d).
Proof.
  intros H. unfold ReturnEnricher.enrich_one, EnricherView.error_at, index.
  rewrite H. generalize ((i + 1) mod 50 =? 0) as due. intros due.
  simpl bind.
  destruct (outcome_of i f); destruct due; simpl;
    do 2 eexists; (split; [reflexivity|]); simpl;
    rewrite ?app_nil_r; repeat split; auto; lia.
Qed.

Lemma successes_failures fs indices :
  successes fs indices + failures fs indices = List.length indices.
Proof.
  induction indices as [|i rest IH]; [reflexivity|].
  rewrite successes_cons, failures_cons. simpl.
  destruct (success_at fs i); lia.
Qed.

(** X13. A run over a catalog that is not empty, started with no catalog
    file of an earlier run, counts every fund once: it prints the funds
    in the order of the catalog, and in the statistics it writes the
    enriched and the failed funds add up to the total. *)
Theorem X13_every_fund_counted_once (proceed answer : str) :
  lower proceed = lit "yes" ->
  funds input_data <> [] ->
  exists e d,
    main proceed answer None None = (e, Done)
    /\ console e = seq 0 (List.length (funds input_data))
    /\ output_file e = Some d
    /\ enrichment_stats d
       = Some (mkStats (List.length (funds input_data)) (successful e)
                       (failed e) isoformat_now)
    /\ successful e + failed e = List.length (funds input_data).
Proof.
  intros Hp Hne.
  destruct (enrich_funds_done input_data get_fund_data_from_mfapi
              calculate_returns_at isoformat_now 0 (new_enricher None) Hne)
    as [e [d [H [Hc [Hs [Hf [Ho [_ [_ Hst]]]]]]]]].
  exists e, d. unfold ReturnEnricher.main.
  rewrite Hp, str_eqb_refl. cbn [negb resume_from_progress new_enricher
                                 output_file].
  rewrite H. split; [reflexivity|].
  split; [rewrite Hc; unfold range; now rewrite Nat.sub_0_r|].
  split; [exact Ho|]. split; [exact Hst|].
  rewrite Hs, Hf. simpl.
  rewrite successes_failures. unfold range. rewrite length_seq. lia.
Qed.

Lemma keys_without_returns d : keys (without_returns d) = keys d.
Proof.
  unfold keys, without_returns. rewrite map_map. apply map_ext.
  intros [k f]. reflexivity.
Qed.

Lemma set_returns_without k r d :
  without_returns (set_returns k r d) = without_returns d.
Proof.
  induction d as [|[k0 f0] d IH]; [reflexivity|]. simpl.
  destruct (str_eqb k k0); simpl; [reflexivity | now rewrite IH].
Qed.

(** The loop, in full. *)
Lemma enrich_range_full fs indices : forall e d,
  (forall i, In i indices -> i < List.length fs) ->
  exists e' d',
    enrich_range fs indices (e, d) = Ok (e', d')
    /\ without_returns (funds d') = without_returns (funds d)
    /\ errors e' = errors e ++ flat_map (error_at fs) indices
    /\ errors_file e' = errors_file e.
Proof.
  induction indices as [|i rest IH]; intros e d Hin.
  - exists e, d. simpl. now rewrite app_nil_r.
  - assert (Hi : i < List.length fs) by (apply Hin; now left).
    destruct (nth_error fs i) as [[k f]|] eqn:E;
      [|apply nth_error_None in E; lia].
    destruct (enrich_one_full fs i e d k f E)
      as [e1 [d1 [H1 [_ [_ [He1 [Hf1 [Hd1 _]]]]]]]].
    destruct (IH e1 d1 (fun j Hj => Hin j (or_intror Hj)))
      as [e2 [d2 [H2 [Hd2 [He2 Hf2]]]]].
    exists e2, d2. rewrite enrich_range_cons, H1. simpl bind.
    split; [exact H2|]. rewrite Hd2, Hd1, He2, He1, Hf2, Hf1.
    simpl flat_map. rewrite app_assoc. repeat split.
    destruct (outcome_of i f); try reflexivity. apply set_returns_without.
Qed.

(** What a finished run leaves. *)
Lemma enrich_funds_inv start e e' :
  enrich_funds start e = Ok e' ->
  exists e1 d1,
    enrich_range (funds input_data)
                 (range start (List.length (funds input_data)))
                 (e, input_data) = Ok (e1, d1)
    /\ funds input_data <> []
    /\ successful e' = successful e1
    /\ failed e' = failed e1
    /\ errors e' = errors e1
    /\ output_file e'
       = Some (mkData (funds d1) isoformat_now None true
                      (Some (mkStats (List.length (funds d1))
                                     (successful e1) (failed e1)
                                     isoformat_now)))
    /\ errors_file e'
       = match errors e1 with
         | [] => errors_file e1
         | _ :: _ => Some (errors e1)
         end.
Proof.
  unfold ReturnEnricher.enrich_funds.
  destruct (ReturnEnricher.enrich_range _ _ _ _ _ _) as [[e1 d1]|] eqn:H1;
    simpl bind; [|discriminate].
  destruct (List.length (funds input_data) =? 0) eqn:E; [discriminate|].
  intros [= <-]. exists e1, d1. split; [reflexivity|]. split.
  - intros Hnil. rewrite Hnil in E. discriminate.
  - destruct (errors e1) eqn:Ee; simpl; rewrite ?Ee; repeat split.
Qed.

(** X14. Enrichment touches nothing but the returns: in the document a
    finished run writes, the funds are the funds of the input file under
    the same keys in the same order, every field but [returns] as it
    was. *)
Theorem X14_enrichment_touches_only_returns (start : nat)
        (e e' : enricher) :
  enrich_funds start e = Ok e' ->
  exists d',
    output_file e' = Some d'
    /\ without_returns (funds d') = without_returns (funds input_data)
    /\ keys (funds d') = keys (funds input_data)
    /\ List.length (funds d') = List.length (funds input_data).
Proof.
  intros H.
  destruct (enrich_funds_inv start e e' H)
    as [e1 [d1 [H1 [_ [_ [_ [_ [Ho _]]]]]]]].
  destruct (enrich_range_full (funds input_data)
              (range start (List.length (funds input_data))) e input_data
              (range_bound _ _)) as [e2 [d2 [H2 [Hd2 _]]]].
  rewrite H1 in H2. injection H2 as <- <-.
  eexists. split; [exact Ho|]. cbn [funds]. split; [exact Hd2|].
  split.
  - rewrite <- (keys_without_returns (funds d1)), Hd2.
    apply keys_without_returns.
  - apply (f_equal (@List.length _)) in Hd2.
    unfold without_returns in Hd2. now rewrite !length_map in Hd2.
Qed.

Lemma set_returns_get k k' r d :
  get k (set_returns k' r d)
  = if str_eqb k k' then option_map (with_returns (Some r)) (get k d)
    else get k d.
Proof.
  induction d as [|[k0 f0] d IH]; simpl; [now destruct (str_eqb k k')|].
  destruct (str_eqb k' k0) eqn:E0; simpl.
  - apply str_eqb_eq in E0. subst k0.
    destruct (str_eqb k k') eqn:E; reflexivity.
  - rewrite IH. destruct (str_eqb k k0) eqn:E1; [|reflexivity].
    apply str_eqb_eq in E1. subst k0.
    destruct (str_eqb k k') eqn:E; [|reflexivity].
    apply str_eqb_eq in E. subst k'. now rewrite str_eqb_refl in E0.
Qed.

Lemma keys_distinct (fs : list (str * FundRecord)) i j ki fi kj fj :
  NoDup (keys fs) ->
  nth_error fs i = Some (ki, fi) -> nth_error fs j = Some (kj, fj) ->
  i <> j -> ki <> kj.
Proof.
  intros Hnd Hi Hj Hij Hk. apply Hij.
  apply (proj1 (NoDup_nth_error (keys fs)) Hnd).
  - unfold keys. rewrite length_map. apply nth_error_Some. congruence.
  - unfold keys. rewrite !nth_error_map, Hi, Hj. simpl. now rewrite Hk.
Qed.

(** The record of the fund at [j] after the loop: its returns replaced
    when its index was in the loop and it was enriched. *)
Lemma enrich_range_get fs indices : forall e d e' d' j k f,
  NoDup (keys fs) -> NoDup indices ->
  (forall i, In i indices -> i < List.length fs) ->
  enrich_range fs indices (e, d) = Ok (e', d') ->
  nth_error fs j = Some (k, f) ->
  get k (funds d')
  = if existsb (Nat.eqb j) indices
    then option_map (fun x => match outcome_of j f with
                              | Enriched r => with_returns (Some r) x
                              | _ => x
                              end) (get k (funds d))
    else get k (funds d).
Proof.
  induction indices as [|i rest IH]; intros e d e' d' j k f Hk Hnd Hin.
  - simpl. now intros [= _ <-].
  - assert (Hi : i < List.length fs) by (apply Hin; now left).
    destruct (nth_error fs i) as [[ki fi]|] eqn:E;
      [|apply nth_error_None in E; lia].
    destruct (enrich_one_full fs i e d ki fi E)
      as [e1 [d1 [H1 [_ [_ [_ [_ [Hd1 _]]]]]]]].
    rewrite enrich_range_cons, H1. simpl bind. intros H2 Hj.
    inversion Hnd as [|? ? Hnot Hnd']; subst.
    rewrite (IH e1 d1 e' d' j k f Hk Hnd'
                (fun x Hx => Hin x (or_intror Hx)) H2 Hj).
    simpl existsb. destruct (Nat.eqb_spec j i) as [->|Hji].
    + rewrite E in Hj. injection Hj as -> ->.
      assert (Hrest : existsb (Nat.eqb i) rest = false).
      { destruct (existsb (Nat.eqb i) rest) eqn:Ex; [|reflexivity].
        apply existsb_exists in Ex as [x [Hx Hix]].
        apply Nat.eqb_eq in Hix. subst x. contradiction. }
      rewrite Hrest. simpl. rewrite Hd1.
      destruct (outcome_of i f); try (now destruct (get k (funds d))).
      rewrite set_returns_get, str_eqb_refl. reflexivity.
    + simpl. rewrite Hd1.
      assert (Hget : get k (match outcome_of i fi with
                            | Enriched r => set_returns ki r (funds d)
                            | _ => funds d
                            end) = get k (funds d)).
      { destruct (outcome_of i fi); try reflexivity.
        rewrite set_returns_get.
        destruct (str_eqb k ki) eqn:Ek; [|reflexivity].
        apply str_eqb_eq in Ek. exfalso.
        exact (keys_distinct fs j i k f ki fi Hk Hj E Hji Ek). }
      now rewrite Hget.
Qed.

(** X15. In the document a finished run writes, the fund at an index the
    run went through has the returns of its calculation when it was
    enriched and is the fund of the input file otherwise; a fund before
    the start index is the fund of the input file. *)
Theorem X15_returns_stored_under_the_key (start : nat) (e e' : enricher)
        (j : nat) (k : str) (f : FundRecord) :
  NoDup (keys (funds input_data)) ->
  enrich_funds start e = Ok e' ->
  nth_error (funds input_data) j = Some (k, f) ->
  exists d',
    output_file e' = Some d'
    /\ get k (funds d')
       = Some (if start <=? j then returns_after j f else f).
Proof.
  intros Hk H Hj.
  destruct (enrich_funds_inv start e e' H)
    as [e1 [d1 [H1 [_ [_ [_ [_ [Ho _]]]]]]]].
  eexists. split; [exact Ho|]. cbn [funds].
  assert (Hrange : NoDup (range start (List.length (funds input_data))))
    by apply seq_NoDup.
  rewrite (enrich_range_get _ _ _ _ _ _ j k f Hk Hrange (range_bound _ _)
                            H1 Hj).
  assert (Hget : get k (funds input_data) = Some f).
  { apply in_get_nodup; [exact Hk|]. exact (nth_error_In _ _ Hj). }
  rewrite Hget.
  assert (Hjlt : j < List.length (funds input_data))
    by (apply nth_error_Some; congruence).
  destruct (Nat.leb_spec start j) as [Hle|Hlt].
  - assert (Hex : existsb (Nat.eqb j)
                          (range start (List.length (funds input_data)))
                  = true).
    { apply existsb_exists. exists j. split; [|apply Nat.eqb_refl].
      unfold range. apply in_seq. lia. }
    rewrite Hex. unfold EnricherView.returns_after. simpl.
    now destruct (outcome_of j f).
  - assert (Hex : existsb (Nat.eqb j)
                          (range start (List.length (funds input_data)))
                  = false).
    { destruct (existsb _ _) eqn:Ex; [|reflexivity].
      apply existsb_exists in Ex as [x [Hx Hjx]].
      apply Nat.eqb_eq in Hjx. subst x. unfold range in Hx.
      apply in_seq in Hx. lia. }
    now rewrite Hex.
Qed.

(** X20. The error log of a finished run: the errors it had, then one
    entry for each fund from the start index on whose fetch gave nothing,
    in the order of the catalog, with the name and the scheme code of the
    fund; funds without a scheme code or without returns are not in it.
    The file of the log is written when the log is not empty and left
    alone when it is. *)
Theorem X20_error_log (start : nat) (e e' : enricher) :
  enrich_funds start e = Ok e' ->
  errors e'
  = errors e
    ++ flat_map (error_at (funds input_data))
                (range start (List.length (funds input_data)))
  /\ errors_file e'
     = match errors e' with
       | [] => errors_file e
       | _ :: _ => Some (errors e')
       end.
Proof.
  intros H.
  destruct (enrich_funds_inv start e e' H)
    as [e1 [d1 [H1 [_ [_ [_ [He [_ Hf]]]]]]]].
  destruct (enrich_range_full (funds input_data)
              (range start (List.length (funds input_data))) e input_data
              (range_bound _ _)) as [e2 [d2 [H2 [_ [He2 Hf2]]]]].
  rewrite H1 in H2. injection H2 as <- <-.
  rewrite He, Hf, He2. split; [reflexivity|]. now rewrite Hf2.
Qed.

Lemma firstn_seq_le k : forall a n, k <= n -> firstn k (seq a n) = seq a k.
Proof.
  induction k as [|k IH]; intros a n Hk; [reflexivity|].
  destruct n as [|n]; [lia|]. simpl. now rewrite IH by lia.
Qed.

(** The catalog file after the loop has gone through [a], ..., [a + n - 1]:
    either nothing was written, or the checkpoint in it names a multiple
    of 50 in that stretch and has the counters as they were when the fund
    before it was done. *)
Lemma enrich_range_seq_checkpoint fs : forall n a e d,
  a + n <= List.length fs ->
  exists e' d',
    enrich_range fs (seq a n) (e, d) = Ok (e', d')
    /\ (output_file e' = output_file e
        \/ exists dd p,
             output_file e' = Some dd
             /\ enrichment_progress dd = Some p
             /\ a < last_index p <= a + n
             /\ last_index p mod 50 = 0
             /\ p_successful p + p_failed p
                = successful e + failed e + (last_index p - a)).
Proof.
  induction n as [|n IH]; intros a e d Hlen.
  - exists e, d. split; [reflexivity | now left].
  - destruct (nth_error fs a) as [[k f]|] eqn:E;
      [|apply nth_error_None in E; lia].
    destruct (enrich_one_full fs a e d k f E)
      as [e1 [d1 [H1 [_ [Hsum [_ [_ [_ Hcp]]]]]]]].
    destruct (IH (S a) e1 d1 ltac:(lia)) as [e2 [d2 [H2 Hfile]]].
    exists e2, d2. cbn [seq]. rewrite enrich_range_cons, H1. simpl bind.
    split; [exact H2|].
    destruct Hfile as [Hsame | [dd [p [Ho [Hp [Hi [Hm Hc]]]]]]].
    + destruct Hcp as [[Hdue [Ho Hp]] | [_ [Ho _]]].
      * right. exists d1, (mkProgress (a + 1) (successful e1) (failed e1)
                                     isoformat_now).
        rewrite Hsame. split; [exact Ho|]. split; [exact Hp|].
        cbn [last_index p_successful p_failed].
        split; [lia|]. split; [|lia].
        destruct (outcome_of a f); try discriminate;
          now apply Nat.eqb_eq in Hdue.
      * left. congruence.
    + right. exists dd, p. repeat split; try assumption; lia.
Qed.

(** The stage model and the loop body agree: the iteration ends in the
    state of its sleep, with the checkpoint written when it is due. *)
Lemma enrich_one_after_sleep fs i e d k f :
  nth_error fs i = Some (k, f) ->
  exists d',
    enrich_one fs i (e, d)
    = Ok (if match outcome_of i f with
             | NoSchemeCode => false
             | _ => (i + 1) mod 50 =? 0
             end
          then write_output (interrupted_one fs i AtSleep e) d'
          else interrupted_one fs i AtSleep e, d').
Proof.
  intros H. unfold ReturnEnricher.enrich_one, ReturnEnricher.interrupted_one,
              index.
  rewrite H. generalize ((i + 1) mod 50 =? 0) as due.
  intros due. simpl bind.
  destruct (outcome_of i f); destruct due; simpl; eexists; reflexivity.
Qed.

(** What a Ctrl+C in an iteration finds: the counters of at most one
    fund more, and the catalog file as it was, or open for writing. *)
Lemma interrupted_one_facts fs i st e k f :
  nth_error fs i = Some (k, f) ->
  successful e + failed e
  <= successful (interrupted_one fs i st e)
     + failed (interrupted_one fs i st e)
  <= S (successful e + failed e)
  /\ (output_file (interrupted_one fs i st e) = output_file e
      \/ output_file (interrupted_one fs i st e) = None
         /\ st = AtWrite /\ (i + 1) mod 50 = 0).
Proof.
  intros H. unfold ReturnEnricher.interrupted_one. rewrite H.
  destruct (Nat.eqb_spec ((i + 1) mod 50) 0) as [Hdue|Hdue];
    destruct (outcome_of i f); destruct st; simpl;
    (split; [lia|]); auto.
Qed.

Lemma checkpoint_within_le n m out :
  n <= m -> checkpoint_within n out -> checkpoint_within m out.
Proof.
  unfold checkpoint_within. destruct out as [d|]; [|trivial].
  destruct (enrichment_progress d); [|trivial]. intros; intuition lia.
Qed.

(** A run that resumes from a sound checkpoint. *)
Lemma resume_within n out answer e' start :
  checkpoint_within n out ->
  resume_from_progress answer (new_enricher out) = (e', start) ->
  start <= n /\ start mod 50 = 0 /\ successful e' + failed e' = start.
Proof.
  unfold checkpoint_within, resume_from_progress.
  cbn [new_enricher output_file].
  destruct out as [d|]; [|intros _ [= <- <-]; repeat split; simpl; lia].
  destruct (enrichment_progress d) as [p|];
    [|intros _ [= <- <-]; repeat split; simpl; lia].
  destruct (str_eqb (lower answer) (lit "yes"));
    intros [H1 [H2 H3]] [= <- <-]; cbn [set_counters successful failed];
    repeat split; simpl; (assumption || lia).
Qed.

(** The first [k] iterations of a run that started with no catalog
    file. *)
Lemma fresh_loop k :
  k <= List.length (funds input_data) ->
  exists ek dk,
    enrich_range (funds input_data) (seq 0 k)
                 (new_enricher None, input_data) = Ok (ek, dk)
    /\ successful ek + failed ek = k
    /\ checkpoint_within k (output_file ek).
Proof.
  intros Hk.
  destruct (enrich_range_seq_checkpoint (funds input_data) k 0
              (new_enricher None) input_data ltac:(lia))
    as [e [d [H Hfile]]].
  destruct (enrich_range_counts get_fund_data_from_mfapi
              calculate_returns_at isoformat_now (funds input_data)
              (seq 0 k) (new_enricher None) input_data)
    as [e2 [d2 [H2 [_ [Hs [Hf _]]]]]].
  { intros i Hi. apply in_seq in Hi. lia. }
  rewrite H in H2. injection H2 as <- <-.
  exists e, d. split; [exact H|]. split.
  - rewrite Hs, Hf. cbn [new_enricher successful failed].
    pose proof (successes_failures (funds input_data) (seq 0 k)) as Hsum.
    rewrite length_seq in Hsum. lia.
  - unfold checkpoint_within.
    destruct Hfile as [Hsame | [dd [p [Ho [Hp [Hi [Hm Hc]]]]]]].
    + now rewrite Hsame.
    + rewrite Ho, Hp. cbn [new_enricher successful failed] in Hc.
      repeat split; (assumption || lia).
Qed.


(** X16. However a run that starts with no catalog file ends (at its end,
    on a Ctrl+C at whatever point of the loop or after it, on the crash
    over an empty catalog, or declined at the first prompt), the next run
    resumes soundly from what it leaves: whatever is answered at the
    prompt, the index it resumes at is a multiple of 50 that is at most
    the number of funds the first run counted, and the two counters it
    takes up add up to that index. *)
Theorem X16_checkpoint_is_consistent (proceed answer answer' : str)
        (it : option interrupt) (e e' : enricher) (x : ending)
        (start : nat) :
  main proceed answer it None = (e, x) ->
  resume_from_progress answer' (new_enricher (output_file e))
  = (e', start) ->
  start <= successful e + failed e /\ start mod 50 = 0
  /\ successful e' + failed e' = start.
Proof.
  intros Hmain. apply resume_within. revert Hmain.
  unfold ReturnEnricher.main.
  destruct (negb (str_eqb (lower proceed) (lit "yes")));
    [intros [= <- _]; exact I|].
  unfold resume_from_progress. cbn [new_enricher output_file].
  cbv zeta iota beta. unfold range. rewrite Nat.sub_0_r.
  set (total := List.length (funds input_data)).
  assert (Hdone : forall e0 x0,
             match enrich_funds 0 (mkEnricher 0 0 [] None None []) with
             | Ok e1 => (e1, Done)
             | Raise y => (mkEnricher 0 0 [] None None [], Crashed y)
             end = (e0, x0) ->
             checkpoint_within (successful e0 + failed e0) (output_file e0)).
  { intros e0 x0.
    destruct (enrich_funds 0 (mkEnricher 0 0 [] None None [])) as [e1|y]
      eqn:E; intros [= <- _]; [|exact I].
    destruct (enrich_funds_inv 0 _ e1 E)
      as [e2 [d2 [_ [_ [_ [_ [_ [Ho _]]]]]]]].
    unfold checkpoint_within. now rewrite Ho. }
  destruct (fresh_loop total (le_n _)) as [et [dt [Ht [Hsum Hcp]]]].
  destruct it as [[k st | st]|]; [| |apply Hdone].
  - rewrite nth_error_seq.
    destruct (Nat.ltb_spec k total) as [Hk|Hk]; [|apply Hdone].
    cbn [Nat.add]. rewrite firstn_seq_le by lia.
    destruct (fresh_loop k ltac:(unfold total in Hk; lia))
      as [ek [dk [H [Hsumk Hcpk]]]].
    fold (new_enricher None). rewrite H. cbn [fst].
    unfold on_keyboard_interrupt. intros [= <- _].
    destruct (nth_error (funds input_data) k) as [[key f]|] eqn:E;
      [|apply nth_error_None in E; unfold total in Hk; lia].
    destruct (interrupted_one_facts (funds input_data) k st ek key f E)
      as [Hc [Hsame | [Hnone _]]].
    + rewrite Hsame. apply (checkpoint_within_le k); [lia | exact Hcpk].
    + now rewrite Hnone.
  - fold (new_enricher None). fold total. rewrite Ht.
    unfold on_keyboard_interrupt.
    destruct st; cbn [fst];
      try (intros [= <- _]; rewrite Hsum; exact Hcp);
      (destruct (total =? 0); [apply Hdone|]); intros [= <- _];
      unfold interrupted_finish, save_final;
      try exact I; destruct (errors et); exact I.
Qed.






(** X19. What is saved is what is resumed: after [save_progress] at an
    index, "yes" at the prompt of the next run (in any case of letters)
    gives that index and the two counters of the run that saved, and an
    error log that is empty, whatever the log of that run held; any other
    answer starts at the first fund with the counters at zero.  After
    [save_final] there is nothing to resume, whatever is answered. *)
Theorem X19_resume_reads_what_was_saved (e : enricher) (d : data)
        (current_index : nat) (answer : str) :
  let saved := fst (save_progress isoformat_now e d current_index) in
  let final := fst (save_final isoformat_now e d) in
  let e' := fst (resume_from_progress
                   answer (new_enricher (output_file saved))) in
  let start := snd (resume_from_progress
                      answer (new_enricher (output_file saved))) in
  (lower answer = lit "yes" ->
   start = current_index /\ successful e' = successful e
   /\ failed e' = failed e /\ errors e' = [])
  /\ (lower answer <> lit "yes" ->
      start = 0 /\ successful e' = 0 /\ failed e' = 0 /\ errors e' = [])
  /\ resume_from_progress answer (new_enricher (output_file final))
     = (new_enricher (output_file final), 0).
Proof.
  cbv zeta. unfold save_progress, save_final, resume_from_progress.
  cbn [fst write_output new_enricher output_file enrichment_progress].
  split; [|split; [|reflexivity]].
  - intros ->. rewrite str_eqb_refl. repeat split.
  - intros Hno. destruct (str_eqb (lower answer) (lit "yes")) eqn:E;
      [apply str_eqb_eq in E; contradiction|]. repeat split.
Qed.

End DriverInvariants.

(* ------------------------------------------------------------------ *)
(** ** The returns of a series, in full *)

Section ReturnInvariants.
Import ReturnEnricher.

Variable py_float : str -> option float.
Variable strptime : str -> option datetime.

Local Abbreviation scan := (scan py_float strptime).
Local Abbreviation get_nav_n_days_ago := (get_nav_n_days_ago py_float strptime).
Local Abbreviation calculate_returns := (calculate_returns py_float strptime).

(** A series gives no returns exactly when it has fewer than two points or
    the NAV of its first point is not a number. *)
Lemma calculate_returns_none_iff now h :
  calculate_returns now h = None
  <-> List.length h < 2
      \/ exists e0 rest, h = e0 :: rest /\ py_float (nav e0) = None.
Proof.
  unfold ReturnEnricher.calculate_returns,
    ReturnEnricher.calculate_returns_body.
  destruct (Nat.ltb_spec (List.length h) 2) as [Hlt|Hge].
  - split; [now left | reflexivity].
  - destruct h as [|e0 rest]; [simpl in Hge; lia|].
    simpl index. simpl bind. unfold float_of.
    destruct (py_float (nav e0)) as [cur|] eqn:E; simpl bind.
    + rewrite !horizon_return_ok. simpl bind. split; [discriminate|].
      intros [Hlt | [e0' [rest' [[= <- <-] Hno]]]]; [lia | congruence].
    + split; [|reflexivity]. intros _. right. now exists e0, rest.
Qed.

(** X21. What [calculate_returns] gives, in full.  It gives nothing
    exactly when the series has fewer than two points or the NAV of its
    first point is not a number.  Otherwise it gives a returns object,
    whatever else the series holds, and each horizon in it is the change
    in percent, to two places, from the NAV its scan found to the NAV of
    the first point, absent when the scan found nothing or found zero. *)
Theorem X21_returns_of_a_series (now : nat -> datetime)
        (h : list nav_entry) :
  (calculate_returns now h = None
   <-> List.length h < 2
       \/ exists e0 rest, h = e0 :: rest /\ py_float (nav e0) = None)
  /\ forall e0 rest cur hz,
      h = e0 :: rest -> 2 <= List.length h ->
      py_float (nav e0) = Some cur ->
      calculate_returns now h <> None
      /\ horizon_value (calculate_returns now h) hz
         = match get_nav_n_days_ago (now (reading_of hz)) h (days_of hz) with
           | Some p =>
               if PyFloat.truthy p
               then Some (PyFloat.round2
                            (PrimFloat.mul
                               (PrimFloat.div (PrimFloat.sub cur p) p)
                               100%float))
               else None
           | None => None
           end.
Proof.
  split; [apply calculate_returns_none_iff|].
  intros e0 rest cur hz -> Hlen Hcur.
  unfold ReturnEnricher.calculate_returns,
    ReturnEnricher.calculate_returns_body.
  rewrite (proj2 (Nat.ltb_ge _ _) Hlen).
  simpl index. simpl bind. unfold float_of. rewrite Hcur. simpl bind.
  rewrite !horizon_return_ok. simpl bind.
  split; [discriminate|]. now destruct hz.
Qed.




(** A scan that finds nothing finds nothing for an earlier cutoff. *)
Lemma scan_mono target target' h :
  (target' <= target)%Z -> scan target h = None -> scan target' h = None.
Proof.
  intros Hle. induction h as [|e h IH]; [reflexivity|]. simpl.
  unfold try_entry, strptime_of, float_of.
  destruct (strptime (date e)) as [t|]; simpl bind; [|exact IH].
  destruct (Z.leb_spec t target), (Z.leb_spec t target'); try lia;
    destruct (py_float (nav e)); simpl bind; try discriminate; exact IH.
Qed.

(** X23. With a clock that advances less than 730 days between two of
    its readings, a series in which the scan for the one-year return
    finds nothing has all three returns absent, and one in which the scan
    for the three-year return finds nothing has no five-year return. *)
Theorem X23_short_history_has_no_long_return (now : nat -> datetime)
        (h : list nav_entry) :
  (now 1%nat <= now 0%nat + timedelta_days 730)%Z ->
  (now 2%nat <= now 1%nat + timedelta_days 730)%Z ->
  (get_nav_n_days_ago (now 0) h 365 = None ->
   forall hz, horizon_value (calculate_returns now h) hz = None)
  /\ (get_nav_n_days_ago (now 1) h 1095 = None ->
      horizon_value (calculate_returns now h) Year5 = None).
Proof.
  intros H01 H12. unfold timedelta_days in H01, H12.
  assert (H35 : get_nav_n_days_ago (now 1) h 1095 = None ->
                get_nav_n_days_ago (now 2) h 1825 = None).
  { unfold ReturnEnricher.get_nav_n_days_ago. apply scan_mono.
    unfold timedelta_days. lia. }
  assert (H13 : get_nav_n_days_ago (now 0) h 365 = None ->
                get_nav_n_days_ago (now 1) h 1095 = None).
  { unfold ReturnEnricher.get_nav_n_days_ago. apply scan_mono.
    unfold timedelta_days. lia. }
  split.
  - intros H1 hz. apply horizon_absent.
    destruct hz; cbn [reading_of days_of];
      [rewrite H1 | rewrite (H13 H1) | rewrite (H35 (H13 H1))]; exact I.
  - intros H3. apply horizon_absent. cbn [reading_of days_of].
    now rewrite (H35 H3).
Qed.

End ReturnInvariants.

(* ------------------------------------------------------------------ *)
(** ** From the answer of the API to the counters *)

Section PipelineFacts.
Import ReturnEnricher MFApi.

Variable requests_get : nat -> str -> result response.
Variable py_float : str -> option float.
Variable strptime : str -> option datetime.
Variable now : nat -> nat -> datetime.

Local Abbreviation fetch :=
  (fun i => MFApi.get_fund_data_from_mfapi (requests_get i)).
Local Abbreviation calculate :=
  (fun i => calculate_returns py_float strptime (now i)).

(** X24. The fund of iteration [i] counts as enriched exactly when it
    has a scheme code that is not empty, the API answers its URL with
    status 200 and a JSON document whose ['data'] has two points or more,
    and the NAV of the first point is a number; an exception of the
    request or of the JSON decoding, another status, a document without
    ['data'] or with an empty one all count as a failed fetch. *)
Theorem X24_enriched_exactly_when (i : nat) (f : FundRecord) :
  ((exists r, outcome_of fetch calculate i f = Enriched r)
   <-> exists code resp e0 e1 rest cur,
        f_scheme_code f = Some code /\ code <> []
        /\ requests_get i (url_of code) = Ok resp
        /\ status_code resp = 200
        /\ json resp = Ok (Some (e0 :: e1 :: rest))
        /\ py_float (nav e0) = Some cur)
  /\ forall code,
      f_scheme_code f = Some code -> code <> [] ->
      (forall resp, requests_get i (url_of code) = Ok resp ->
                    status_code resp <> 200
                    \/ (forall p ps, json resp <> Ok (Some (p :: ps)))) ->
      outcome_of fetch calculate i f = FetchFailed code.
Proof.
  unfold outcome_of, MFApi.get_fund_data_from_mfapi. split; [split|].
  - intros [r H].
    destruct (f_scheme_code f) as [[|c code]|]; try discriminate.
    destruct (requests_get i (url_of (c :: code))) as [resp|] eqn:Hr;
      [|discriminate].
    destruct (Nat.eqb_spec (status_code resp) 200) as [Hs|]; [|discriminate].
    destruct (json resp) as [[[|e0 h]|]|] eqn:Ej; try discriminate.
    destruct (calculate_returns py_float strptime (now i) (e0 :: h))
      as [r'|] eqn:Ec; [|discriminate].
    destruct h as [|e1 rest].
    { assert (Hn : calculate_returns py_float strptime (now i) [e0] = None)
        by (apply calculate_returns_none_iff; left; simpl; lia).
      congruence. }
    destruct (py_float (nav e0)) as [cur|] eqn:Ef.
    + exists (c :: code), resp, e0, e1, rest, cur.
      repeat split; (discriminate || assumption || reflexivity).
    + assert (Hn : calculate_returns py_float strptime (now i)
                                     (e0 :: e1 :: rest) = None)
        by (apply calculate_returns_none_iff; right;
            now exists e0, (e1 :: rest)).
      congruence.
  - intros [code [resp [e0 [e1 [rest [cur [Hc [Hne [Hr [Hs [Hj Hf]]]]]]]]]]].
    rewrite Hc. destruct code as [|c code]; [contradiction|].
    rewrite Hr, Hs, Hj. cbn [Nat.eqb].
    destruct (calculate_returns py_float strptime (now i)
                                (e0 :: e1 :: rest)) as [r|] eqn:Ec.
    + now exists r.
    + apply calculate_returns_none_iff in Ec
        as [Hlt | [e0' [rest' [[= <- <-] Hno]]]];
        [simpl in Hlt; lia | congruence].
  - intros code Hc Hne Hbad. rewrite Hc.
    destruct code as [|c code]; [contradiction|].
    destruct (requests_get i (url_of (c :: code))) as [resp|] eqn:Hr;
      [|reflexivity].
    destruct (Hbad resp eq_refl) as [Hs | Hj].
    + apply Nat.eqb_neq in Hs. now rewrite Hs.
    + destruct (status_code resp =? 200); [|reflexivity].
      destruct (json resp) as [[[|p ps]|]|]; try reflexivity.
      now contradiction (Hj p ps).
Qed.

End PipelineFacts.

(* ------------------------------------------------------------------ *)
(** ** The further properties on the sample data *)

Section OnMoreSamples.
Import FeedParser FeedView ReturnEnricher EnricherView Publish Samples
  MoreSamples.

(** The record of the sample feed has the header before it as its AMC. *)
Lemma X2_amc_is_latest_header_sample :
  exists st1 st2,
    process_lines decimal_float today CLEAN init [line_amc; line_short]
    = Ok st1
    /\ process_line decimal_float today CLEAN st1 line_direct = Ok st2
    /\ current_amc st1 = Some (strip line_amc)
    /\ (get (lit "Axis Bluechip Fund") (funds_data st1) = None ->
        exists f, get (lit "Axis Bluechip Fund") (funds_data st2) = Some f
                  /\ f_amc f = Some (strip line_amc)).
Proof.
  apply (X2_amc_is_latest_header decimal_float today CLEAN init line_amc
           [line_short] line_direct (lit "Axis Bluechip Fund")).
  - vm_compute. reflexivity.
  - intros m [<-|[]]. vm_compute. reflexivity.
  - vm_compute. reflexivity.
Defined.

(** The record of the sample feed has a name and a scheme code. *)
Lemma X3_records_have_name_and_code_sample :
  f_name axis_direct <> []
  /\ (exists c code,
         f_scheme_code axis_direct = Some (c :: code) /\ isdigit c = true)
  /\ forall api calc i,
      outcome_of api calc i axis_direct <> NoSchemeCode.
Proof.
  apply (X3_records_have_name_and_code decimal_float today CLEAN feed
           after_feed (lit "Axis Bluechip Fund") axis_direct).
  - vm_compute. reflexivity.
  - left. reflexivity.
Defined.

(** A name without a plan suffix. *)
Lemma X5_name_without_plan_keeps_words_sample :
  clean_fund_name (lit "Axis  Bluechip Fund ")
  = collapse (lit "Axis  Bluechip Fund ")
  /\ split_ws (clean_fund_name (lit "Axis  Bluechip Fund "))
     = split_ws (lit "Axis  Bluechip Fund ").
Proof.
  apply X5_name_without_plan_keeps_words.
  intros tok H. vm_compute in H.
  repeat (destruct H as [<-|H]; [vm_compute; reflexivity|]).
  destruct H.
Defined.

(** The published name of the sample feed loses its plan. *)
Lemma X6_normalization_cuts_the_plan_sample :
  exists kept cut,
    f_name axis_direct = kept ++ cut
    /\ clean_fund_name (f_name axis_direct) = collapse kept
    /\ forall tok, In tok plan_tokens ->
                   has_head tok (clean_fund_name (f_name axis_direct))
                   = false.
Proof.
  apply X6_normalization_cuts_the_plan.
  apply no_newline_check. vm_compute. reflexivity.
Defined.

(** The two scripts give the published name of the sample feed the same
    key. *)
Lemma X7_capital_patterns_are_repeats_sample :
  clean_fund_name (f_name axis_direct)
  = DebugParser.clean_fund_name (f_name axis_direct).
Proof.
  apply X7_capital_patterns_are_repeats.
  apply no_newline_check. vm_compute. reflexivity.
Defined.

(** The catalog of the sample feed with its estimates. *)
Lemma X8_every_category_has_an_aum_sample :
  keys (add_estimated_aum (funds_data after_feed))
  = keys (funds_data after_feed)
  /\ forall k p,
      In (k, p) (add_estimated_aum (funds_data after_feed)) ->
      In (k, Publish.fund p) (funds_data after_feed)
      /\ get (f_category (Publish.fund p)) aum_map = Some (aum p).
Proof.
  apply (X8_every_category_has_an_aum decimal_float today CLEAN feed).
  vm_compute. reflexivity.
Defined.

(** On the sample feed, which has six fields to a record, the third field
    is a dash and the older script finds no fund. *)
Lemma X12_debug_needs_both_words_sample :
  exists st,
    DebugParser.parse_feed decimal_float today feed = Ok st
    /\ DebugParser.funds_data st = []
    /\ DebugParser.fund_count st = 0
    /\ DebugParser.added_funds (DebugParser.counts st) = 0.
Proof.
  apply X12_debug_needs_both_words.
  intros l H. vm_compute in H.
  repeat (destruct H as [<-|H]; [vm_compute; reflexivity|]).
  destruct H.
Defined.


(** Three funds and an API that is down: three failures, one each. *)
Lemma X13_every_fund_counted_once_sample :
  exists e d,
    main three_funds api_down returns_at today (lit "Yes") (lit "no") None
         None = (e, Done)
    /\ console e = seq 0 (List.length (funds three_funds))
    /\ output_file e = Some d
    /\ enrichment_stats d
       = Some (mkStats (List.length (funds three_funds)) (successful e)
                       (failed e) today)
    /\ successful e + failed e = List.length (funds three_funds).
Proof.
  apply (X13_every_fund_counted_once three_funds api_down returns_at today
           (lit "Yes") (lit "no")).
  - vm_compute. reflexivity.
  - vm_compute. discriminate.
Defined.

(** Three funds enriched: the document written has the three funds of the
    input, their returns apart. *)
Lemma X14_enrichment_touches_only_returns_sample :
  exists d',
    output_file (finished three_funds api_up) = Some d'
    /\ without_returns (funds d') = without_returns (funds three_funds)
    /\ keys (funds d') = keys (funds three_funds)
    /\ List.length (funds d') = List.length (funds three_funds).
Proof.
  apply (X14_enrichment_touches_only_returns three_funds api_up returns_at
           today 0 (new_enricher None)).
  vm_compute. reflexivity.
Defined.

Lemma three_funds_keys : NoDup (keys (funds three_funds)).
Proof.
  repeat (constructor;
          [intros H; vm_compute in H;
           repeat (destruct H as [H|H]; [discriminate H|]); exact H|]).
  constructor.
Qed.

(** The second of three funds, the only one the API answers for, has its
    returns under its key. *)
Lemma X15_returns_stored_under_the_key_sample :
  exists d',
    output_file (finished three_funds api_second) = Some d'
    /\ get (lit "Fund B") (funds d')
       = Some (if 0 <=? 1
               then returns_after api_second returns_at 1
                                  (snd (Samples.fund "101" "Fund B"))
               else snd (Samples.fund "101" "Fund B")).
Proof.
  apply (X15_returns_stored_under_the_key three_funds api_second returns_at
           today 0 (new_enricher None) (finished three_funds api_second) 1
           (lit "Fund B") (snd (Samples.fund "101" "Fund B"))
           three_funds_keys).
  - vm_compute. reflexivity.
  - reflexivity.
Defined.

(** A catalog of 52 funds and a Ctrl+C in the sleep of the fund after
    the checkpoint: 51 funds are counted and the next run resumes at
    50. *)
Lemma X16_checkpoint_is_consistent_sample :
  50 <= successful (stopped (catalog 52) (InFund 50 AtSleep))
        + failed (stopped (catalog 52) (InFund 50 AtSleep))
  /\ 50 mod 50 = 0
  /\ successful
       (set_counters
          (new_enricher
             (output_file (stopped (catalog 52) (InFund 50 AtSleep))))
          0 50)
     + failed
         (set_counters
            (new_enricher
               (output_file (stopped (catalog 52) (InFund 50 AtSleep))))
            0 50)
     = 50.
Proof.
  apply (X16_checkpoint_is_consistent (catalog 52) api_down returns_at
           today (lit "yes") (lit "no") (lit "yes")
           (Some (InFund 50 AtSleep))
           (stopped (catalog 52) (InFund 50 AtSleep)) _ Interrupted 50).
  - vm_compute. reflexivity.
  - vm_compute. reflexivity.
Defined.




(** Three funds and an API that is down: three entries in the log, and
    the log is written. *)
Lemma X20_error_log_sample :
  errors (finished three_funds api_down)
  = errors (new_enricher None)
    ++ flat_map (error_at api_down returns_at (funds three_funds))
                (range 0 (List.length (funds three_funds)))
  /\ errors_file (finished three_funds api_down)
     = match errors (finished three_funds api_down) with
       | [] => errors_file (new_enricher None)
       | _ :: _ => Some (errors (finished three_funds api_down))
       end.
Proof.
  apply (X20_error_log three_funds api_down returns_at today 0
           (new_enricher None)).
  vm_compute. reflexivity.
Defined.


(** A series of five weeks has no return at all. *)
Lemma X23_short_history_has_no_long_return_sample :
  horizon_value
    (calculate_returns decimal_float strptime_dmy clock history_short)
    Year1 = None
  /\ horizon_value
       (calculate_returns decimal_float strptime_dmy clock history_short)
       Year3 = None
  /\ horizon_value
       (calculate_returns decimal_float strptime_dmy clock history_short)
       Year5 = None.
Proof.
  assert (H : get_nav_n_days_ago decimal_float strptime_dmy (clock 0)
                                 history_short 365 = None)
    by (vm_compute; reflexivity).
  split; [|split];
    apply (proj1 (X23_short_history_has_no_long_return decimal_float
                    strptime_dmy clock history_short
                    ltac:(vm_compute; discriminate)
                    ltac:(vm_compute; discriminate)) H).
Defined.

End OnMoreSamples.
